(** * Telegram webhook handler of CloudFlare-ImgBed: batched upload
      coalescing and deduplication

    A shallow embedding of [handleTelegramMessage], in its version with the
    [/dir] command and media-group support, and of the deferred finalize
    task it hands to [context.waitUntil].

    Layout of the development:
    - [JS]: the JavaScript built-ins the handler uses (strings, numbers,
      truthiness, object literals);
    - the Telegram update, the configuration records and the key-value store;
    - [Prog]: a small free monad in which every [await] of the source is one
      visible call, with [try_catch];
    - the handler and the finalize task, written once in that monad;
    - two semantics: [run] executes one invocation without interruption,
      [sched] interleaves several invocations at their calls;
    - [Sample]: a concrete deployment on which the handler is evaluated;
    - the properties.

    What is not modelled: [console.log]; the passing of time (the delay of
    the finalize task is a call like any other, and entries do not expire:
    their [expirationTtl] is only recorded); the rounding of binary64
    numbers; the records the allocator and the index updater keep for
    themselves. *)

From Stdlib Require Import ZArith Ascii String List Lia.
From stdpp Require Import base gmap strings list fin_maps pretty numbers sorting.

Local Open Scope string_scope.
Local Open Scope list_scope.
Local Open Scope Z_scope.

(* ===================================================================== *)
(** * JavaScript built-ins                                                *)
(* ===================================================================== *)

Module JS.

(** Values that end up in object literals, metadata and results. *)
#[local] Unset Elimination Schemes.
Inductive jsval : Type :=
| JUndefined
| JNull
| JBool (b : bool)
| JNum (n : Z)
| JStr (s : string)
| JArr (l : list jsval)
| JObj (fields : list (string * jsval)).
#[local] Set Elimination Schemes.

(** An object literal: its own properties, in the order they were written. *)
Definition object : Type := list (string * jsval).

Fixpoint get_field (o : object) (name : string) : jsval :=
  match o with
  | [] => JUndefined
  | (k, v) :: o' => if String.eqb k name then v else get_field o' name
  end.


(** [o.name = v] on an object that does not have the property yet appends
    it; otherwise the property is overwritten in place. *)
Fixpoint set_field (o : object) (name : string) (v : jsval) : object :=
  match o with
  | [] => [(name, v)]
  | (k, w) :: o' =>
      if String.eqb k name then (k, v) :: o' else (k, w) :: set_field o' name v
  end.

Definition keys (o : object) : list string := map fst o.

(** [metadata?.name]: optional chaining on a possibly missing object. *)
Definition opt_field (o : option object) (name : string) : jsval :=
  match o with
  | None => JUndefined
  | Some o => get_field o name
  end.

(** ToBoolean. *)
Definition truthy (v : jsval) : bool :=
  match v with
  | JUndefined | JNull => false
  | JBool b => b
  | JNum n => negb (n =? 0)
  | JStr s => negb (String.eqb s "")
  | JArr _ | JObj _ => true
  end.

Definition truthy_str (s : string) : bool := negb (String.eqb s "").

(** [a || b] *)
Definition or_else (a b : jsval) : jsval := if truthy a then a else b.
Definition str_or (a b : string) : string := if truthy_str a then a else b.

(** [v === s] for a string [s]. *)
Definition strict_eq_str (v : jsval) (s : string) : bool :=
  match v with
  | JStr t => String.eqb t s
  | _ => false
  end.

(** ** Strings *)

Definition nl : string := String (ascii_of_nat 10) EmptyString.

Definition startsWith (s p : string) : bool := String.prefix p s.

(** [s.lastIndexOf(c)] for a one-character search string; [-1] when the
    character does not occur. *)
Fixpoint lastIndexOf_from (c : ascii) (s : string) (i acc : Z) : Z :=
  match s with
  | EmptyString => acc
  | String a s' => lastIndexOf_from c s' (i + 1) (if Ascii.eqb a c then i else acc)
  end.

Definition lastIndexOf (s : string) (c : ascii) : Z := lastIndexOf_from c s 0 (-1).

(** [s.substring(0, n)] *)
Definition substring0 (s : string) (n : Z) : string :=
  String.substring 0 (Z.to_nat n) s.

(** [s.split(c)[0]]: the part of [s] before the first occurrence of [c]. *)
Fixpoint split_first (c : ascii) (s : string) : string :=
  match s with
  | EmptyString => EmptyString
  | String a s' => if Ascii.eqb a c then EmptyString else String a (split_first c s')
  end.

(** Strings are sequences of UTF-8 bytes. [byte s i] is the byte at index
    [i]; 256 stands for no byte. *)
Definition byte (s : string) (i : nat) : N :=
  match String.get i s with
  | Some a => N_of_ascii a
  | None => 256
  end.

(** The white space of [trim], [trimStart] and of the class [\s]
    (WhiteSpace and LineTerminator of ECMA-262): TAB, LF, VT, FF, CR, SP,
    U+00A0, U+1680, U+2000 to U+200A, U+2028, U+2029, U+202F, U+205F, U+3000
    and U+FEFF. [space_width s] is the number of bytes of the white-space
    character [s] starts with, [0] when it starts with none. Every pattern
    begins with a byte that begins a character, so a match is a character
    of the string. *)
Definition space_width (s : string) : nat :=
  let b0 := byte s 0 in
  let b1 := byte s 1 in
  let b2 := byte s 2 in
  if ((9 <=? b0) && (b0 <=? 13) || (b0 =? 32))%N then 1
  else if ((b0 =? 0xC2) && (b1 =? 0xA0))%N then 2
  else if ((b0 =? 0xE1) && (b1 =? 0x9A) && (b2 =? 0x80))%N then 3
  else if ((b0 =? 0xE2) && (b1 =? 0x80) &&
           ((0x80 <=? b2) && (b2 <=? 0x8A) ||
            (b2 =? 0xA8) || (b2 =? 0xA9) || (b2 =? 0xAF)))%N then 3
  else if ((b0 =? 0xE2) && (b1 =? 0x81) && (b2 =? 0x9F))%N then 3
  else if ((b0 =? 0xE3) && (b1 =? 0x80) && (b2 =? 0x80))%N then 3
  else if ((b0 =? 0xEF) && (b1 =? 0xBB) && (b2 =? 0xBF))%N then 3
  else 0.

(** [s.trimStart()]; [skip] counts the bytes still to drop of the
    white-space character being removed. *)
Fixpoint trimStart_from (skip : nat) (s : string) : string :=
  match skip, s with
  | S n, String _ s' => trimStart_from n s'
  | S _, EmptyString => EmptyString
  | O, EmptyString => EmptyString
  | O, String _ s' =>
      match space_width s with
      | O => s
      | S n => trimStart_from n s'
      end
  end.

Definition trimStart (s : string) : string := trimStart_from 0 s.

(** [s.trimEnd()]: the suffix that is white space only is dropped. *)
Fixpoint trimEnd (s : string) : string :=
  match s with
  | EmptyString => EmptyString
  | String a s' =>
      if String.eqb (trimStart s) "" then EmptyString else String a (trimEnd s')
  end.

Definition trim (s : string) : string := trimEnd (trimStart s).

(** [s.split(/\s+/)]: the pieces of [s] between its maximal runs of white
    space; a run at the start or at the end gives an empty first or last
    piece, and the empty string gives one empty piece. [word] is the piece
    being read, reversed; it is [None] inside a run. *)
Fixpoint split_ws_from (skip : nat) (word : option string) (s : string)
    : list string :=
  match skip, s with
  | S n, String _ s' => split_ws_from n word s'
  | _, EmptyString => [String.rev (default "" word)]
  | O, String a s' =>
      match space_width s with
      | O => split_ws_from 0 (Some (String a (default "" word))) s'
      | S n =>
          match word with
          | Some w => String.rev w :: split_ws_from n None s'
          | None => split_ws_from n None s'
          end
      end
  end.

Definition split_ws (s : string) : list string := split_ws_from 0 (Some "") s.

(** [s.toLowerCase()] on the letters A to Z; the other bytes are kept. The
    handler only compares the result with the literal ['/dir'] (line 42),
    and for that comparison this is exact: the only characters outside
    ASCII whose lower case contains an ASCII letter are U+212A (which gives
    [k]) and U+0130 (which gives [i] followed by U+0307, two characters),
    so a word with a character outside ASCII never becomes ['/dir']. *)
Definition lower_ascii (a : ascii) : ascii :=
  let n := nat_of_ascii a in
  if (Nat.leb 65 n && Nat.leb n 90)%bool then ascii_of_nat (n + 32) else a.

Fixpoint toLowerCase (s : string) : string :=
  match s with
  | EmptyString => EmptyString
  | String a s' => String (lower_ascii a) (toLowerCase s')
  end.

Fixpoint join (sep : string) (l : list string) : string :=
  match l with
  | [] => ""
  | [x] => x
  | x :: l' => x +:+ sep +:+ join sep l'
  end.

(** ToString on values. *)
Fixpoint toString (v : jsval) : string :=
  match v with
  | JUndefined => "undefined"
  | JNull => "null"
  | JBool true => "true"
  | JBool false => "false"
  | JNum n => pretty n
  | JStr s => s
  | JArr l =>
      join "," (List.map (fun x => match x with
                                   | JUndefined | JNull => ""
                                   | _ => toString x
                                   end) l)
  | JObj _ => "[object Object]"
  end.

(** ** Numbers

    The numbers the handler computes with are byte counts divided by
    [1024], decimal strings read back by [parseFloat], and their sums. All
    of them are finite decimals, so a number is kept as an exact decimal
    [m / 10^e] (or [NaN]); the rounding of binary64 is not modelled. *)
Inductive num : Type :=
| NaN
| Dec (m : Z) (e : nat).

Definition pow10 (e : nat) : Z := 10 ^ Z.of_nat e.

Definition num_of_Z (z : Z) : num := Dec z 0.

(** A possibly undefined byte count used as a number. *)
Definition num_of_size (s : option N) : num :=
  match s with
  | Some n => Dec (Z.of_N n) 0
  | None => NaN
  end.

Definition num_add (a b : num) : num :=
  match a, b with
  | Dec m1 e1, Dec m2 e2 =>
      let e := Nat.max e1 e2 in
      Dec (m1 * pow10 (e - e1) + m2 * pow10 (e - e2)) e
  | _, _ => NaN
  end.

(** [x / 1024]: exact, since [1/1024 = 5^10 / 10^10]. *)
Definition num_div_1024 (a : num) : num :=
  match a with
  | Dec m e => Dec (m * 9765625) (e + 10)
  | NaN => NaN
  end.

(** The value of a number in hundredths, rounded half up on the magnitude
    as [toFixed] does. *)
Definition hundredths (m : Z) (e : nat) : Z :=
  (Z.abs m * 200 + pow10 e) / (2 * pow10 e).

Definition digit (d : Z) : string := pretty (d mod 10).

(** [x.toFixed(2)] (for magnitudes below [10^21]). *)
Definition toFixed2 (a : num) : string :=
  match a with
  | NaN => "NaN"
  | Dec m e =>
      let n := hundredths m e in
      (if m <? 0 then "-" else "") +:+
      pretty (n / 100) +:+ "." +:+ digit (n / 10) +:+ digit n
  end.

(** [a > b] on possibly undefined numbers: any comparison with [undefined]
    is false. *)
Definition gt_size (a b : option N) : bool :=
  match a, b with
  | Some x, Some y => (y <? x)%N
  | _, _ => false
  end.

(** *** parseFloat *)

Definition digit_of (a : ascii) : option Z :=
  match Ascii.is_nat a with
  | Some d => Some (Z.of_nat d)
  | None => None
  end.

(** Reads a run of digits: the digits read so far as a number, how many
    were read, and the rest of the string. *)
Fixpoint read_digits (s : string) (acc : Z) (cnt : nat) : Z * nat * string :=
  match s with
  | String a s' =>
      match digit_of a with
      | Some d => read_digits s' (acc * 10 + d) (S cnt)
      | None => (acc, cnt, s)
      end
  | EmptyString => (acc, cnt, s)
  end.

(** The optional exponent part [e[+-]digits]; without digits there is no
    exponent. *)
Definition read_exponent (s : string) : Z :=
  match s with
  | String c s' =>
      if (Ascii.eqb c "e" || Ascii.eqb c "E")%bool then
        let '(neg, s'') :=
          match s' with
          | String "-" r => (true, r)
          | String "+" r => (false, r)
          | _ => (false, s')
          end in
        let '(x, cnt, _) := read_digits s'' 0 0%nat in
        if Nat.eqb cnt 0 then 0 else if neg then - x else x
      else 0
  | EmptyString => 0
  end.

Definition scale_exp (m : Z) (e : nat) (x : Z) : num :=
  if x <? 0 then Dec m (e + Z.to_nat (- x)) else Dec (m * 10 ^ x) e.

(** [parseFloat(s)] for a string: leading white space, a sign, digits, a
    fraction and an exponent; what follows is ignored. The literal
    [Infinity] is not modelled. *)
Definition parseFloat_str (s : string) : num :=
  let s0 := trimStart s in
  let '(neg, s1) :=
    match s0 with
    | String "-" r => (true, r)
    | String "+" r => (false, r)
    | _ => (false, s0)
    end in
  let '(ip, icnt, s2) := read_digits s1 0 0%nat in
  let '(m, fcnt, s3) :=
    match s2 with
    | String "." r => read_digits r ip 0%nat
    | _ => (ip, 0%nat, s2)
    end in
  if (Nat.eqb icnt 0 && Nat.eqb fcnt 0)%bool then NaN
  else scale_exp (if neg then - m else m) fcnt (read_exponent s3).

(** [parseFloat(v)]: the argument is converted to a string first. *)
Definition parseFloat (v : jsval) : num := parseFloat_str (toString v).

End JS.

Import JS.


(* ===================================================================== *)
(** * Data model                                                          *)
(* ===================================================================== *)

(** ** The Telegram update (the fields the handler reads) *)

Record PhotoSize : Type := {
  file_id : string;
  file_size : option N
}.

Record Document : Type := {
  doc_file_id : string;
  doc_file_size : option N;
  doc_file_name : option string;
  doc_mime_type : option string
}.

Record Message : Type := {
  chat_id : Z;
  text : option string;
  photo : option (list PhotoSize);
  document : option Document;
  media_group_id : option string
}.

Record Update : Type := {
  message : option Message
}.

(** ** Configuration documents *)

(** [manage@sysConfig@telegram@webhook], as written by [saveWebhookConfig]
    and [setWebhook]. *)
Record WebhookConfig : Type := {
  enabled : bool;
  secretToken : string;
  targetChannel : string
}.

(** One entry of [uploadConfig.telegram.channels]. *)
Record Channel : Type := {
  ch_name : string;
  ch_botToken : string;
  ch_proxyUrl : option string
}.

(** [manage@sysConfig@upload]; [None] when [telegram] or its [channels] is
    missing. *)
Record UploadConfig : Type := {
  telegram_channels : option (list Channel)
}.

(** ** BatchState: the document kept under [telegram_batch_<group>] *)
Record BatchInfo : Type := {
  messageId : option Z;
  firstFileId : option string
}.

(** ** The key-value store

    The store holds strings. A string that is a JSON document is kept as
    the document it encodes, [JSON.stringify] and [JSON.parse] being inverse
    on documents; [VText] is any other string. *)
Inductive Value : Type :=
| VText (s : string)
| VWebhook (c : WebhookConfig)
| VUpload (u : UploadConfig)
| VBatch (b : BatchInfo).

(** An entry: the string, the metadata object given to [db.put] ([None]
    when there is none) and the [expirationTtl] it was written with. *)
Record Entry : Type := {
  value : Value;
  metadata : option object;
  expirationTtl : option N
}.

Abbreviation Store := (gmap string Entry).

(** The options object of [db.put]. *)
Record PutOpts : Type := {
  po_metadata : option object;
  po_expirationTtl : option N
}.

Definition no_opts : PutOpts := {| po_metadata := None; po_expirationTtl := None |}.

(** The result of [db.getWithMetadata]: both fields are [null] for a key
    that is not in the store. *)
Record FileData : Type := {
  fd_value : option Value;
  fd_metadata : option object
}.

(** A stored string is falsy when it is missing or empty. *)
Definition truthy_value (v : option Value) : bool :=
  match v with
  | None => false
  | Some (VText s) => truthy_str s
  | Some _ => true
  end.

Definition store_get (s : Store) (key : string) : option Value :=
  value <$> s !! key.

Definition store_put (s : Store) (key : string) (v : Value) (opts : PutOpts) : Store :=
  <[key := {| value := v; metadata := po_metadata opts;
              expirationTtl := po_expirationTtl opts |}]> s.

Definition store_delete (s : Store) (key : string) : Store := delete key s.

(** [db.list({prefix}).keys]: the names of the keys with the prefix, in
    lexicographic order. The listing is complete; a page limit of the
    adapter is not modelled. *)
Definition store_list (s : Store) (prefix : string) : list string :=
  merge_sort String.le (filter (fun k => startsWith k prefix = true) (map fst (map_to_list s))).

Definition store_getWithMetadata (s : Store) (key : string) : FileData :=
  match s !! key with
  | Some e => {| fd_value := Some (value e); fd_metadata := metadata e |}
  | None => {| fd_value := None; fd_metadata := None |}
  end.

(** ** Collaborators *)

(** [new TelegramAPI(botToken, proxyUrl)] *)
Record TelegramAPI : Type := {
  api_botToken : string;
  api_proxyUrl : string
}.

(** The reply of [sendMessage] and [editMessageText]; [message_id] is
    [result.message_id], read only when [ok]. *)
Record Response : Type := {
  ok : bool;
  message_id : Z
}.

(** The closure handed to [context.waitUntil], by the variables it
    captures. *)
Record Task : Type := {
  t_chatId : string;
  t_mediaGroupId : string;
  t_api : TelegramAPI
}.

(* ===================================================================== *)
(** * Programs                                                            *)
(* ===================================================================== *)

(** The calls the handler makes to its collaborators. Every [await] of the
    source is one of them; [DateNow] and [DateISO] are synchronous reads of
    the clock. *)
Inductive Op : Type -> Type :=
| DbGet (key : string) : Op (option Value)
| DbPut (key : string) (v : Value) (opts : PutOpts) : Op unit
| DbDelete (key : string) : Op unit
| DbList (prefix : string) : Op (list string)
| DbGetWithMetadata (key : string) : Op FileData
| BuildUniqueFileId (uploadFolder fileName mimeType : string) : Op string
| EndUpload (uploadFolder fullId : string) (meta : object) : Op unit
| SendMessage (api : TelegramAPI) (chatId msg : string) : Op Response
| EditMessageText (api : TelegramAPI) (chatId : string) (mid : option Z) (msg : string) : Op Response
| DateNow : Op N
| DateISO : Op string
| SetTimeout (ms : N) : Op unit
| WaitUntil (t : Task) : Op unit.

(** A call either returns or throws an error with a message. *)
Definition result (X : Type) : Type := X + string.

Inductive Prog (A : Type) : Type :=
| Ret (a : A)
| Throw (e : string)
| Vis {X : Type} (op : Op X) (k : result X -> Prog A).

Arguments Ret {A} a.
Arguments Throw {A} e.
Arguments Vis {A X} op k.

Fixpoint bind {A B : Type} (p : Prog A) (f : A -> Prog B) : Prog B :=
  match p with
  | Ret a => f a
  | Throw e => Throw e
  | Vis op k => Vis op (fun r => bind (k r) f)
  end.

(** [try { p } catch (e) { h e }] *)
Fixpoint try_catch {A : Type} (p : Prog A) (h : string -> Prog A) : Prog A :=
  match p with
  | Ret a => Ret a
  | Throw e => h e
  | Vis op k => Vis op (fun r => try_catch (k r) h)
  end.

(** [await op]: a rejected call throws at the call site. *)
Definition call {X : Type} (op : Op X) : Prog X :=
  Vis op (fun r => match r with inl x => Ret x | inr e => Throw e end).

Declare Scope prog_scope.
Delimit Scope prog_scope with prog.
Notation "x <- c ;; k" := (bind c (fun x => k))
  (at level 100, c at next level, right associativity) : prog_scope.
Notation "c ;;; k" := (bind c (fun _ => k))
  (at level 100, right associativity) : prog_scope.
Local Open Scope prog_scope.

(* ===================================================================== *)
(** * The handler                                                         *)
(* ===================================================================== *)

(** ** Reading documents back

    Each key is read at the type its writers give it. [JSON.parse] of a
    string that is not a document throws; a document of another kind under
    the key is treated the same way. *)

Definition JSON_parse_webhook (v : option Value) : Prog WebhookConfig :=
  match v with
  | Some (VWebhook c) => Ret c
  | _ => Throw "SyntaxError: Unexpected token in JSON"
  end.

Definition JSON_parse_upload (v : option Value) : Prog UploadConfig :=
  match v with
  | Some (VUpload u) => Ret u
  | _ => Throw "SyntaxError: Unexpected token in JSON"
  end.

Definition JSON_parse_batch (v : option Value) : Prog BatchInfo :=
  match v with
  | Some (VBatch b) => Ret b
  | _ => Throw "SyntaxError: Unexpected token in JSON"
  end.

(** [v || dflt] for a stored plain string. *)
Definition text_or (v : option Value) (dflt : string) : Prog string :=
  if truthy_value v then
    match v with
    | Some (VText s) => Ret s
    | _ => Throw "TypeError: not a plain string"
    end
  else Ret dflt.

Definition truthy_opt_str (o : option string) : bool :=
  match o with
  | Some s => truthy_str s
  | None => false
  end.

(** [!batchInfo.messageId] and [!batchInfo.firstFileId] test these. *)
Definition truthy_messageId (o : option Z) : bool :=
  match o with
  | Some n => negb (n =? 0)
  | None => false
  end.

(** The result objects that carry only [success] and [reason]. *)
Definition failure (reason : string) : object :=
  [("success", JBool false); ("reason", JStr reason)].

Definition webhook_key : string := "manage@sysConfig@telegram@webhook".
Definition upload_key : string := "manage@sysConfig@upload".
Definition dir_key (chatId : string) : string := "telegram_upload_dir_" +:+ chatId.
Definition batch_key (mediaGroupId : string) : string := "telegram_batch_" +:+ mediaGroupId.
Definition batch_index_prefix (mediaGroupId : string) : string :=
  "batch_index_" +:+ mediaGroupId +:+ "_".
Definition batch_index_key (mediaGroupId fullId : string) : string :=
  batch_index_prefix mediaGroupId +:+ fullId.

(** [getTelegramChannel(db, channelName)] *)
Definition getTelegramChannel (channelName : string) : Prog (option Channel) :=
  uploadConfigStr <- call (DbGet upload_key) ;;
  if negb (truthy_value uploadConfigStr) then Ret None
  else
    uploadConfig <- JSON_parse_upload uploadConfigStr ;;
    let channels := default [] (telegram_channels uploadConfig) in
    Ret (List.find (fun ch => String.eqb (ch_name ch) channelName) channels).

Definition new_TelegramAPI (channel : Channel) : TelegramAPI :=
  {| api_botToken := ch_botToken channel;
     api_proxyUrl := match ch_proxyUrl channel with
                     | Some p => str_or p ""
                     | None => ""
                     end |}.

(** The [/dir] command (lines 38-67). [Some r] is an early [return r];
    [None] falls through to the file handling. *)
Definition handle_command (msg : Message) (chatId : string) : Prog (option object) :=
  match text msg with
  | Some txt =>
      if (truthy_str txt && startsWith txt "/")%bool then
        let parts := split_ws (trim txt) in
        let command := toLowerCase (hd "" parts) in
        if String.eqb command "/dir" then
          webhookConfig <- call (DbGet webhook_key) ;;
          if negb (truthy_value webhookConfig)
          then Ret (Some (failure "webhook_not_configured"))
          else
            config <- JSON_parse_webhook webhookConfig ;;
            channel <- getTelegramChannel (targetChannel config) ;;
            match channel with
            | None => Ret (Some (failure "channel_not_found"))
            | Some channel =>
                let telegramAPI := new_TelegramAPI channel in
                (if (length parts <? 2)%nat then
                   stored <- call (DbGet (dir_key chatId)) ;;
                   currentDir <- text_or stored "/" ;;
                   call (SendMessage telegramAPI chatId
                           ("📁 当前上传目录: " +:+ currentDir +:+ nl +:+ nl +:+
                            "使用方法: /dir 目录名")) ;;;
                   Ret tt
                 else
                   let dirName := trim (join " " (tl parts)) in
                   call (DbPut (dir_key chatId) (VText dirName) no_opts) ;;;
                   call (SendMessage telegramAPI chatId
                           ("✅ 上传目录已设置为: " +:+ dirName)) ;;;
                   Ret tt) ;;;
                Ret (Some [("success", JBool true); ("reason", JStr "command_handled")])
            end
        else Ret None
      else Ret None
  | None => Ret None
  end.

(** What the handler extracts from a photo or an image document. *)
Record FileInfo : Type := {
  fileId : string;
  fileSize : option N;
  fileName : string;
  fileType : string
}.

(** [message.photo.reduce((prev, current) =>
       (prev.file_size > current.file_size) ? prev : current)];
    [None] stands for the [TypeError] of [reduce] on an empty array. *)
Definition pick (prev current : PhotoSize) : PhotoSize :=
  if gt_size (file_size prev) (file_size current) then prev else current.

Definition largestPhoto (photos : list PhotoSize) : option PhotoSize :=
  match photos with
  | [] => None
  | p :: ps => Some (fold_left pick ps p)
  end.

(** Lines 76-95. [None] is the [not_image] return. *)
Definition extract_file (msg : Message) : Prog (option FileInfo) :=
  match photo msg with
  | Some photos =>
      match largestPhoto photos with
      | None => Throw "TypeError: Reduce of empty array with no initial value"
      | Some largest =>
          iso <- call DateISO ;;
          let timestamp := split_first "T" iso in
          now <- call DateNow ;;
          Ret (Some {| fileId := file_id largest;
                       fileSize := file_size largest;
                       fileName := "photo_" +:+ timestamp +:+ "_" +:+ pretty now +:+ ".jpg";
                       fileType := "image/jpeg" |})
      end
  | None =>
      match document msg with
      | Some doc =>
          match doc_mime_type doc with
          | Some mime =>
              if startsWith mime "image/" then
                name <- (if truthy_opt_str (doc_file_name doc)
                         then Ret (default "" (doc_file_name doc))
                         else now <- call DateNow ;;
                              Ret ("document_" +:+ pretty now +:+ ".jpg")) ;;
                Ret (Some {| fileId := doc_file_id doc;
                             fileSize := doc_file_size doc;
                             fileName := name;
                             fileType := str_or mime "image/jpeg" |})
              else Ret None
          | None => Ret None
          end
      | None => Ret None
      end
  end.

(** The deduplication scan (lines 111-117): the name of the first listed key
    whose metadata records this origin file identifier. *)
Fixpoint dedup_scan (fileId : string) (keys : list string) : Prog (option string) :=
  match keys with
  | [] => Ret None
  | key :: rest =>
      fileData <- call (DbGetWithMetadata key) ;;
      if strict_eq_str (opt_field (fd_metadata fileData) "TgFileId") fileId
      then Ret (Some key)
      else dedup_scan fileId rest
  end.

(** [(fileSize / 1024 / 1024).toFixed(2)] *)
Definition FileSize_of (fileSize : option N) : string :=
  toFixed2 (num_div_1024 (num_div_1024 (num_of_size fileSize))).

(** Lines 139-140. *)
Definition actualDirectory_of (fullId : string) : string :=
  let lastSlashIndex := lastIndexOf fullId "/" in
  if lastSlashIndex =? -1 then "" else substring0 fullId (lastSlashIndex + 1).

(** The truthy media-group identifier, if any. *)
Definition group_of (media_group_id : option string) : option string :=
  match media_group_id with
  | Some g => if truthy_str g then Some g else None
  | None => None
  end.

(** Lines 143-163. *)
Definition build_metadata (channel : Channel) (config : WebhookConfig)
    (file : FileInfo) (chatId fullId : string) (now : N)
    (media_group_id : option string) : object :=
  let metadata :=
    [("Channel", JStr "TelegramNew");
     ("ChannelName", JStr (str_or (ch_name channel) (targetChannel config)));
     ("TgFileId", JStr (fileId file));
     ("TgChatId", JStr chatId);
     ("TgBotToken", JStr (ch_botToken channel));
     ("FileName", JStr (fileName file));
     ("FileType", JStr "image/jpeg");
     ("FileSize", JStr (FileSize_of (fileSize file)));
     ("UploadIP", JStr "Bot");
     ("TimeStamp", JNum (Z.of_N now));
     ("Label", JStr "None");
     ("Directory", JStr (actualDirectory_of fullId));
     ("Tags", JArr []);
     ("MediaGroupId", match group_of media_group_id with
                      | Some g => JStr g
                      | None => JNull
                      end)] in
  if truthy_opt_str (ch_proxyUrl channel)
  then set_field metadata "TgProxyUrl" (JStr (default "" (ch_proxyUrl channel)))
  else metadata.

(** The result of line 182; [error] is [error.message]. *)
Definition database_error (error : string) : object :=
  [("success", JBool false); ("reason", JStr "database_error"); ("error", JStr error)].

(** The options of the two writes of lines 170-178. *)
Definition file_opts (meta : object) : PutOpts :=
  {| po_metadata := Some meta; po_expirationTtl := None |}.

Definition index_opts (meta : object) : PutOpts :=
  {| po_metadata := Some [("size", get_field meta "FileSize")];
     po_expirationTtl := Some 3600%N |}.

(** The primary write (lines 169-183). [Some r] is the [database_error]
    return of the [catch]. *)
Definition primary_write (fullId : string) (meta : object)
    (mediaGroupId : option string) : Prog (option object) :=
  try_catch
    (call (DbPut fullId (VText "") (file_opts meta)) ;;;
     match mediaGroupId with
     | Some g =>
         call (DbPut (batch_index_key g fullId) (VText fullId) (index_opts meta)) ;;;
         Ret None
     | None => Ret None
     end)
    (fun error => Ret (Some (database_error error))).

(** The text of the final edit (lines 248-251). *)
Definition final_text (finalCount : nat) (finalTotalSize : num)
    (first : option string) : string :=
  "✅ 批量保存完成" +:+ nl +:+
  "共保存: " +:+ pretty finalCount +:+ " 张图片" +:+ nl +:+
  "总大小: " +:+ toFixed2 finalTotalSize +:+ "MB" +:+ nl +:+
  "首个文件ID: " +:+ default "null" first.

(** The loop of lines 239-242. *)
Fixpoint sum_sizes (keys : list string) (finalTotalSize : num) : Prog num :=
  match keys with
  | [] => Ret finalTotalSize
  | key :: rest =>
      fileData <- call (DbGetWithMetadata key) ;;
      sum_sizes rest
        (num_add finalTotalSize
           (parseFloat (or_else (opt_field (fd_metadata fileData) "size") (JNum 0))))
  end.

(** The finalize task: the body of the closure of lines 227-257. *)
Definition finalize (t : Task) : Prog unit :=
  let batchKey := batch_key (t_mediaGroupId t) in
  call (SetTimeout 5000%N) ;;;
  finalBatchData <- call (DbGet batchKey) ;;
  if negb (truthy_value finalBatchData) then Ret tt
  else
    finalBatchInfo <- JSON_parse_batch finalBatchData ;;
    finalBatchFiles <- call (DbList (batch_index_prefix (t_mediaGroupId t))) ;;
    let finalCount := length finalBatchFiles in
    finalTotalSize <- sum_sizes finalBatchFiles (num_of_Z 0) ;;
    try_catch
      (call (EditMessageText (t_api t) (t_chatId t) (messageId finalBatchInfo)
               (final_text finalCount finalTotalSize (firstFileId finalBatchInfo))) ;;;
       call (DbDelete batchKey))
      (fun _ => Ret tt).

(** The reply for a file of a media group (lines 196-257). *)
Definition batch_reply (telegramAPI : TelegramAPI) (chatId fullId g : string) : Prog unit :=
  let batchKey := batch_key g in
  batchData <- call (DbGet batchKey) ;;
  batchInfo <- (if truthy_value batchData then JSON_parse_batch batchData
                else Ret {| messageId := None; firstFileId := None |}) ;;
  let batchInfo :=
    if negb (truthy_opt_str (firstFileId batchInfo))
    then {| messageId := messageId batchInfo; firstFileId := Some fullId |}
    else batchInfo in
  batchInfo <- (if negb (truthy_messageId (messageId batchInfo)) then
                  try_catch
                    (response <- call (SendMessage telegramAPI chatId
                                         "📥 正在接收批量图片...") ;;
                     if ok response
                     then Ret {| messageId := Some (message_id response);
                                 firstFileId := firstFileId batchInfo |}
                     else Ret batchInfo)
                    (fun _ => Ret batchInfo)
                else Ret batchInfo) ;;
  call (DbPut batchKey (VBatch batchInfo)
          {| po_metadata := None; po_expirationTtl := Some 60%N |}) ;;;
  call (WaitUntil {| t_chatId := chatId; t_mediaGroupId := g; t_api := telegramAPI |}).

(** The text of the reply for a single file (line 260). *)
Definition single_text (fullId : string) (meta : object) : string :=
  "✅ 图片已保存" +:+ nl +:+ "文件ID: " +:+ fullId +:+ nl +:+
  "大小: " +:+ toString (get_field meta "FileSize") +:+ "MB".

(** The reply for a single file (lines 259-263). *)
Definition single_reply (telegramAPI : TelegramAPI) (chatId fullId : string)
    (meta : object) : Prog unit :=
  try_catch
    (call (SendMessage telegramAPI chatId (single_text fullId meta)) ;;;
     Ret tt)
    (fun _ => Ret tt).

(** The result of lines 266-271. *)
Definition success_result (fullId : string) (meta : object)
    (mediaGroupId : option string) : object :=
  [("success", JBool true);
   ("fileId", JStr fullId);
   ("metadata", JObj meta);
   ("mediaGroupId", match mediaGroupId with
                    | Some g => JStr g
                    | None => JUndefined
                    end)].

(** Lines 185-271: the index update and the reply, once the primary write
    has succeeded. *)
Definition index_and_reply (msg : Message) (chatId : string) (channel : Channel)
    (uploadDir fullId : string) (meta : object) : Prog object :=
  let mediaGroupId := media_group_id msg in
  try_catch (call (EndUpload uploadDir fullId meta)) (fun _ => Ret tt) ;;;
  let telegramAPI := new_TelegramAPI channel in
  match group_of mediaGroupId with
  | Some g => batch_reply telegramAPI chatId fullId g
  | None => single_reply telegramAPI chatId fullId meta
  end ;;;
  Ret (success_result fullId meta mediaGroupId).

(** Lines 138-271: the metadata, the primary write and what follows it,
    once the storage key has been allocated. *)
Definition write_and_reply (msg : Message) (chatId : string) (file : FileInfo)
    (config : WebhookConfig) (channel : Channel) (uploadDir fullId : string) : Prog object :=
  now <- call DateNow ;;
  let meta :=
    build_metadata channel config file chatId fullId now (media_group_id msg) in
  failed <- primary_write fullId meta (group_of (media_group_id msg)) ;;
  match failed with
  | Some r => Ret r
  | None => index_and_reply msg chatId channel uploadDir fullId meta
  end.

(** What the steps before the write hand to the rest: the configuration,
    the channel, the upload directory and the allocated storage key. *)
Definition Prepared : Type := WebhookConfig * Channel * string * string.

(** Lines 97-136: the configuration, the deduplication scan, the upload
    directory, the channel and the allocation of the storage key. [inl r] is
    an early [return r]. *)
Definition prepare (chatId : string) (file : FileInfo) : Prog (object + Prepared) :=
  webhookConfig <- call (DbGet webhook_key) ;;
  if negb (truthy_value webhookConfig) then Ret (inl (failure "webhook_not_configured"))
  else
    config <- JSON_parse_webhook webhookConfig ;;
    if (negb (enabled config) || negb (truthy_str (targetChannel config)))%bool
    then Ret (inl (failure "webhook_disabled"))
    else
      existingFiles <- call (DbList "") ;;
      dup <- dedup_scan (fileId file) existingFiles ;;
      match dup with
      | Some key =>
          Ret (inl [("success", JBool false); ("reason", JStr "already_saved");
                    ("existingFileId", JStr key)])
      | None =>
          stored <- call (DbGet (dir_key chatId)) ;;
          uploadDir <- text_or stored "" ;;
          channel <- getTelegramChannel (targetChannel config) ;;
          match channel with
          | None => Ret (inl (failure "channel_not_found"))
          | Some channel =>
              fullId <- call (BuildUniqueFileId uploadDir (fileName file) "image/jpeg") ;;
              Ret (inr (config, channel, uploadDir, fullId))
          end
      end.

(** Lines 97-271: everything after the file has been extracted. This is the
    processing of one inbound file event
    [{ chatId, originFileId, size, declaredName, mimeType, mediaGroupId }]. *)
Definition store_file (msg : Message) (chatId : string) (file : FileInfo) : Prog object :=
  prepared <- prepare chatId file ;;
  match prepared with
  | inl r => Ret r
  | inr (config, channel, uploadDir, fullId) =>
      write_and_reply msg chatId file config channel uploadDir fullId
  end.

(** [handleTelegramMessage(context, update)] *)
Definition handleTelegramMessage (update : Update) : Prog object :=
  match message update with
  | None => Ret (failure "no_message")
  | Some msg =>
      let chatId := pretty (chat_id msg) in
      early <- handle_command msg chatId ;;
      match early with
      | Some r => Ret r
      | None =>
          file <- extract_file msg ;;
          match file with
          | None => Ret (failure "not_image")
          | Some file => store_file msg chatId file
          end
      end
  end.

(* ===================================================================== *)
(** * Semantics                                                           *)
(* ===================================================================== *)

(** A call that was issued, whatever its outcome. *)
Inductive Call : Type :=
| Called {X : Type} (op : Op X).

(** The world the invocations share: the store and the history of calls, in
    the order they were issued. *)
Record World : Type := {
  store : Store;
  log : list Call
}.

(** The behaviour of the collaborators, which the handler does not control.
    Every call is identified by its position [n] in the history.
    - [db_fails n]: the store call issued as call [n] rejects with this
      message (and leaves the store as it was);
    - [allocate n s folder name mime]: what [buildUniqueFileId] returns;
    - [endUpload_fails n]: [endUpload] rejects;
    - [api_reply n]: the reply of the notification client, or its error;
    - [clock n] and [iso n]: [Date.now()] and [new Date().toISOString()].
    The allocator and the index updater keep their own records; these are
    not part of the modelled store. *)
Record Env : Type := {
  db_fails : nat -> option string;
  allocate : nat -> Store -> string -> string -> string -> result string;
  endUpload_fails : nat -> option string;
  api_reply : nat -> result Response;
  clock : nat -> N;
  iso : nat -> string
}.

Definition record_call {X : Type} (op : Op X) (w : World) : World :=
  {| store := store w; log := log w ++ [Called op] |}.

Definition with_store (s : Store) (w : World) : World :=
  {| store := s; log := log w |}.

(** A store call: it rejects when the environment says so. *)
Definition db_call {X : Type} (env : Env) (n : nat) (w : World)
    (s' : Store) (x : X) : World * result X :=
  match db_fails env n with
  | Some e => (w, inr e)
  | None => (with_store s' w, inl x)
  end.

(** One call, executed atomically. *)
Definition exec (env : Env) {X : Type} (op : Op X) (w : World) : World * result X :=
  let n := length (log w) in
  let w1 := record_call op w in
  let s := store w in
  match op in Op X return World * result X with
  | DbGet key => db_call env n w1 s (store_get s key)
  | DbPut key v opts => db_call env n w1 (store_put s key v opts) tt
  | DbDelete key => db_call env n w1 (store_delete s key) tt
  | DbList prefix => db_call env n w1 s (store_list s prefix)
  | DbGetWithMetadata key => db_call env n w1 s (store_getWithMetadata s key)
  | BuildUniqueFileId folder name mime => (w1, allocate env n s folder name mime)
  | EndUpload _ _ _ =>
      (w1, match endUpload_fails env n with Some e => inr e | None => inl tt end)
  | SendMessage _ _ _ => (w1, api_reply env n)
  | EditMessageText _ _ _ _ => (w1, api_reply env n)
  | DateNow => (w1, inl (clock env n))
  | DateISO => (w1, inl (iso env n))
  | SetTimeout _ => (w1, inl tt)
  | WaitUntil _ => (w1, inl tt)
  end.

(** ** One invocation run to completion *)

Fixpoint run {A : Type} (env : Env) (p : Prog A) (w : World) : World * result A :=
  match p with
  | Ret a => (w, inl a)
  | Throw e => (w, inr e)
  | Vis op k => let '(w', r) := exec env op w in run env (k r) w'
  end.

(** ** Interleaved invocations

    An invocation is suspended at each of its calls. [step] performs the
    next call of one invocation; [sched] follows a schedule, a list of
    positions in the pool of invocations. A finished invocation, or a
    position outside the pool, is skipped. [context.waitUntil] only records
    the task in the history; the recorded tasks are run as invocations of
    their own ([finalize]). *)
Definition step {A : Type} (env : Env) (p : Prog A) (w : World) : World * Prog A :=
  match p with
  | Vis op k => let '(w', r) := exec env op w in (w', k r)
  | _ => (w, p)
  end.

Fixpoint sched {A : Type} (env : Env) (schedule : list nat) (pool : list (Prog A))
    (w : World) : World * list (Prog A) :=
  match schedule with
  | [] => (w, pool)
  | i :: rest =>
      match pool !! i with
      | Some p =>
          let '(w', p') := step env p w in
          sched env rest (<[i := p']> pool) w'
      | None => sched env rest pool w
      end
  end.

(** Invocations run one after the other, each to completion. *)
Fixpoint run_all {A : Type} (env : Env) (pool : list (Prog A)) (w : World)
    : World * list (result A) :=
  match pool with
  | [] => (w, [])
  | p :: rest =>
      let '(w', r) := run env p w in
      let '(w'', rs) := run_all env rest w' in
      (w'', r :: rs)
  end.

(** ** Reading the history *)

Definition is_put (c : Call) : bool :=
  match c with
  | Called op => match op with DbPut _ _ _ => true | _ => false end
  end.

Definition is_delete (c : Call) : bool :=
  match c with
  | Called op => match op with DbDelete _ => true | _ => false end
  end.

Definition is_store_write (c : Call) : bool := is_put c || is_delete c.

Definition is_get (c : Call) : bool :=
  match c with
  | Called op => match op with DbGet _ => true | _ => false end
  end.

Definition is_list (c : Call) : bool :=
  match c with
  | Called op => match op with DbList _ => true | _ => false end
  end.

Definition is_allocate (c : Call) : bool :=
  match c with
  | Called op => match op with BuildUniqueFileId _ _ _ => true | _ => false end
  end.

Definition is_send (c : Call) : bool :=
  match c with
  | Called op => match op with SendMessage _ _ _ => true | _ => false end
  end.

Definition is_edit (c : Call) : bool :=
  match c with
  | Called op => match op with EditMessageText _ _ _ _ => true | _ => false end
  end.

Definition is_waitUntil (c : Call) : bool :=
  match c with
  | Called op => match op with WaitUntil _ => true | _ => false end
  end.

(** The keys of the [db.get] calls, the keys written by [db.put], the keys
    of the [db.delete] calls and the prefixes of the [db.list] calls. *)
Definition get_key (c : Call) : option string :=
  match c with
  | Called op => match op with DbGet k => Some k | _ => None end
  end.

Definition put_key (c : Call) : option string :=
  match c with
  | Called op => match op with DbPut k _ _ => Some k | _ => None end
  end.

Definition delete_key (c : Call) : option string :=
  match c with
  | Called op => match op with DbDelete k => Some k | _ => None end
  end.

(** The key of a [db.getWithMetadata] call. *)
Definition read_key (c : Call) : option string :=
  match c with
  | Called op => match op with DbGetWithMetadata k => Some k | _ => None end
  end.

Definition list_prefix (c : Call) : option string :=
  match c with
  | Called op => match op with DbList p => Some p | _ => None end
  end.

(** A [db.put] call, an [editMessageText] call, a [sendMessage] call and a
    [waitUntil] call by their arguments. *)
Definition put_of (c : Call) : option (string * Value * PutOpts) :=
  match c with
  | Called op => match op with DbPut k v o => Some (k, v, o) | _ => None end
  end.

Definition edit_of (c : Call) : option (string * option Z * string) :=
  match c with
  | Called op =>
      match op with EditMessageText _ chat mid msg => Some (chat, mid, msg) | _ => None end
  end.

Definition send_of (c : Call) : option (string * string) :=
  match c with
  | Called op => match op with SendMessage _ chat msg => Some (chat, msg) | _ => None end
  end.

Definition wait_of (c : Call) : option Task :=
  match c with
  | Called op => match op with WaitUntil t => Some t | _ => None end
  end.

Definition count (f : Call -> bool) (l : list Call) : nat := length (List.filter f l).

(** A call that neither writes to the store nor notifies nor schedules. *)
Definition quiet (c : Call) : bool :=
  negb (is_store_write c || is_send c || is_edit c || is_waitUntil c).

(** No [db.put] of a plain string: the StoredFile put and the batch-index
    put are the only such writes the handler issues for a file. *)
Definition no_plain_put (c : Call) : Prop :=
  forall k s o, put_of c <> Some (k, VText s, o).

(** Among the calls [d], issued from position [base] of the history on,
    there is a [db.put] of the plain string [s] under [k] with options [o]
    that the store rejects with [e]. *)
Definition failed_plain_put (env : Env) (base : nat) (d : list Call)
    (k s : string) (o : PutOpts) (e : string) : Prop :=
  exists i c, d !! i = Some c /\ put_of c = Some (k, VText s, o) /\
              db_fails env (base + i) = Some e.

(** The entry under [key] records [fileId] as its origin (line 113). *)
Definition records_origin (s : Store) (key fileId : string) : bool :=
  strict_eq_str (opt_field (fd_metadata (store_getWithMetadata s key)) "TgFileId") fileId.

(** What a finalize task issues when it does not find the BatchState. *)
Definition guard_calls (g : string) : list Call :=
  [Called (SetTimeout 5000%N); Called (DbGet (batch_key g))].

(** The [getWithMetadata] calls of a loop over [keys]. *)
Definition reads (keys : list string) : list Call :=
  map (fun k => Called (DbGetWithMetadata k)) keys.

(** The size an index entry contributes to the total (line 241), and the
    total over the listed keys. *)
Definition entry_size (s : Store) (key : string) : num :=
  parseFloat (or_else (opt_field (fd_metadata (store_getWithMetadata s key)) "size") (JNum 0)).

Definition total_size (s : Store) (keys : list string) (start : num) : num :=
  fold_left (fun acc key => num_add acc (entry_size s key)) keys start.


(** The calls issued between two worlds of one execution. *)
Definition calls_since (w w' : World) : list Call := drop (length (log w)) (log w').

(** ** Invocations of the worker

    What the worker runs: the handler on an update, or a finalize task
    (the closure a grouped arrival hands to [context.waitUntil]). *)
Inductive Invocation : Type :=
| Handles (update : Update)
| Finalizes (t : Task).

Definition task_of (i : Invocation) : option Task :=
  match i with
  | Finalizes t => Some t
  | Handles _ => None
  end.

Definition is_task (i : Invocation) : bool :=
  match i with
  | Finalizes _ => true
  | Handles _ => false
  end.

Definition is_arrival (i : Invocation) : bool := negb (is_task i).

(** The world after an invocation has run to completion. *)
Definition invoke (env : Env) (i : Invocation) (w : World) : World :=
  match i with
  | Handles update => fst (run env (handleTelegramMessage update) w)
  | Finalizes t => fst (run env (finalize t) w)
  end.

(** Invocations run one after the other, each to completion. *)
Definition invoke_all (env : Env) (invocations : list Invocation) (w : World) : World :=
  fold_left (fun w0 i => invoke env i w0) invocations w.

(** The calls issued in such a run by the invocations selected by [sel]. *)
Fixpoint calls_of (sel : Invocation -> bool) (env : Env)
    (invocations : list Invocation) (w : World) : list Call :=
  match invocations with
  | [] => []
  | i :: rest =>
      (if sel i then calls_since w (invoke env i w) else []) ++
      calls_of sel env rest (invoke env i w)
  end.

(** The call writes the key [k]: it puts or deletes it. *)
Definition writes_key (k : string) (c : Call) : bool :=
  match c with
  | Called op =>
      match op with
      | DbPut k' _ _ => String.eqb k' k
      | DbDelete k' => String.eqb k' k
      | _ => false
      end
  end.

(* ===================================================================== *)
(** * A concrete deployment, used to evaluate the handler                 *)
(* ===================================================================== *)

Module Sample.

Definition channel : Channel :=
  {| ch_name := "main"; ch_botToken := "TOKEN"; ch_proxyUrl := None |}.

Definition plain (v : Value) : Entry :=
  {| value := v; metadata := None; expirationTtl := None |}.

(** A store holding an enabled webhook configuration and one channel. *)
Definition configured : Store :=
  <[webhook_key := plain (VWebhook {| enabled := true; secretToken := "secret";
                                      targetChannel := "main" |})]>
  (<[upload_key := plain (VUpload {| telegram_channels := Some [channel] |})]> ∅).

(** No call fails; the allocator puts the name under the folder; message
    identifiers and time stamps follow the position in the history. *)
Definition env : Env :=
  {| db_fails := fun _ => None;
     allocate := fun _ _ folder name _ =>
                   inl (if String.eqb folder "" then name else folder +:+ "/" +:+ name);
     endUpload_fails := fun _ => None;
     api_reply := fun n => inl {| ok := true; message_id := Z.of_nat n |};
     clock := fun n => N.of_nat n;
     iso := fun _ => "2024-01-02T03:04:05.000Z" |}.

(** The same, but the notification client throws on every call. *)
Definition env_api_down : Env :=
  {| db_fails := db_fails env;
     allocate := allocate env;
     endUpload_fails := endUpload_fails env;
     api_reply := fun _ => inr "fetch failed";
     clock := clock env;
     iso := iso env |}.

(** The same as [env], but the store call issued as call [k] rejects. *)
Definition env_db_fails_at (k : nat) : Env :=
  {| db_fails := fun n => if Nat.eqb n k then Some "KV put failed" else None;
     allocate := allocate env;
     endUpload_fails := endUpload_fails env;
     api_reply := api_reply env;
     clock := clock env;
     iso := iso env |}.

Definition world : World := {| store := configured; log := [] |}.

Definition photo_update (fid : string) (size : N) (group : option string) : Update :=
  {| message := Some {| chat_id := 42; text := None;
                        photo := Some [ {| file_id := fid +:+ "_thumb"; file_size := Some 10%N |};
                                        {| file_id := fid; file_size := Some size |} ];
                        document := None;
                        media_group_id := group |} |}.

Definition document_update (fid name mime : string) (size : N) : Update :=
  {| message := Some {| chat_id := 42; text := None; photo := None;
                        document := Some {| doc_file_id := fid;
                                            doc_file_size := Some size;
                                            doc_file_name := Some name;
                                            doc_mime_type := Some mime |};
                        media_group_id := None |} |}.

(** A text message, such as the [/dir] command. *)
Definition text_update (t : string) : Update :=
  {| message := Some {| chat_id := 42; text := Some t; photo := None;
                        document := None; media_group_id := None |} |}.

(** A photo in four renditions, two of them of the largest size. *)
Definition album : list PhotoSize :=
  [ {| file_id := "a"; file_size := Some 7%N |};
    {| file_id := "b"; file_size := Some 9%N |};
    {| file_id := "c"; file_size := Some 9%N |};
    {| file_id := "d"; file_size := Some 2%N |} ].

Definition album_message : Message :=
  {| chat_id := 42; text := None; photo := Some album; document := None;
     media_group_id := None |}.

Definition api : TelegramAPI := new_TelegramAPI channel.

Definition task (group : string) : Task :=
  {| t_chatId := "42"; t_mediaGroupId := group; t_api := api |}.

(** The world after the handler has processed the given updates, one after
    the other. *)
Fixpoint after (e : Env) (updates : list Update) (w : World) : World :=
  match updates with
  | [] => w
  | u :: rest => after e rest (fst (run e (handleTelegramMessage u) w))
  end.

(** The file event of [photo_update "f1" 1048576 group], as extracted. *)
Definition photo_message (group : option string) : Message :=
  default album_message (message (photo_update "f1" 1048576 group)).

Definition photo_file : FileInfo :=
  {| fileId := "f1"; fileSize := Some 1048576%N;
     fileName := "photo_2024-01-02_1.jpg"; fileType := "image/jpeg" |}.

(** A second photo of the same media group, as extracted. *)
Definition second_file : FileInfo :=
  {| fileId := "f2"; fileSize := Some 2097152%N;
     fileName := "photo_2024-01-02_18.jpg"; fileType := "image/jpeg" |}.

(** A PNG image sent as a document. *)
Definition png_update : Update := document_update "d1" "cat.png" "image/png" 3000000.

Definition png_message : Message := default album_message (message png_update).

(** The webhook configuration of [configured]. *)
Definition webhook : WebhookConfig :=
  {| enabled := true; secretToken := "secret"; targetChannel := "main" |}.

(** Two photos of the media group [g1] have been processed; their two
    finalize tasks are pending. *)
Definition two_arrivals : World :=
  after env [photo_update "f1" 1048576 (Some "g1");
             photo_update "f2" 2097152 (Some "g1")] world.

(** The same two photos, in the other order of arrival. *)
Definition swapped_arrivals : World :=
  after env [photo_update "f2" 2097152 (Some "g1");
             photo_update "f1" 1048576 (Some "g1")] world.

Definition pending : list Task := omap wait_of (log two_arrivals).

(** A third photo of the group arrives after the first finalize task has
    run and before the second. *)
Definition late_arrival : list Invocation :=
  [Finalizes (task "g1"); Handles (photo_update "f3" 4096 (Some "g1"));
   Finalizes (task "g1")].

(** A single photo and a photo of another group arrive around the two
    finalize tasks. *)
Definition other_arrivals : list Invocation :=
  [Handles (photo_update "f3" 2048 None); Finalizes (task "g1");
   Handles (photo_update "f4" 4096 (Some "g2")); Finalizes (task "g1")].

(** The two pending tasks take turns, one call each. *)
Definition alternate : list nat := [0; 1; 0; 1; 0; 1; 0; 1; 0; 1; 0; 1; 0; 1]%nat.

(** Two photos of the media group [g1] arrive together. The first
    invocation runs up to its read of the BatchState, then the second does
    the same; then each sends, writes the BatchState and schedules its task,
    the first before the second. *)
Definition together : list (Prog object) :=
  [handleTelegramMessage (photo_update "f1" 1048576 (Some "g1"));
   handleTelegramMessage (photo_update "f2" 2097152 (Some "g1"))].

Definition both_read_first : list nat := replicate 14 0%nat ++ replicate 16 1%nat.

(** One photo of the media group [g1] was processed while the notification
    client was down: the BatchState has no notification handle. *)
Definition arrival_api_down : World :=
  after env_api_down [photo_update "f1" 1048576 (Some "g1")] world.

(** One photo of the media group [g1] has been processed. *)
Definition first_arrival : World :=
  after env [photo_update "f1" 1048576 (Some "g1")] world.

(** One single photo has been processed. *)
Definition one_arrival : World :=
  after env [photo_update "f1" 1048576 None] world.

End Sample.

(* ===================================================================== *)
(** * Specification vocabulary                                            *)
(* ===================================================================== *)






(** A property of every value a program can return, whatever its calls
    answer. *)
Inductive all_rets {A : Type} (P : A -> Prop) : Prog A -> Prop :=
| all_rets_Ret a : P a -> all_rets P (Ret a)
| all_rets_Throw e : all_rets P (Throw e)
| all_rets_Vis {X : Type} (op : Op X) k :
    (forall r, all_rets P (k r)) -> all_rets P (Vis op k).

(** A property of every call a program can issue, whatever its calls
    answer. *)
Inductive all_ops {A : Type} (P : Call -> Prop) : Prog A -> Prop :=
| all_ops_Ret a : all_ops P (Ret a)
| all_ops_Throw e : all_ops P (Throw e)
| all_ops_Vis {X : Type} (op : Op X) k :
    P (Called op) -> (forall r, all_ops P (k r)) -> all_ops P (Vis op k).

(** [d] is the list of calls issued from [w] to [w']. *)
Definition extends (w w' : World) (d : list Call) : Prop := log w' = (log w ++ d)%list.

(** The element chosen by [largestPhoto] is a last maximum. *)
Definition last_maximum (photos : list PhotoSize) (chosen : PhotoSize) : Prop :=
  exists before after,
    photos = (before ++ chosen :: after)%list /\
    (forall p a b, p ∈ before -> file_size p = Some a -> file_size chosen = Some b ->
                   (a <= b)%N) /\
    (forall p a b, p ∈ after -> file_size p = Some a -> file_size chosen = Some b ->
                   (a < b)%N).

(** The largest photo in the words of the specification: [chosen] is an
    element of the array whose [file_size] is maximal among all elements,
    that is a number which no [file_size] of the array exceeds. *)
Definition maximal_size (photos : list PhotoSize) (chosen : PhotoSize) : Prop :=
  chosen ∈ photos /\
  exists b, file_size chosen = Some b /\
            forall p a, p ∈ photos -> file_size p = Some a -> (a <= b)%N.

(* ===================================================================== *)
(** * HTTP responses                                                      *)
(* ===================================================================== *)

(** The body of a [Response]: a plain text, or the text
    [JSON.stringify(o)] of an object literal, kept as the object. *)
Inductive Body : Type :=
| BText (s : string)
| BJson (o : object).

(** [new Response(body, { status })]; the status is 200 when none is
    given. *)
Record HttpResponse : Type := {
  http_status : Z;
  http_body : Body
}.

(** [JSON.stringify] of an object literal leaves out the properties whose
    value is [undefined]. *)
Definition is_defined (f : string * jsval) : bool :=
  match snd f with
  | JUndefined => false
  | _ => true
  end.

Definition JSON_stringify (o : object) : Body := BJson (List.filter is_defined o).

(* ===================================================================== *)
(** * The webhook endpoint (functions/webhook/telegram.js)                *)
(* ===================================================================== *)

Module Webhook.

(** What [onRequest] reads of the request: the method, the header
    [X-Telegram-Bot-Api-Secret-Token] ([None] when absent) and the outcome
    of [request.json()], the parsed update or the error it throws. *)
Record Request : Type := {
  req_method : string;
  req_secret : option string;
  req_json : result Update
}.

Definition text_response (status : Z) (s : string) : HttpResponse :=
  {| http_status := status; http_body := BText s |}.

(** The three answers with status 200 (lines 44-72). *)
Definition processed (r : object) : HttpResponse :=
  {| http_status := 200;
     http_body := JSON_stringify [("ok", JBool true); ("fileId", get_field r "fileId")] |}.

Definition skipped (r : object) : HttpResponse :=
  {| http_status := 200;
     http_body := JSON_stringify [("ok", JBool true); ("skipped", JBool true);
                                  ("reason", get_field r "reason")] |}.

Definition internal_error : HttpResponse :=
  {| http_status := 200;
     http_body := JSON_stringify [("ok", JBool true); ("error", JStr "Internal error")] |}.

(** [header && header === config.secretToken] *)
Definition authorized (header : option string) (config : WebhookConfig) : bool :=
  match header with
  | Some h => truthy_str h && String.eqb h (secretToken config)
  | None => false
  end.

(** [onRequest(context)]. The handler it imports is a parameter: the file
    imports [handleTelegramMessage] from the module beside it. *)
Definition onRequest (handler : Update -> Prog object) (request : Request)
    : Prog HttpResponse :=
  if negb (String.eqb (req_method request) "POST")
  then Ret (text_response 405 "Method not allowed")
  else
    try_catch
      (webhookConfig <- call (DbGet webhook_key) ;;
       if negb (truthy_value webhookConfig)
       then Ret (text_response 400 "Webhook not configured")
       else
         config <- JSON_parse_webhook webhookConfig ;;
         if negb (enabled config) then Ret (text_response 403 "Webhook disabled")
         else if negb (authorized (req_secret request) config)
         then Ret (text_response 401 "Unauthorized")
         else
           update <- match req_json request with
                     | inl u => Ret u
                     | inr e => Throw e
                     end ;;
           result <- handler update ;;
           if truthy (get_field result "success")
           then Ret (processed result)
           else Ret (skipped result))
      (fun _ => Ret internal_error).

End Webhook.

(* ===================================================================== *)
(** * The handler without deduplication and media groups
      (functions/webhook/telegramMessageHandler.js)                       *)
(* ===================================================================== *)

Module Legacy.

(** Lines 87-101. *)
Definition build_metadata (channel : Channel) (config : WebhookConfig)
    (file : FileInfo) (chatId : string) (now : N) : object :=
  let metadata :=
    [("Channel", JStr "TelegramNew");
     ("ChannelName", JStr (str_or (ch_name channel) (targetChannel config)));
     ("TgFileId", JStr (fileId file));
     ("TgChatId", JStr chatId);
     ("TgBotToken", JStr (ch_botToken channel));
     ("FileName", JStr (fileName file));
     ("FileType", JStr "image/jpeg");
     ("FileSize", JStr (FileSize_of (fileSize file)));
     ("UploadIP", JStr "Bot");
     ("TimeStamp", JNum (Z.of_N now));
     ("Label", JStr "None");
     ("Directory", JStr "");
     ("Tags", JArr [])] in
  if truthy_opt_str (ch_proxyUrl channel)
  then set_field metadata "TgProxyUrl" (JStr (default "" (ch_proxyUrl channel)))
  else metadata.

(** Lines 59-135: everything after the file has been extracted. *)
Definition store_file (chatId : string) (file : FileInfo) : Prog object :=
  webhookConfig <- call (DbGet webhook_key) ;;
  if negb (truthy_value webhookConfig) then Ret (failure "webhook_not_configured")
  else
    config <- JSON_parse_webhook webhookConfig ;;
    if (negb (enabled config) || negb (truthy_str (targetChannel config)))%bool
    then Ret (failure "webhook_disabled")
    else
      channel <- getTelegramChannel (targetChannel config) ;;
      match channel with
      | None => Ret (failure "channel_not_found")
      | Some channel =>
          fullId <- call (BuildUniqueFileId "" (fileName file) "image/jpeg") ;;
          now <- call DateNow ;;
          let meta := build_metadata channel config file chatId now in
          failed <- try_catch
                      (call (DbPut fullId (VText "") (file_opts meta)) ;;; Ret None)
                      (fun error => Ret (Some (database_error error))) ;;
          match failed with
          | Some r => Ret r
          | None =>
              try_catch (call (EndUpload "" fullId meta)) (fun _ => Ret tt) ;;;
              try_catch
                (call (SendMessage (new_TelegramAPI channel) chatId
                         (single_text fullId meta)) ;;;
                 Ret tt)
                (fun _ => Ret tt) ;;;
              Ret [("success", JBool true); ("fileId", JStr fullId);
                   ("metadata", JObj meta)]
          end
      end.

(** [handleTelegramMessage(context, update)] *)
Definition handleTelegramMessage (update : Update) : Prog object :=
  match message update with
  | None => Ret (failure "no_message")
  | Some msg =>
      let chatId := pretty (chat_id msg) in
      file <- extract_file msg ;;
      match file with
      | None => Ret (failure "not_image")
      | Some file => store_file chatId file
      end
  end.

End Legacy.

(* ===================================================================== *)
(** * The management API: the local configuration
      (functions/api/manage/telegram-bot/webhook.js)                      *)
(* ===================================================================== *)

Module Manage.

(** The fields of the POST body the functions read; [None] is a missing
    field. *)
Record RequestBody : Type := {
  b_action : option string;
  b_webhookUrl : option string;
  b_enabled : option bool;
  b_secretToken : option string;
  b_targetChannel : option string
}.

(** What [onRequest] reads of the request: the method, the [action]
    parameter of the URL ([None] when absent) and the outcome of
    [request.json()]: the error it rejects with, or the value it resolves
    to. [None] is the JSON value [null], the one value whose properties
    cannot be read; any other value is given by the fields read from it (a
    number, a string, a boolean or an array has none of them). *)
Record Request : Type := {
  req_method : string;
  req_action : option string;
  req_json : result (option RequestBody)
}.

(** The [TypeError] of [body.action] on [null] (line 44). *)
Definition null_body : string :=
  "TypeError: Cannot read properties of null (reading 'action')".

(** The calls to the Telegram Bot API made through [TelegramAPI]. *)
Inductive BotRequest : Type :=
| SetWebhook (webhookUrl secretToken : string)
| DeleteWebhook
| GetWebhookInfo.

(** The Telegram Bot API, which the functions do not control: what it
    answers to a call (the JSON object of the answer), or the error the
    call throws. *)
Definition Telegram : Type := TelegramAPI -> BotRequest -> result object.

(** [await] of a call that has been answered. *)
Definition await {X : Type} (r : result X) : Prog X :=
  match r with
  | inl x => Ret x
  | inr e => Throw e
  end.

(** The configuration as the object that is stringified. *)
Definition config_object (c : WebhookConfig) : object :=
  [("enabled", JBool (enabled c));
   ("secretToken", JStr (secretToken c));
   ("targetChannel", JStr (targetChannel c))].

(** The configuration of lines 68-72, returned when none is stored. *)
Definition default_config : WebhookConfig :=
  {| enabled := false; secretToken := ""; targetChannel := "" |}.

Definition json_response (status : Z) (o : object) : HttpResponse :=
  {| http_status := status; http_body := JSON_stringify o |}.

Definition error_response (e : string) : HttpResponse :=
  json_response 500 [("error", JStr e)].

(** [getWebhookConfig(db)] *)
Definition getWebhookConfig : Prog HttpResponse :=
  try_catch
    (configStr <- call (DbGet webhook_key) ;;
     config <- (if truthy_value configStr then JSON_parse_webhook configStr
                else Ret default_config) ;;
     Ret (json_response 200 (config_object config)))
    (fun error => Ret (error_response error)).

(** The configuration built from the body (lines 91-95): a missing or
    falsy field takes its default. *)
Definition config_of_body (body : RequestBody) : WebhookConfig :=
  {| enabled := default false (b_enabled body);
     secretToken := default "" (b_secretToken body);
     targetChannel := default "" (b_targetChannel body) |}.

(** [saveWebhookConfig(db, body)] *)
Definition saveWebhookConfig (body : RequestBody) : Prog HttpResponse :=
  try_catch
    (let config := config_of_body body in
     call (DbPut webhook_key (VWebhook config) no_opts) ;;;
     Ret (json_response 200 [("success", JBool true);
                             ("config", JObj (config_object config))]))
    (fun error => Ret (error_response error)).

(** The answer to a call that Telegram did not accept. *)
Definition refused (result : object) (dflt : string) : HttpResponse :=
  json_response 400 [("success", JBool false);
                     ("error", or_else (get_field result "description") (JStr dflt))].

Definition channel_not_found (targetChannel : string) : HttpResponse :=
  json_response 404 [("error", JStr ("Channel not found: " +:+ targetChannel))].

Definition not_configured : HttpResponse :=
  json_response 404 [("error", JStr "Webhook not configured")].

(** [setWebhook(db, env, body)] *)
Definition setWebhook (telegram : Telegram) (body : RequestBody) : Prog HttpResponse :=
  try_catch
    (if (negb (truthy_opt_str (b_webhookUrl body)) ||
         negb (truthy_opt_str (b_secretToken body)) ||
         negb (truthy_opt_str (b_targetChannel body)))%bool
     then Ret (json_response 400
                 [("error",
                   JStr "Missing required parameters: webhookUrl, secretToken, targetChannel")])
     else
       let webhookUrl := default "" (b_webhookUrl body) in
       let secretToken := default "" (b_secretToken body) in
       let targetChannel := default "" (b_targetChannel body) in
       channelConfig <- getTelegramChannel targetChannel ;;
       match channelConfig with
       | None => Ret (channel_not_found targetChannel)
       | Some channelConfig =>
           if negb (truthy_str (ch_botToken channelConfig))
           then Ret (json_response 400
                       [("error", JStr "Bot token not found in channel config")])
           else
             let telegramAPI := new_TelegramAPI channelConfig in
             result <- await (telegram telegramAPI (SetWebhook webhookUrl secretToken)) ;;
             if truthy (get_field result "ok") then
               let config := {| enabled := true; secretToken := secretToken;
                                targetChannel := targetChannel |} in
               call (DbPut webhook_key (VWebhook config) no_opts) ;;;
               Ret (json_response 200 [("success", JBool true);
                                       ("result", JObj result);
                                       ("config", JObj (config_object config))])
             else Ret (refused result "Failed to set webhook")
       end)
    (fun error => Ret (error_response error)).

(** [deleteWebhook(db, env)] *)
Definition deleteWebhook (telegram : Telegram) : Prog HttpResponse :=
  try_catch
    (configStr <- call (DbGet webhook_key) ;;
     if negb (truthy_value configStr) then Ret not_configured
     else
       config <- JSON_parse_webhook configStr ;;
       let targetChannel := targetChannel config in
       channelConfig <- getTelegramChannel targetChannel ;;
       match channelConfig with
       | None => Ret (channel_not_found targetChannel)
       | Some channelConfig =>
           let telegramAPI := new_TelegramAPI channelConfig in
           result <- await (telegram telegramAPI DeleteWebhook) ;;
           if truthy (get_field result "ok") then
             let config := {| enabled := false; secretToken := secretToken config;
                              targetChannel := targetChannel |} in
             call (DbPut webhook_key (VWebhook config) no_opts) ;;;
             Ret (json_response 200 [("success", JBool true); ("result", JObj result)])
           else Ret (refused result "Failed to delete webhook")
       end)
    (fun error => Ret (error_response error)).

(** [getWebhookInfo(db, env)] *)
Definition getWebhookInfo (telegram : Telegram) : Prog HttpResponse :=
  try_catch
    (configStr <- call (DbGet webhook_key) ;;
     if negb (truthy_value configStr) then Ret not_configured
     else
       config <- JSON_parse_webhook configStr ;;
       let targetChannel := targetChannel config in
       channelConfig <- getTelegramChannel targetChannel ;;
       match channelConfig with
       | None => Ret (channel_not_found targetChannel)
       | Some channelConfig =>
           let telegramAPI := new_TelegramAPI channelConfig in
           result <- await (telegram telegramAPI GetWebhookInfo) ;;
           Ret (json_response 200 [("success", JBool true);
                                   ("localConfig", JObj (config_object config));
                                   ("telegramInfo", JObj result)])
       end)
    (fun error => Ret (error_response error)).

(** [action === name] for a possibly missing parameter. *)
Definition is_action (action : option string) (name : string) : bool :=
  match action with
  | Some a => String.eqb a name
  | None => false
  end.

(** [onRequest(context)]: the routing. The body of a POST is read outside
    any [try]. *)
Definition onRequest (telegram : Telegram) (request : Request) : Prog HttpResponse :=
  if String.eqb (req_method request) "GET" then
    if is_action (req_action request) "getWebhookInfo"
    then getWebhookInfo telegram
    else getWebhookConfig
  else if String.eqb (req_method request) "POST" then
    body <- await (req_json request) ;;
    body <- match body with
            | Some body => Ret body
            | None => Throw null_body
            end ;;
    let action := b_action body in
    if is_action action "setWebhook" then setWebhook telegram body
    else if is_action action "deleteWebhook" then deleteWebhook telegram
    else if is_action action "saveConfig" then saveWebhookConfig body
    else Ret (json_response 400 [("error", JStr "Invalid action")])
  else Ret {| http_status := 405; http_body := BText "Method not allowed" |}.

End Manage.

(* ===================================================================== *)
(** * The conditions the handler branches on                              *)
(* ===================================================================== *)

(** Lines 38-42: the text is a [/dir] command. *)
Definition is_dir_command (msg : Message) : bool :=
  match text msg with
  | Some txt =>
      truthy_str txt && startsWith txt "/" &&
      String.eqb (toLowerCase (hd "" (split_ws (trim txt)))) "/dir"
  | None => false
  end.

(** The words of the command (line 39). *)
Definition command_parts (msg : Message) : list string :=
  split_ws (trim (default "" (text msg))).

(** Lines 76 and 87: the message carries a photo or an image document. *)
Definition carries_image (msg : Message) : bool :=
  match photo msg with
  | Some _ => true
  | None =>
      match document msg with
      | Some doc =>
          match doc_mime_type doc with
          | Some mime => startsWith mime "image/"
          | None => false
          end
      | None => false
      end
  end.

(** Lines 100-107: a configuration is stored, enabled, and names a target
    channel. *)
Definition webhook_open (s : Store) : bool :=
  match store_get s webhook_key with
  | Some (VWebhook c) => enabled c && truthy_str (targetChannel c)
  | _ => false
  end.

(** The channel [getTelegramChannel] finds in a store that answers. *)
Definition channel_in (s : Store) (channelName : string) : option Channel :=
  match store_get s upload_key with
  | Some (VUpload u) =>
      List.find (fun ch => String.eqb (ch_name ch) channelName)
        (default [] (telegram_channels u))
  | _ => None
  end.

(** The upload directory of a chat (line 120). *)
Definition upload_dir (s : Store) (chatId : string) : string :=
  match store_get s (dir_key chatId) with
  | Some (VText d) => d
  | _ => ""
  end.

(* ===================================================================== *)
(** * Further deployments                                                 *)
(* ===================================================================== *)

Module Cases.

(** The store of [Sample.configured] with the webhook switched off. *)
Definition disabled : Store :=
  <[webhook_key := Sample.plain (VWebhook {| enabled := false; secretToken := "secret";
                                             targetChannel := "main" |})]>
  Sample.configured.

Definition disabled_world : World := {| store := disabled; log := [] |}.

(** Two channels of the same name: the lookup takes the first. *)
Definition twins : Store :=
  <[upload_key := Sample.plain (VUpload {| telegram_channels :=
       Some [ {| ch_name := "other"; ch_botToken := "T0"; ch_proxyUrl := None |};
              {| ch_name := "main"; ch_botToken := "T1"; ch_proxyUrl := None |};
              {| ch_name := "main"; ch_botToken := "T2"; ch_proxyUrl := None |} ] |})]>
  Sample.configured.

Definition twins_world : World := {| store := twins; log := [] |}.

(** A [/dir] command with a directory name, and the query. *)
Definition dir_set : Message :=
  {| chat_id := 42; text := Some "/DIR  photos/2024 "; photo := None;
     document := None; media_group_id := None |}.

Definition dir_query : Message :=
  {| chat_id := 42; text := Some "/dir"; photo := None;
     document := None; media_group_id := None |}.

(** The command with an ideographic space (U+3000) after [/dir] and a
    no-break space (U+00A0) inside the name; and the command followed by a
    space and a no-break space only. *)
Definition dir_set_wide : Message :=
  {| chat_id := 42;
     text := Some ("/dir" +:+ String "227" (String "128" (String "128" "a")) +:+
                   String "194" (String "160" "b"));
     photo := None; document := None; media_group_id := None |}.

Definition dir_query_wide : Message :=
  {| chat_id := 42;
     text := Some ("/dir " +:+ String "194" (String "160" ""));
     photo := None; document := None; media_group_id := None |}.

(** The photo [f1] has been stored; then the webhook is switched off. *)
Definition switched_off : World :=
  {| store := <[webhook_key := Sample.plain
                                 (VWebhook {| enabled := false; secretToken := "secret";
                                              targetChannel := "main" |})]>
              (store Sample.one_arrival);
     log := [] |}.

(** A photo in two renditions, the second without a [file_size]. *)
Definition half_sized : list PhotoSize :=
  [ {| file_id := "a"; file_size := Some 10%N |};
    {| file_id := "b"; file_size := None |} ].

Definition half_sized_message : Message :=
  {| chat_id := 42; text := None; photo := Some half_sized; document := None;
     media_group_id := None |}.

(** A photo of the media group [g1] whose record carries no size. *)
Definition unsized_update : Update :=
  {| message := Some {| chat_id := 42; text := None;
                        photo := Some [ {| file_id := "u1"; file_size := None |} ];
                        document := None;
                        media_group_id := Some "g1" |} |}.

Definition unsized_world : World := Sample.after Sample.env [unsized_update] Sample.world.

(** A request to the webhook endpoint carrying a photo, with the given
    method and secret header. *)
Definition request (method : string) (secret : option string) : Webhook.Request :=
  {| Webhook.req_method := method;
     Webhook.req_secret := secret;
     Webhook.req_json := inl (Sample.photo_update "f1" 1048576 None) |}.

(** One photo has been processed by the handler of
    telegramMessageHandler.js; then the same photo arrives again. *)
Definition legacy_once : World :=
  fst (run Sample.env (Legacy.handleTelegramMessage (Sample.photo_update "f1" 1048576 None))
         Sample.world).

Definition repeated_file : FileInfo :=
  {| fileId := "f1"; fileSize := Some 1048576%N;
     fileName := "photo_2024-01-02_9.jpg"; fileType := "image/jpeg" |}.

(** The body of a [saveConfig] request. *)
Definition save_body (on : option bool) (secret channel : option string)
    : Manage.RequestBody :=
  {| Manage.b_action := Some "saveConfig"; Manage.b_webhookUrl := None;
     Manage.b_enabled := on; Manage.b_secretToken := secret;
     Manage.b_targetChannel := channel |}.

(** The body of a [setWebhook] request. *)
Definition set_body : Manage.RequestBody :=
  {| Manage.b_action := Some "setWebhook";
     Manage.b_webhookUrl := Some "https://img.example/webhook/telegram";
     Manage.b_enabled := None; Manage.b_secretToken := Some "s3";
     Manage.b_targetChannel := Some "main" |}.

(** Telegram accepts every call, or refuses every call. *)
Definition telegram_ok : Manage.Telegram :=
  fun _ _ => inl [("ok", JBool true); ("result", JBool true)].

Definition telegram_refuses : Manage.Telegram :=
  fun _ _ => inl [("ok", JBool false); ("description", JStr "Unauthorized")].

End Cases.

(* ===================================================================== *)
(** * When the endpoint lets a request through                            *)
(* ===================================================================== *)

(** The checks of [onRequest] before the update is read (lines 13-40 of
    telegram.js): the method, the stored configuration and the secret. *)
Definition accepts (s : Store) (request : Webhook.Request) : bool :=
  String.eqb (Webhook.req_method request) "POST" &&
  match store_get s webhook_key with
  | Some (VWebhook c) => enabled c && Webhook.authorized (Webhook.req_secret request) c
  | _ => false
  end.

(** The answer of [onRequest] to the outcome of the handler (lines 44-72). *)
Definition answer (out : result object) : HttpResponse :=
  match out with
  | inl r => if truthy (get_field r "success") then Webhook.processed r
             else Webhook.skipped r
  | inr _ => Webhook.internal_error
  end.

(* ===================================================================== *)
(** * The index update as a collaborator                                  *)
(* ===================================================================== *)

Definition is_endUpload (c : Call) : bool :=
  match c with
  | Called op => match op with EndUpload _ _ _ => true | _ => false end
  end.

(** The same collaborators, with another behaviour of [endUpload]. *)
Definition with_endUpload (env : Env) (fails : nat -> option string) : Env :=
  {| db_fails := db_fails env;
     allocate := allocate env;
     endUpload_fails := fails;
     api_reply := api_reply env;
     clock := clock env;
     iso := iso env |}.

(** The same collaborators, with another behaviour of the notification
    client. *)
Definition with_api_reply (env : Env) (reply : nat -> result Response) : Env :=
  {| db_fails := db_fails env;
     allocate := allocate env;
     endUpload_fails := endUpload_fails env;
     api_reply := reply;
     clock := clock env;
     iso := iso env |}.

(** A call to the notification client. *)
Definition is_api (c : Call) : bool := is_send c || is_edit c.

(* ===================================================================== *)
(** * Checks of the built-ins on concrete values                          *)
(* ===================================================================== *)

Example toFixed2_one_mib : FileSize_of (Some 1048576%N) = "1.00".
Proof. vm_compute. reflexivity. Qed.

Example toFixed2_small : FileSize_of (Some 123456%N) = "0.12".
Proof. vm_compute. reflexivity. Qed.

Example toFixed2_undefined : FileSize_of None = "NaN".
Proof. reflexivity. Qed.

Example parseFloat_sum :
  toFixed2 (num_add (parseFloat (JStr "0.10")) (parseFloat (JStr "12.34"))) = "12.44".
Proof. vm_compute. reflexivity. Qed.

Example parseFloat_zero : parseFloat (JNum 0) = Dec 0 0.
Proof. vm_compute. reflexivity. Qed.

Example lastIndexOf_dir : lastIndexOf "a/b/c.jpg" "/" = 3.
Proof. reflexivity. Qed.

Example lastIndexOf_none : lastIndexOf "c.jpg" "/" = -1.
Proof. reflexivity. Qed.

(** The white space of [trim] and [\s] is that of Unicode: the ideographic
    space U+3000 (bytes 227 128 128) and the no-break space U+00A0 (bytes
    194 160) separate words and are trimmed. *)
Example split_ws_ideographic_space :
  split_ws (trim ("/dir" +:+ String "227" (String "128" (String "128" "photos")))) =
  ["/dir"; "photos"].
Proof. vm_compute. reflexivity. Qed.

Example split_ws_no_break_space :
  join " " (tl (split_ws (trim ("/dir a" +:+ String "194" (String "160" "b"))))) = "a b".
Proof. vm_compute. reflexivity. Qed.

Example trim_no_break_space :
  split_ws (trim ("/dir " +:+ String "194" (String "160" ""))) = ["/dir"].
Proof. vm_compute. reflexivity. Qed.

(** The dagger U+2020 (bytes 226 128 160) ends with the byte 160 and is no
    white space. *)
Example trim_keeps_dagger :
  trim (String "226" (String "128" (String "160" " "))) =
  String "226" (String "128" (String "160" "")).
Proof. vm_compute. reflexivity. Qed.

(** White space at the ends gives empty pieces; the handler splits a
    trimmed text. *)
Example split_ws_untrimmed : split_ws " a  b " = [""; "a"; "b"; ""].
Proof. vm_compute. reflexivity. Qed.

Example split_ws_empty : split_ws "" = [""].
Proof. reflexivity. Qed.

(* ===================================================================== *)
(** * General facts about programs and runs                               *)
(* ===================================================================== *)

Section RunFacts.
Context (env : Env).

Lemma run_bind {A B : Type} (p : Prog A) (f : A -> Prog B) (w : World) :
  run env (bind p f) w =
  match run env p w with
  | (w', inl a) => run env (f a) w'
  | (w', inr e) => (w', inr e)
  end.
Proof.
  revert w. induction p as [a|e|X op k IH]; intros w; simpl; try reflexivity.
  destruct (exec env op w) as [w' r]. apply IH.
Qed.

Lemma run_try_catch {A : Type} (p : Prog A) (h : string -> Prog A) (w : World) :
  run env (try_catch p h) w =
  match run env p w with
  | (w', inl a) => (w', inl a)
  | (w', inr e) => run env (h e) w'
  end.
Proof.
  revert w. induction p as [a|e|X op k IH]; intros w; simpl; try reflexivity.
  destruct (exec env op w) as [w' r]. apply IH.
Qed.

Lemma run_call {X : Type} (op : Op X) (w : World) :
  run env (call op) w = exec env op w.
Proof.
  unfold call. simpl. destruct (exec env op w) as [w' [x|e]]; reflexivity.
Qed.

(** A call adds itself to the history and nothing else. *)
Lemma exec_extends {X : Type} (op : Op X) (w w' : World) (r : result X) :
  exec env op w = (w', r) -> extends w w' [Called op].
Proof.
  unfold extends, exec, db_call.
  destruct op; repeat case_match; intros; simplify_eq; reflexivity.
Qed.

(** Only [db.put] and [db.delete] change the store. *)
Lemma exec_store {X : Type} (op : Op X) (w w' : World) (r : result X) :
  exec env op w = (w', r) -> is_store_write (Called op) = false -> store w' = store w.
Proof.
  unfold exec, db_call.
  destruct op; repeat case_match; intros; simplify_eq; try reflexivity; discriminate.
Qed.

Lemma run_extends {A : Type} (p : Prog A) (w : World) :
  exists d, extends w (fst (run env p w)) d.
Proof.
  revert w. induction p as [a|e|X op k IH]; intros w; simpl.
  - exists []. unfold extends. by rewrite app_nil_r.
  - exists []. unfold extends. by rewrite app_nil_r.
  - destruct (exec env op w) as [w1 r] eqn:E.
    destruct (IH r w1) as [d Hd]. exists (Called op :: d).
    apply exec_extends in E. unfold extends in *. rewrite Hd, E.
    by rewrite <- app_assoc.
Qed.

Lemma all_rets_run {A : Type} (P : A -> Prop) (p : Prog A) :
  all_rets P p -> forall w w' a, run env p w = (w', inl a) -> P a.
Proof.
  induction 1 as [a Ha|e|X op k _ IH]; intros w w' b Hrun; simpl in Hrun.
  - by simplify_eq.
  - discriminate.
  - destruct (exec env op w) as [w1 r]. eauto.
Qed.
End RunFacts.

Lemma extends_refl (w : World) : extends w w [].
Proof. unfold extends. by rewrite app_nil_r. Qed.

Lemma extends_trans (w1 w2 w3 : World) (d1 d2 : list Call) :
  extends w1 w2 d1 -> extends w2 w3 d2 -> extends w1 w3 (d1 ++ d2).
Proof. unfold extends. intros -> ->. by rewrite app_assoc. Qed.

Lemma calls_since_extends (w w' : World) (d : list Call) :
  extends w w' d -> calls_since w w' = d.
Proof. unfold extends, calls_since. intros ->. by rewrite drop_app_length. Qed.

Lemma calls_since_mk (w : World) (s : Store) (d : list Call) :
  calls_since w {| store := s; log := log w ++ d |} = d.
Proof. by apply calls_since_extends. Qed.

Lemma all_rets_mono {A : Type} (P Q : A -> Prop) (p : Prog A) :
  (forall a, P a -> Q a) -> all_rets P p -> all_rets Q p.
Proof. intros HPQ. induction 1; constructor; auto. Qed.

Lemma all_rets_bind {A B : Type} (Q : B -> Prop) (p : Prog A) (f : A -> Prog B) :
  all_rets (fun a => all_rets Q (f a)) p -> all_rets Q (bind p f).
Proof. induction 1; simpl; try constructor; auto. Qed.

Lemma all_rets_try_catch {A : Type} (P : A -> Prop) (p : Prog A) (h : string -> Prog A) :
  all_rets P p -> (forall e, all_rets P (h e)) -> all_rets P (try_catch p h).
Proof. intros Hp Hh. induction Hp; simpl; try constructor; auto. Qed.

Lemma all_rets_call {X : Type} (P : X -> Prop) (op : Op X) :
  (forall x, P x) -> all_rets P (call op).
Proof. intros HP. constructor. intros [x|e]; constructor; auto. Qed.

Lemma all_rets_any {A : Type} (p : Prog A) : all_rets (fun _ => True) p.
Proof. induction p; constructor; auto. Qed.

(* ===================================================================== *)
(** * The largest photo                                                   *)
(* ===================================================================== *)

Section LargestPhoto.

Lemma largestPhoto_fold (p : PhotoSize) (ps : list PhotoSize) :
  largestPhoto (p :: ps) = Some (fold_left pick ps p).
Proof. reflexivity. Qed.

Lemma gt_size_true (a b : option N) :
  gt_size a b = true -> exists x y, a = Some x /\ b = Some y /\ (y < x)%N.
Proof.
  destruct a as [x|], b as [y|]; simpl; try discriminate.
  intros H. exists x, y. repeat split. by apply N.ltb_lt.
Qed.

Lemma gt_size_false (x y : N) : gt_size (Some x) (Some y) = false -> (x <= y)%N.
Proof. simpl. intros H. by apply N.ltb_ge. Qed.

(** The fold keeps a last maximum of what it has seen. *)
Lemma fold_pick_last_maximum (ps : list PhotoSize) (p : PhotoSize) :
  Forall (fun q => is_Some (file_size q)) (p :: ps) ->
  last_maximum (p :: ps) (fold_left pick ps p).
Proof.
  induction ps as [|x ps IH] using rev_ind; intros Hall.
  - exists [], []. simpl. split; [reflexivity|].
    split; intros q a b Hq; by apply elem_of_nil in Hq.
  - rewrite app_comm_cons in Hall. apply Forall_app in Hall as [Hps Hx].
    apply Forall_inv in Hx.
    destruct (IH Hps) as (before & after & Heq & Hbefore & Hafter).
    rewrite fold_left_app. simpl. set (c := fold_left pick ps p) in *.
    unfold pick at 1. destruct (gt_size (file_size c) (file_size x)) eqn:Hgt.
    + exists before, (after ++ [x]). split.
      { rewrite app_comm_cons, Heq. by rewrite <- app_assoc. }
      split; [exact Hbefore|].
      intros q a b Hq Ha Hb. apply elem_of_app in Hq as [Hq|Hq]; [eauto|].
      apply list_elem_of_singleton in Hq as ->.
      apply gt_size_true in Hgt as (u & v & Hu & Hv & Hlt). congruence.
    + exists (before ++ c :: after), []. split.
      { rewrite app_comm_cons, Heq. by rewrite <- app_assoc. }
      split; [|intros q a b Hq; by apply elem_of_nil in Hq].
      assert (Hc : c ∈ p :: ps).
      { rewrite Heq. apply elem_of_app. right. apply list_elem_of_here. }
      pose proof (proj1 (Forall_forall _ _) Hps c Hc) as [sc Hsc].
      intros q a b Hq Ha Hb. rewrite Hsc, Hb in Hgt. apply gt_size_false in Hgt.
      apply elem_of_app in Hq as [Hq|Hq].
      * pose proof (Hbefore q a sc Hq Ha Hsc). lia.
      * apply elem_of_cons in Hq as [->|Hq].
        -- assert (a = sc) by congruence. lia.
        -- pose proof (Hafter q a sc Hq Ha Hsc). lia.
Qed.

End LargestPhoto.

(** A last maximum of an array whose elements all carry a size is an
    element of maximal size. *)
Lemma last_maximum_maximal_size (photos : list PhotoSize) (chosen : PhotoSize) :
  Forall (fun p => is_Some (file_size p)) photos ->
  last_maximum photos chosen -> maximal_size photos chosen.
Proof.
  intros Hall (before & after & -> & Hbefore & Hafter).
  assert (Hin : chosen ∈ before ++ chosen :: after).
  { apply elem_of_app. right. apply list_elem_of_here. }
  split; [exact Hin|].
  destruct (proj1 (Forall_forall _ _) Hall chosen Hin) as [b Hb].
  exists b. split; [exact Hb|]. intros p a Hp Ha.
  apply elem_of_app in Hp as [Hp|Hp]; [by eapply Hbefore|].
  apply elem_of_cons in Hp as [->|Hp].
  - rewrite Hb in Ha. injection Ha as ->. lia.
  - pose proof (Hafter p a b Hp Ha Hb). lia.
Qed.

(** C10, as the handler behaves. For a message carrying a non-empty photo
    array whose elements all carry a [file_size], the origin file identifier
    and the size the handler goes on with are those of one element of the
    array; the [file_size] of
    that element is maximal among all elements, the element is the last of
    those of maximal size (every later element has a strictly smaller one),
    and the extraction does not fail. *)
Theorem largest_photo_is_used (env : Env) (w : World) (msg : Message)
    (photos : list PhotoSize) :
  photo msg = Some photos ->
  photos <> [] ->
  Forall (fun p => is_Some (file_size p)) photos ->
  exists chosen w' file,
    maximal_size photos chosen /\
    last_maximum photos chosen /\
    run env (extract_file msg) w = (w', inl (Some file)) /\
    fileId file = file_id chosen /\
    fileSize file = file_size chosen /\
    store w' = store w.
Proof.
  intros Hphoto Hne Hall. destruct photos as [|p ps]; [done|].
  exists (fold_left pick ps p). eexists _, _.
  split; [by apply last_maximum_maximal_size, fold_pick_last_maximum|].
  split; [by apply fold_pick_last_maximum|].
  split.
  { unfold extract_file. rewrite Hphoto. cbn [largestPhoto].
    simpl. reflexivity. }
  done.
Qed.

Lemma largest_photo_is_used_witness :
  exists chosen w' file,
    maximal_size Sample.album chosen /\
    last_maximum Sample.album chosen /\
    run Sample.env (extract_file Sample.album_message) Sample.world
      = (w', inl (Some file)) /\
    fileId file = file_id chosen /\
    fileSize file = file_size chosen /\
    store w' = store Sample.world.
Proof.
  apply (largest_photo_is_used Sample.env Sample.world Sample.album_message Sample.album).
  - reflexivity.
  - discriminate.
  - repeat constructor; simpl; eauto.
Defined.

(** Without the condition on the sizes the property fails. In the array
    [{a, 10}, {b}] the second element carries no [file_size]; the comparison
    [10 > undefined] is false, so the handler goes on with [b] and an
    undefined size, and [b] is not an element of maximal size: the only
    such element is [a]. *)
Lemma largest_photo_without_size :
  exists file,
    snd (run Sample.env (extract_file Cases.half_sized_message) Sample.world) =
      inl (Some file) /\
    fileId file = "b" /\
    fileSize file = None /\
    maximal_size Cases.half_sized {| file_id := "a"; file_size := Some 10%N |} /\
    ~ exists chosen, maximal_size Cases.half_sized chosen /\
                     file_id chosen = fileId file /\
                     file_size chosen = fileSize file.
Proof.
  eexists. split; [vm_compute; reflexivity|]. cbn [fileId fileSize].
  split; [reflexivity|]. split; [reflexivity|]. split.
  - split; [apply list_elem_of_here|]. exists 10%N. split; [reflexivity|].
    intros p a Hp Ha. unfold Cases.half_sized in Hp.
    apply elem_of_cons in Hp as [->|Hp].
    + injection Ha as <-. lia.
    + apply list_elem_of_singleton in Hp as ->. discriminate Ha.
  - intros (chosen & (_ & b & Hb & _) & _ & Hsize). congruence.
Qed.

Example largestPhoto_tie : file_id <$> largestPhoto Sample.album = Some "c".
Proof. reflexivity. Qed.

(** An element without a [file_size] wins every comparison it enters as
    [current]: [10 > undefined] is false. *)
Example largestPhoto_undefined_size :
  file_id <$> largestPhoto [ {| file_id := "a"; file_size := Some 10%N |};
                             {| file_id := "b"; file_size := None |} ] = Some "b".
Proof. reflexivity. Qed.

(* ===================================================================== *)
(** * The shape of the results                                            *)
(* ===================================================================== *)

(** One step of a syntactic walk over a program. *)
Ltac all_rets_step :=
  lazymatch goal with
  | |- all_rets _ (bind _ _) => apply all_rets_bind
  | |- all_rets _ (call _) => apply all_rets_call; intros
  | |- all_rets _ (try_catch _ _) => apply all_rets_try_catch; [|intros]
  | |- all_rets _ (Ret _) => apply all_rets_Ret
  | |- all_rets _ (Throw _) => apply all_rets_Throw
  | |- all_rets _ (if ?b then _ else _) => destruct b
  | |- all_rets _ (match ?x with _ => _ end) => destruct x
  end.

(** Skips a sub-program whose returned value does not matter. *)
Ltac all_rets_skip :=
  lazymatch goal with
  | |- all_rets _ ?p =>
      apply (all_rets_mono (fun _ => True)); [intros ? _ | apply all_rets_any]
  end.










(* ===================================================================== *)
(** * The finalize task                                                   *)
(* ===================================================================== *)

Lemma count_app (f : Call -> bool) (l1 l2 : list Call) :
  count f (l1 ++ l2) = (count f l1 + count f l2)%nat.
Proof. unfold count. by rewrite List.filter_app, length_app. Qed.

Lemma count_reads (f : Call -> bool) (keys : list string) :
  (forall k, f (Called (DbGetWithMetadata k)) = false) -> count f (reads keys) = 0%nat.
Proof.
  intros Hf. unfold count, reads. induction keys as [|k keys IH]; [done|].
  simpl. by rewrite Hf.
Qed.

Lemma omap_reads {A : Type} (f : Call -> option A) (keys : list string) :
  (forall k, f (Called (DbGetWithMetadata k)) = None) -> omap f (reads keys) = [].
Proof.
  intros Hf. unfold reads. induction keys as [|k keys IH]; [done|].
  simpl. by rewrite Hf.
Qed.

Lemma omap_read_key_reads (keys : list string) : omap read_key (reads keys) = keys.
Proof.
  unfold reads. induction keys as [|k keys IH]; [done|]. simpl. by f_equal.
Qed.

(** Brings a world built by successive calls to the form
    [{| store := _; log := log w ++ [c1; ...; cn] |}]. *)
Ltac norm_world :=
  unfold record_call, with_store; cbn [store log];
  repeat first [rewrite <- app_assoc | progress cbn [app]].

Section Finalize.
Context (env : Env).

(** The loop reads every listed entry and changes nothing. *)
Lemma sum_sizes_run (keys : list string) (acc : num) (w : World) :
  (forall n, db_fails env n = None) ->
  run env (sum_sizes keys acc) w =
  ({| store := store w; log := log w ++ reads keys |},
   inl (total_size (store w) keys acc)).
Proof.
  intros Hok. revert acc w. induction keys as [|k keys IH]; intros acc w.
  - simpl. rewrite app_nil_r. by destruct w.
  - cbn [sum_sizes]. rewrite run_bind, run_call.
    unfold exec, db_call. rewrite Hok. rewrite IH. simpl.
    by rewrite <- app_assoc.
Qed.

(** A finalize task that does not find the BatchState. *)
Lemma finalize_absent (t : Task) (w : World) :
  truthy_value (store_get (store w) (batch_key (t_mediaGroupId t))) = false ->
  exists out,
    run env (finalize t) w =
    ({| store := store w; log := log w ++ guard_calls (t_mediaGroupId t) |}, out).
Proof.
  intros Habs. unfold finalize.
  rewrite run_bind, run_call. cbn [exec].
  rewrite run_bind, run_call. unfold exec at 1, db_call.
  cbn [record_call with_store store log].
  destruct (db_fails env _) as [e|].
  - eexists. norm_world. reflexivity.
  - rewrite Habs. cbn [negb run]. eexists. norm_world. reflexivity.
Qed.

(** A finalize task that finds the BatchState, when the store answers. *)
Lemma finalize_present (t : Task) (w : World) (b : BatchInfo) :
  (forall n, db_fails env n = None) ->
  store_get (store w) (batch_key (t_mediaGroupId t)) = Some (VBatch b) ->
  let g := t_mediaGroupId t in
  let listed := store_list (store w) (batch_index_prefix g) in
  let edit :=
    EditMessageText (t_api t) (t_chatId t) (messageId b)
      (final_text (length listed) (total_size (store w) listed (num_of_Z 0))
         (firstFileId b)) in
  let issued :=
    [Called (SetTimeout 5000%N); Called (DbGet (batch_key g));
     Called (DbList (batch_index_prefix g))] ++ reads listed ++ [Called edit] in
  run env (finalize t) w =
  match api_reply env (length (log w) + 3 + length listed) with
  | inl _ =>
      ({| store := store_delete (store w) (batch_key g);
          log := log w ++ issued ++ [Called (DbDelete (batch_key g))] |}, inl tt)
  | inr _ => ({| store := store w; log := log w ++ issued |}, inl tt)
  end.
Proof.
  intros Hok Hget g listed edit issued. unfold finalize.
  rewrite run_bind, run_call. cbn [exec].
  rewrite run_bind, run_call. unfold exec at 1, db_call. rewrite Hok.
  norm_world. rewrite Hget. cbn [truthy_value negb].
  cbn [JSON_parse_batch]. rewrite run_bind. cbn [run].
  rewrite run_bind, run_call. unfold exec at 1, db_call. rewrite Hok.
  norm_world.
  rewrite run_bind, sum_sizes_run by done. norm_world.
  rewrite run_try_catch, run_bind, run_call. cbn [exec]. norm_world.
  fold g. fold listed. fold edit.
  assert (Hidx : length (log w ++ Called (SetTimeout 5000%N) :: Called (DbGet (batch_key g))
                           :: Called (DbList (batch_index_prefix g)) :: reads listed)
                 = (length (log w) + 3 + length listed)%nat).
  { rewrite length_app. unfold reads. simpl. rewrite length_map. lia. }
  rewrite Hidx.
  destruct (api_reply env (length (log w) + 3 + length listed)) as [resp|e].
  - rewrite run_call. unfold exec, db_call. rewrite Hok.
    unfold issued. norm_world. reflexivity.
  - cbn [run]. unfold issued. norm_world. reflexivity.
Qed.
End Finalize.



(** The listing is the set of keys of the store under the prefix. *)
Lemma store_list_spec (s : Store) (prefix key : string) :
  key ∈ store_list s prefix <-> is_Some (s !! key) /\ startsWith key prefix = true.
Proof.
  unfold store_list. rewrite merge_sort_Permutation.
  rewrite list_elem_of_filter, list_elem_of_fmap. split.
  - intros [Hp [[k e] [-> Hin]]]. apply elem_of_map_to_list in Hin. simpl in *. eauto.
  - intros [[e He] Hp]. split; [done|]. exists (key, e). split; [done|].
    by apply elem_of_map_to_list.
Qed.





(** C3, as the handler behaves. When the finalize task finds the BatchState
    with a notification handle that was never set and the store answers, it
    ends without error; if the edit call returns, whatever its [ok], the
    BatchState is deleted; if the edit call throws, the error is caught and
    the BatchState stays in the store. *)
Theorem finalize_without_handle (env : Env) (t : Task) (w : World) (b : BatchInfo) :
  (forall n, db_fails env n = None) ->
  store_get (store w) (batch_key (t_mediaGroupId t)) = Some (VBatch b) ->
  truthy_messageId (messageId b) = false ->
  exists w',
    run env (finalize t) w = (w', inl tt) /\
    omap edit_of (calls_since w w') =
      [(t_chatId t, messageId b,
        final_text (length (store_list (store w) (batch_index_prefix (t_mediaGroupId t))))
          (total_size (store w) (store_list (store w) (batch_index_prefix (t_mediaGroupId t)))
             (num_of_Z 0))
          (firstFileId b))] /\
    ((forall n, exists resp, api_reply env n = inl resp) ->
     store w' = store_delete (store w) (batch_key (t_mediaGroupId t)) /\
     store_get (store w') (batch_key (t_mediaGroupId t)) = None) /\
    ((forall n, exists e, api_reply env n = inr e) ->
     store w' = store w).
Proof.
  intros Hok Hget _.
  rewrite (finalize_present env t w b Hok Hget).
  destruct (api_reply env _) as [resp|e] eqn:Hreply; eexists; (split; [reflexivity|]).
  - split; [|split].
    + rewrite calls_since_mk.
      rewrite !omap_app, omap_reads by done. reflexivity.
    + intros _. cbn [store]. split; [done|].
      unfold store_get, store_delete. by rewrite lookup_delete_eq.
    + intros Hthrow. destruct (Hthrow (length (log w) + 3 +
        length (store_list (store w) (batch_index_prefix (t_mediaGroupId t))))%nat) as [e He].
      congruence.
  - split; [|split].
    + rewrite calls_since_mk.
      rewrite !omap_app, omap_reads by done. reflexivity.
    + intros Hret. destruct (Hret (length (log w) + 3 +
        length (store_list (store w) (batch_index_prefix (t_mediaGroupId t))))%nat) as [r Hr].
      congruence.
    + intros _. reflexivity.
Qed.

Lemma count_guard_calls (f : Call -> bool) (g : string) (tasks : list Task) :
  count f (guard_calls g) = 0%nat ->
  count f (flat_map (fun _ : Task => guard_calls g) tasks) = 0%nat.
Proof.
  intros Hf. induction tasks as [|t tasks IH]; [done|].
  cbn [flat_map]. rewrite count_app, Hf, IH. done.
Qed.

(** Tasks that run after the BatchState is gone only look for it. *)
Lemma run_all_absent (env : Env) (g : string) (tasks : list Task) (w : World) :
  Forall (fun t => t_mediaGroupId t = g) tasks ->
  truthy_value (store_get (store w) (batch_key g)) = false ->
  exists outs,
    run_all env (map finalize tasks) w =
    ({| store := store w;
        log := log w ++ flat_map (fun _ : Task => guard_calls g) tasks |}, outs).
Proof.
  intros Hg. revert w. induction Hg as [|t tasks Ht _ IH]; intros w Habs.
  - exists []. simpl. rewrite app_nil_r. by destruct w.
  - subst g. destruct (finalize_absent env t w Habs) as [out Hrun].
    cbn [map run_all]. rewrite Hrun. cbv beta iota.
    edestruct (IH {| store := store w;
                     log := log w ++ guard_calls (t_mediaGroupId t) |}) as [outs Hrest];
      [exact Habs|].
    rewrite Hrest. eexists. cbn [store log flat_map]. by rewrite <- app_assoc.
Qed.

(** A key that no call of a run writes is after the run what it was. *)
Lemma exec_preserves_key (env : Env) {X : Type} (op : Op X) (k : string)
    (w w' : World) (r : result X) :
  exec env op w = (w', r) -> writes_key k (Called op) = false ->
  store w' !! k = store w !! k.
Proof.
  intros E Hw. destruct (is_store_write (Called op)) eqn:Hsw.
  - destruct op; try discriminate Hsw; cbn in Hw; apply String.eqb_neq in Hw;
      unfold exec, db_call in E; destruct (db_fails env _); simplify_eq; try done;
      cbn [store with_store].
    + unfold store_put. by rewrite lookup_insert_ne.
    + unfold store_delete. by rewrite lookup_delete_ne.
  - by rewrite (exec_store env _ _ _ _ E Hsw).
Qed.

Lemma run_preserves_key (env : Env) {A : Type} (p : Prog A) (k : string) (w : World) :
  Forall (fun c => writes_key k c = false) (calls_since w (fst (run env p w))) ->
  store (fst (run env p w)) !! k = store w !! k.
Proof.
  revert w. induction p as [a|e|X op f IH]; intros w Hcalls; simpl in *; try done.
  destruct (exec env op w) as [w1 r] eqn:E.
  pose proof (exec_extends env _ _ _ _ E) as Hext1.
  destruct (run_extends env (f r) w1) as [d Hd].
  rewrite (calls_since_extends _ _ _ (extends_trans _ _ _ _ _ Hext1 Hd)) in Hcalls.
  cbn [app] in Hcalls. apply Forall_cons in Hcalls as [Hop Hrest].
  rewrite IH; [by eapply exec_preserves_key|].
  by rewrite (calls_since_extends _ _ _ Hd).
Qed.

Lemma delete_absent (s : Store) (k : string) :
  truthy_value (store_get (store_delete s k) k) = false.
Proof. unfold store_get, store_delete. by rewrite lookup_delete_eq. Qed.

(** While the BatchState is absent and no arrival writes its key, every
    finalize task of the group only looks for it. *)
Lemma invoke_all_absent (env : Env) (g : string) (invocations : list Invocation)
    (w : World) :
  Forall (fun t => t_mediaGroupId t = g) (omap task_of invocations) ->
  Forall (fun c => writes_key (batch_key g) c = false)
    (calls_of is_arrival env invocations w) ->
  truthy_value (store_get (store w) (batch_key g)) = false ->
  calls_of is_task env invocations w =
    flat_map (fun _ : Task => guard_calls g) (omap task_of invocations) /\
  store (invoke_all env invocations w) !! batch_key g = store w !! batch_key g.
Proof.
  revert w. induction invocations as [|[update|t] rest IH]; intros w Hg Hquiet Habs.
  - done.
  - cbn [omap task_of] in Hg. cbn [calls_of is_arrival is_task negb] in Hquiet.
    apply Forall_app in Hquiet as [Hhere Hrest].
    pose proof (run_preserves_key env _ _ _ Hhere) as Hkey.
    cbn [calls_of is_task app invoke_all fold_left omap task_of].
    destruct (IH (invoke env (Handles update) w) Hg Hrest) as [Hcalls Hstore].
    { unfold store_get, invoke. by rewrite Hkey. }
    split; [exact Hcalls|]. unfold invoke_all in Hstore. by rewrite Hstore.
  - cbn [omap task_of] in Hg. apply Forall_cons in Hg as [Ht Hg]. subst g.
    cbn [calls_of is_arrival is_task negb app] in Hquiet.
    destruct (finalize_absent env t w Habs) as [out Hrun].
    assert (Hw1 : invoke env (Finalizes t) w =
                  {| store := store w; log := log w ++ guard_calls (t_mediaGroupId t) |})
      by (unfold invoke; by rewrite Hrun).
    cbn [calls_of is_task invoke_all fold_left omap task_of flat_map].
    rewrite Hw1 in *. rewrite calls_since_mk.
    destruct (IH _ Hg Hquiet) as [Hcalls Hstore]; [exact Habs|].
    split; [by rewrite Hcalls|]. unfold invoke_all in Hstore. by rewrite Hstore.
Qed.

(** While the BatchState is present and no arrival writes its key, the
    first finalize task of the group does the work and deletes it; the
    later ones only look for it. *)
Lemma invoke_all_present (env : Env) (g : string) (invocations : list Invocation)
    (w : World) (b : BatchInfo) :
  Forall (fun t => t_mediaGroupId t = g) (omap task_of invocations) ->
  Forall (fun c => writes_key (batch_key g) c = false)
    (calls_of is_arrival env invocations w) ->
  store_get (store w) (batch_key g) = Some (VBatch b) ->
  omap task_of invocations <> [] ->
  (forall n, db_fails env n = None) ->
  (forall n, exists resp, api_reply env n = inl resp) ->
  (exists t listed text,
     calls_of is_task env invocations w =
       [Called (SetTimeout 5000%N); Called (DbGet (batch_key g));
        Called (DbList (batch_index_prefix g))] ++
       reads listed ++
       [Called (EditMessageText (t_api t) (t_chatId t) (messageId b) text);
        Called (DbDelete (batch_key g))] ++
       flat_map (fun _ : Task => guard_calls g) (tail (omap task_of invocations))) /\
  store_get (store (invoke_all env invocations w)) (batch_key g) = None.
Proof.
  intros Hg Hquiet Hget Hne Hok Hret. revert w Hg Hquiet Hget Hne.
  induction invocations as [|[update|t] rest IH]; intros w Hg Hquiet Hget Hne.
  - done.
  - cbn [omap task_of] in Hg, Hne. cbn [calls_of is_arrival is_task negb] in Hquiet.
    apply Forall_app in Hquiet as [Hhere Hrest].
    pose proof (run_preserves_key env _ _ _ Hhere) as Hkey.
    cbn [calls_of is_task app invoke_all fold_left omap task_of].
    apply (IH (invoke env (Handles update) w) Hg Hrest); [|exact Hne].
    unfold store_get, invoke. by rewrite Hkey.
  - cbn [omap task_of] in Hg. apply Forall_cons in Hg as [Ht Hg]. subst g.
    cbn [calls_of is_arrival is_task negb app] in Hquiet.
    pose proof (finalize_present env t w b Hok Hget) as Hrun. cbv zeta in Hrun.
    destruct (Hret (length (log w) + 3 +
      length (store_list (store w) (batch_index_prefix (t_mediaGroupId t))))%nat)
      as [resp Hresp].
    rewrite Hresp in Hrun.
    match type of Hrun with
    | _ = (?w1, _) =>
        assert (Hw1 : invoke env (Finalizes t) w = w1) by (unfold invoke; by rewrite Hrun)
    end.
    change (omap task_of (Finalizes t :: rest)) with (t :: omap task_of rest).
    cbn [calls_of is_task invoke_all fold_left tail].
    rewrite Hw1 in Hquiet |- *. rewrite calls_since_mk.
    destruct (invoke_all_absent env (t_mediaGroupId t) rest _ Hg Hquiet)
      as [Hcalls Hstore]; [apply delete_absent|].
    split.
    + eexists t, _, _. rewrite Hcalls.
      repeat first [rewrite <- app_assoc | progress cbn [app]]. reflexivity.
    + unfold store_get. unfold invoke_all in Hstore. rewrite Hstore. cbn [store].
      unfold store_delete. by rewrite lookup_delete_eq.
Qed.

(** C1, as the handler behaves. Take invocations of the worker that run one
    after the other, each to completion: finalize tasks of the media group
    [g], in any number and order, and between them any arrivals whose calls
    do not write the BatchState key of the group (no photo of the group is
    stored in between).
    - A finalize task that does not find the BatchState leaves the store as
      it was and edits nothing: it issues its timer and its read of the key,
      nothing else.
    - If the BatchState is absent at the start, every task finds it absent.
    - If the BatchState is present at the start, the store answers and the
      edit call returns, the tasks together scan the index once, edit the
      notification once and delete the BatchState once: the first task does
      all of it, the later ones only look for the key, and the BatchState is
      gone at the end. *)
Theorem finalize_once_without_overlap (env : Env) (g : string)
    (invocations : list Invocation) (w : World) :
  Forall (fun t => t_mediaGroupId t = g) (omap task_of invocations) ->
  Forall (fun c => writes_key (batch_key g) c = false)
    (calls_of is_arrival env invocations w) ->
  let w' := invoke_all env invocations w in
  let tasks := omap task_of invocations in
  let by_tasks := calls_of is_task env invocations w in
  (forall t w0,
     truthy_value (store_get (store w0) (batch_key (t_mediaGroupId t))) = false ->
     store (invoke env (Finalizes t) w0) = store w0 /\
     calls_since w0 (invoke env (Finalizes t) w0) = guard_calls (t_mediaGroupId t)) /\
  (truthy_value (store_get (store w) (batch_key g)) = false ->
   by_tasks = flat_map (fun _ : Task => guard_calls g) tasks /\
   store w' !! batch_key g = store w !! batch_key g) /\
  (forall b,
     store_get (store w) (batch_key g) = Some (VBatch b) ->
     tasks <> [] ->
     (forall n, db_fails env n = None) ->
     (forall n, exists resp, api_reply env n = inl resp) ->
     count is_list by_tasks = 1%nat /\
     count is_edit by_tasks = 1%nat /\
     count is_delete by_tasks = 1%nat /\
     count is_put by_tasks = 0%nat /\
     (exists t listed text,
        by_tasks =
          [Called (SetTimeout 5000%N); Called (DbGet (batch_key g));
           Called (DbList (batch_index_prefix g))] ++
          reads listed ++
          [Called (EditMessageText (t_api t) (t_chatId t) (messageId b) text);
           Called (DbDelete (batch_key g))] ++
          flat_map (fun _ : Task => guard_calls g) (tail tasks)) /\
     store_get (store w') (batch_key g) = None).
Proof.
  intros Hg Hquiet w' tasks by_tasks. split; [|split].
  - intros t w0 Habs. destruct (finalize_absent env t w0 Habs) as [out Hrun].
    unfold invoke. rewrite Hrun. cbn [fst store]. split; [done|]. apply calls_since_mk.
  - intros Habs. by apply invoke_all_absent.
  - intros b Hget Hne Hok Hret.
    destruct (invoke_all_present env g invocations w b Hg Hquiet Hget Hne Hok Hret)
      as [(t & listed & text & Hcalls) Hgone].
    assert (Hcount : forall f,
              count f by_tasks =
              (count f [Called (SetTimeout 5000%N); Called (DbGet (batch_key g));
                        Called (DbList (batch_index_prefix g))] +
               (count f (reads listed) +
                (count f [Called (EditMessageText (t_api t) (t_chatId t) (messageId b) text);
                          Called (DbDelete (batch_key g))] +
                 count f (flat_map (fun _ : Task => guard_calls g) (tail tasks)))))%nat).
    { intros f. unfold by_tasks. rewrite Hcalls. by rewrite !count_app. }
    rewrite !Hcount, !count_reads, !count_guard_calls by done.
    split; [done|]. split; [done|]. split; [done|]. split; [done|].
    split; [by exists t, listed, text|exact Hgone].
Qed.

(* ===================================================================== *)
(** * The finalize task and the result shape on the sample deployment     *)
(* ===================================================================== *)

(** The two finalize tasks scheduled by two arrivals of one media group
    both find the BatchState when their calls alternate: the index is
    scanned twice, the notification is edited twice and the BatchState is
    deleted twice. The same happens without any overlap when a third photo
    of the group is stored between the two tasks: it finds no BatchState,
    writes a new one, and the second task scans, edits and deletes again. *)
Lemma finalize_twice_when_interleaved :
  store_get (store Sample.two_arrivals) (batch_key "g1") =
    Some (VBatch {| messageId := Some 14; firstFileId := Some "photo_2024-01-02_1.jpg" |}) /\
  Sample.pending = [Sample.task "g1"; Sample.task "g1"] /\
  snd (sched Sample.env Sample.alternate (map finalize Sample.pending) Sample.two_arrivals)
    = [Ret tt; Ret tt] /\
  count is_list
    (calls_since Sample.two_arrivals
       (fst (sched Sample.env Sample.alternate (map finalize Sample.pending)
               Sample.two_arrivals))) = 2%nat /\
  count is_edit
    (calls_since Sample.two_arrivals
       (fst (sched Sample.env Sample.alternate (map finalize Sample.pending)
               Sample.two_arrivals))) = 2%nat /\
  count is_delete
    (calls_since Sample.two_arrivals
       (fst (sched Sample.env Sample.alternate (map finalize Sample.pending)
               Sample.two_arrivals))) = 2%nat /\
  omap task_of Sample.late_arrival = Sample.pending /\
  count is_list (calls_of is_task Sample.env Sample.late_arrival Sample.two_arrivals)
    = 2%nat /\
  count is_edit (calls_of is_task Sample.env Sample.late_arrival Sample.two_arrivals)
    = 2%nat /\
  count is_delete (calls_of is_task Sample.env Sample.late_arrival Sample.two_arrivals)
    = 2%nat.
Proof. vm_compute. repeat split; reflexivity. Qed.

Lemma finalize_once_without_overlap_witness :
  count is_list (calls_of is_task Sample.env Sample.other_arrivals Sample.two_arrivals)
    = 1%nat /\
  count is_edit (calls_of is_task Sample.env Sample.other_arrivals Sample.two_arrivals)
    = 1%nat /\
  count is_delete (calls_of is_task Sample.env Sample.other_arrivals Sample.two_arrivals)
    = 1%nat /\
  count is_put (calls_of is_task Sample.env Sample.other_arrivals Sample.two_arrivals)
    = 0%nat /\
  store_get (store (invoke_all Sample.env Sample.other_arrivals Sample.two_arrivals))
    (batch_key "g1") = None.
Proof.
  assert (Hgroup : Forall (fun t => t_mediaGroupId t = "g1")
                     (omap task_of Sample.other_arrivals))
    by (vm_compute; repeat constructor).
  assert (Hquiet : Forall (fun c => writes_key (batch_key "g1") c = false)
                     (calls_of is_arrival Sample.env Sample.other_arrivals
                        Sample.two_arrivals))
    by (vm_compute; repeat constructor).
  destruct (proj2 (proj2 (finalize_once_without_overlap Sample.env "g1"
                            Sample.other_arrivals Sample.two_arrivals Hgroup Hquiet))
              {| messageId := Some 14; firstFileId := Some "photo_2024-01-02_1.jpg" |})
    as (Hlist & Hedit & Hdelete & Hput & _ & Hgone).
  - vm_compute. reflexivity.
  - intros Hnil. vm_compute in Hnil. discriminate Hnil.
  - intros n. reflexivity.
  - intros n. eexists. reflexivity.
  - repeat split; assumption.
Defined.


(** The two photos of the group arrive in the other order: the count and
    the total of the report are the same. *)
Example report_after_swapped_arrivals :
  omap edit_of
    (calls_since Sample.swapped_arrivals
       (fst (run Sample.env (finalize (Sample.task "g1")) Sample.swapped_arrivals))) =
  [("42", Some 14,
    "✅ 批量保存完成" +:+ nl +:+
    "共保存: 2 张图片" +:+ nl +:+
    "总大小: 3.00MB" +:+ nl +:+
    "首个文件ID: photo_2024-01-02_1.jpg")].
Proof. vm_compute. reflexivity. Qed.

(** The notification client is down: the send of the arrival fails, so the
    BatchState has no handle; the edit of the finalize task throws, and the
    BatchState is still in the store afterwards. *)
Lemma finalize_keeps_state_when_edit_throws :
  store_get (store Sample.arrival_api_down) (batch_key "g1") =
    Some (VBatch {| messageId := None; firstFileId := Some "photo_2024-01-02_1.jpg" |}) /\
  snd (run Sample.env_api_down (finalize (Sample.task "g1")) Sample.arrival_api_down)
    = inl tt /\
  count is_edit
    (calls_since Sample.arrival_api_down
       (fst (run Sample.env_api_down (finalize (Sample.task "g1"))
               Sample.arrival_api_down))) = 1%nat /\
  count is_delete
    (calls_since Sample.arrival_api_down
       (fst (run Sample.env_api_down (finalize (Sample.task "g1"))
               Sample.arrival_api_down))) = 0%nat /\
  store_get
    (store (fst (run Sample.env_api_down (finalize (Sample.task "g1"))
                   Sample.arrival_api_down)))
    (batch_key "g1") =
    Some (VBatch {| messageId := None; firstFileId := Some "photo_2024-01-02_1.jpg" |}).
Proof. vm_compute. repeat split; reflexivity. Qed.

Lemma finalize_without_handle_witness :
  exists w',
    run Sample.env_api_down (finalize (Sample.task "g1")) Sample.arrival_api_down
      = (w', inl tt) /\
    store w' = store Sample.arrival_api_down.
Proof.
  destruct (finalize_without_handle Sample.env_api_down (Sample.task "g1")
              Sample.arrival_api_down
              {| messageId := None; firstFileId := Some "photo_2024-01-02_1.jpg" |})
    as (w' & Hrun & _ & _ & Hkept).
  - intros n. reflexivity.
  - vm_compute. reflexivity.
  - reflexivity.
  - exists w'. split; [exact Hrun|]. apply Hkept. intros n. eexists. reflexivity.
Defined.



(* ===================================================================== *)
(** * Calls a program can issue                                           *)
(* ===================================================================== *)

Lemma all_ops_mono {A : Type} (P Q : Call -> Prop) (p : Prog A) :
  (forall c, P c -> Q c) -> all_ops P p -> all_ops Q p.
Proof. intros HPQ. induction 1; constructor; auto. Qed.

Lemma all_ops_bind {A B : Type} (P : Call -> Prop) (p : Prog A) (f : A -> Prog B) :
  all_ops P p -> (forall a, all_ops P (f a)) -> all_ops P (bind p f).
Proof. intros Hp Hf. induction Hp; simpl; try constructor; auto. Qed.

Lemma all_ops_try_catch {A : Type} (P : Call -> Prop) (p : Prog A) (h : string -> Prog A) :
  all_ops P p -> (forall e, all_ops P (h e)) -> all_ops P (try_catch p h).
Proof. intros Hp Hh. induction Hp; simpl; try constructor; auto. Qed.

Lemma all_ops_call {X : Type} (P : Call -> Prop) (op : Op X) :
  P (Called op) -> all_ops P (call op).
Proof. intros HP. constructor; [done|]. intros [x|e]; constructor. Qed.

Lemma all_ops_trace (env : Env) {A : Type} (P : Call -> Prop) (p : Prog A) :
  all_ops P p ->
  forall w w' out, run env p w = (w', out) -> exists d, extends w w' d /\ Forall P d.
Proof.
  induction 1 as [a|e|X op k Hop _ IH]; intros w w' out Hrun; simpl in Hrun.
  - simplify_eq. exists []. split; [apply extends_refl|constructor].
  - simplify_eq. exists []. split; [apply extends_refl|constructor].
  - destruct (exec env op w) as [w1 r] eqn:E.
    destruct (IH r w1 w' out Hrun) as (d & Hd & HP).
    exists ([Called op] ++ d). split.
    + eapply extends_trans; [|exact Hd]. by eapply exec_extends.
    + by constructor.
Qed.

Lemma all_ops_run (env : Env) {A : Type} (P : Call -> Prop) (p : Prog A) :
  all_ops P p ->
  forall w w' out, run env p w = (w', out) -> Forall P (calls_since w w').
Proof.
  intros Hp w w' out Hrun.
  destruct (all_ops_trace env P p Hp w w' out Hrun) as (d & Hd & HP).
  by rewrite (calls_since_extends _ _ _ Hd).
Qed.

(** A program that issues only quiet calls leaves the store as it was. *)
Lemma quiet_store (env : Env) {A : Type} (p : Prog A) :
  all_ops (fun c => quiet c = true) p ->
  forall w w' out, run env p w = (w', out) -> store w' = store w.
Proof.
  induction 1 as [a|e|X op k Hop _ IH]; intros w w' out Hrun; simpl in Hrun.
  - by simplify_eq.
  - by simplify_eq.
  - destruct (exec env op w) as [w1 r] eqn:E.
    rewrite (IH r w1 w' out Hrun). eapply exec_store; [exact E|].
    unfold quiet in Hop. apply negb_true_iff in Hop.
    by do 3 (apply orb_false_iff in Hop as [Hop _]).
Qed.

Ltac norm_world_in H :=
  unfold record_call, with_store in H; cbn [store log] in H;
  repeat first [rewrite <- app_assoc in H | progress cbn [app] in H].

(** Splits on the answer of the store to the next call in [H]. *)
Ltac case_db H :=
  match type of H with
  | context [db_fails ?e ?n] => destruct (db_fails e n) as [?err|] eqn:?Hdb
  end.

(** One step of a syntactic walk over the calls of a program. *)
Ltac all_ops_step :=
  lazymatch goal with
  | |- all_ops _ (bind _ _) => apply all_ops_bind; [|intros]
  | |- all_ops _ (call _) => apply all_ops_call
  | |- all_ops _ (try_catch _ _) => apply all_ops_try_catch; [|intros]
  | |- all_ops _ (Ret _) => apply all_ops_Ret
  | |- all_ops _ (Throw _) => apply all_ops_Throw
  | |- all_ops _ (if ?b then _ else _) => destruct b
  | |- all_ops _ (match ?x with _ => _ end) => destruct x
  end.

Lemma dedup_scan_quiet (fid : string) (keys : list string) :
  all_ops (fun c => quiet c = true) (dedup_scan fid keys).
Proof.
  induction keys as [|k keys IH]; cbn [dedup_scan]; [constructor|].
  apply all_ops_bind; [by apply all_ops_call|]. intros fd.
  destruct (strict_eq_str _ _); [constructor|exact IH].
Qed.

Lemma getTelegramChannel_quiet (channelName : string) :
  all_ops (fun c => quiet c = true) (getTelegramChannel channelName).
Proof. unfold getTelegramChannel, JSON_parse_upload. repeat all_ops_step; done. Qed.

(** Before the primary write the handler only reads and allocates. *)
Lemma prepare_quiet (chatId : string) (file : FileInfo) :
  all_ops (fun c => quiet c = true) (prepare chatId file).
Proof.
  unfold prepare, JSON_parse_webhook, text_or.
  repeat first
    [ lazymatch goal with
      | |- all_ops _ (getTelegramChannel _) => apply getTelegramChannel_quiet
      | |- all_ops _ (dedup_scan _ _) => apply dedup_scan_quiet
      end
    | all_ops_step ]; done.
Qed.

Lemma batch_reply_no_plain_put (api : TelegramAPI) (chatId fullId g : string) :
  all_ops no_plain_put (batch_reply api chatId fullId g).
Proof.
  unfold batch_reply, JSON_parse_batch.
  repeat all_ops_step; intros ? ? ?; simpl; congruence.
Qed.

Lemma index_and_reply_no_plain_put msg chatId channel uploadDir fullId meta :
  all_ops no_plain_put (index_and_reply msg chatId channel uploadDir fullId meta).
Proof.
  unfold index_and_reply, single_reply.
  repeat first
    [ lazymatch goal with
      | |- all_ops _ (batch_reply _ _ _ _) => apply batch_reply_no_plain_put
      end
    | all_ops_step ]; intros ? ? ?; simpl; congruence.
Qed.

(* ===================================================================== *)
(** * The deduplication scan                                              *)
(* ===================================================================== *)

Lemma startsWith_empty (s : string) : startsWith s "" = true.
Proof. by destruct s. Qed.

Lemma records_origin_present (s : Store) (key fid : string) :
  records_origin s key fid = true -> is_Some (s !! key).
Proof.
  unfold records_origin, store_getWithMetadata.
  destruct (s !! key); [eauto|discriminate].
Qed.

(** What the scan does, whatever the store calls answer. *)
Lemma dedup_scan_run (env : Env) (fid : string) (keys : list string)
    (w w' : World) (out : result (option string)) :
  run env (dedup_scan fid keys) w = (w', out) ->
  store w' = store w /\
  exists ks, log w' = log w ++ reads ks /\
    match out with
    | inl (Some k) => k ∈ keys /\ records_origin (store w) k fid = true
    | inl None => ks = keys /\ forall k, k ∈ keys -> records_origin (store w) k fid = false
    | inr e => exists n, db_fails env n = Some e
    end.
Proof.
  revert w. induction keys as [|key keys IH]; intros w Hrun.
  - simpl in Hrun. simplify_eq. split; [done|]. exists []. rewrite app_nil_r.
    split; [done|]. split; [done|]. intros k Hk. by apply elem_of_nil in Hk.
  - cbn [dedup_scan] in Hrun. rewrite run_bind, run_call in Hrun.
    unfold exec, db_call in Hrun.
    destruct (db_fails env (length (log w))) as [e|] eqn:Hfail.
    + simplify_eq. split; [done|]. exists [key]. split; [done|]. eauto.
    + fold (records_origin (store w) key fid) in Hrun.
      destruct (records_origin (store w) key fid) eqn:Horigin.
      * simpl in Hrun. simplify_eq. split; [done|]. exists [key].
        split; [done|]. split; [apply list_elem_of_here|done].
      * apply IH in Hrun as (Hstore & ks & Hlog & Hout).
        split; [exact Hstore|]. exists (key :: ks). split.
        { rewrite Hlog. norm_world. reflexivity. }
        cbn [store with_store record_call] in Hout.
        destruct out as [[k|]|e].
        -- destruct Hout as [Hin Hk]. split; [by apply list_elem_of_further|done].
        -- destruct Hout as [-> Hall]. split; [done|].
           intros k Hk. apply elem_of_cons in Hk as [->|Hk]; auto.
        -- done.
Qed.

(** The steps before the write when the origin file identifier is already
    recorded in the store. *)
Lemma prepare_duplicate (env : Env) (chatId : string) (file : FileInfo)
    (w w' : World) (out : result (object + Prepared)) (config : WebhookConfig)
    (key : string) :
  store_get (store w) webhook_key = Some (VWebhook config) ->
  enabled config = true ->
  truthy_str (targetChannel config) = true ->
  records_origin (store w) key (fileId file) = true ->
  run env (prepare chatId file) w = (w', out) ->
  count is_allocate (calls_since w w') = 0%nat /\
  match out with
  | inl (inl r) =>
      exists k, r = [("success", JBool false); ("reason", JStr "already_saved");
                     ("existingFileId", JStr k)] /\
                records_origin (store w) k (fileId file) = true
  | inl (inr _) => False
  | inr e => exists n, db_fails env n = Some e
  end.
Proof.
  intros Hcfg Hen Htarget Hdup Hrun. unfold prepare in Hrun.
  rewrite run_bind, run_call in Hrun. unfold exec at 1, db_call in Hrun.
  case_db Hrun.
  { simplify_eq. norm_world. rewrite calls_since_mk. split; [done|]. eauto. }
  norm_world_in Hrun. rewrite Hcfg in Hrun. cbn [truthy_value negb] in Hrun.
  cbn [JSON_parse_webhook] in Hrun. rewrite run_bind in Hrun. cbn [run] in Hrun.
  rewrite Hen, Htarget in Hrun. cbn [negb orb] in Hrun.
  rewrite run_bind, run_call in Hrun. unfold exec at 1, db_call in Hrun.
  case_db Hrun.
  { norm_world_in Hrun. simplify_eq. rewrite calls_since_mk. split; [done|]. eauto. }
  norm_world_in Hrun. rewrite run_bind in Hrun.
  destruct (run env (dedup_scan _ _) _) as [w1 [[k|]|e]] eqn:Hscan;
    apply dedup_scan_run in Hscan as (Hstore & ks & Hlog & Hout);
    cbn [store log] in Hstore, Hlog, Hout.
  - assert (Hext : extends w w1 ([Called (DbGet webhook_key); Called (DbList "")] ++ reads ks)).
    { unfold extends. rewrite Hlog. by rewrite <- app_assoc. }
    cbn [run] in Hrun. simplify_eq. destruct Hout as [_ Hk]. split; [|eauto].
    rewrite (calls_since_extends _ _ _ Hext), count_app, count_reads by done.
    reflexivity.
  - exfalso. destruct Hout as [_ Hall].
    assert (Hin : key ∈ store_list (store w) "").
    { apply store_list_spec. split; [by eapply records_origin_present|].
      apply startsWith_empty. }
    rewrite (Hall key Hin) in Hdup. discriminate.
  - assert (Hext : extends w w1 ([Called (DbGet webhook_key); Called (DbList "")] ++ reads ks)).
    { unfold extends. rewrite Hlog. by rewrite <- app_assoc. }
    simplify_eq. split; [|exact Hout].
    rewrite (calls_since_extends _ _ _ Hext), count_app, count_reads by done.
    reflexivity.
Qed.

(** C2, as the handler behaves. Under a stored and enabled webhook
    configuration that names a target channel, a file event whose origin
    file identifier is recorded as [TgFileId] in the metadata of a stored
    entry never gets past the scan: whatever the collaborators answer, the
    store is left as it was and no identity is allocated, nothing is written,
    no notification is sent and nothing is scheduled. The processing either
    returns the [already_saved] result, naming a stored entry with that
    origin, or stops on a failed store read; when the store reads succeed it
    returns [already_saved]. *)
Theorem duplicate_is_detected_before_allocation (env : Env) (msg : Message)
    (chatId : string) (file : FileInfo) (w w' : World) (out : result object)
    (config : WebhookConfig) (key : string) :
  store_get (store w) webhook_key = Some (VWebhook config) ->
  enabled config = true ->
  truthy_str (targetChannel config) = true ->
  records_origin (store w) key (fileId file) = true ->
  run env (store_file msg chatId file) w = (w', out) ->
  store w' = store w /\
  count is_allocate (calls_since w w') = 0%nat /\
  Forall (fun c => quiet c = true) (calls_since w w') /\
  match out with
  | inl r =>
      exists k, r = [("success", JBool false); ("reason", JStr "already_saved");
                     ("existingFileId", JStr k)] /\
                records_origin (store w) k (fileId file) = true
  | inr e => exists n, db_fails env n = Some e
  end /\
  ((forall n, db_fails env n = None) -> exists r, out = inl r).
Proof.
  intros Hcfg Hen Htarget Hdup Hrun. unfold store_file in Hrun.
  rewrite run_bind in Hrun.
  destruct (run env (prepare chatId file) w) as [w1 out1] eqn:Hprep.
  pose proof (prepare_duplicate env chatId file w w1 out1 config key
                Hcfg Hen Htarget Hdup Hprep) as [Halloc Hout].
  pose proof (quiet_store env _ (prepare_quiet chatId file) _ _ _ Hprep) as Hstore.
  pose proof (all_ops_run env _ _ (prepare_quiet chatId file) _ _ _ Hprep) as Hquiet.
  destruct out1 as [[r|ctx]|e]; [| done |]; cbn [run] in Hrun; simplify_eq.
  - repeat split; try done. eauto.
  - repeat split; try done. intros Hok. destruct Hout as [n Hn].
    rewrite Hok in Hn. discriminate.
Qed.

(* ===================================================================== *)
(** * The primary write                                                   *)
(* ===================================================================== *)

(** The primary write, call by call, for every answer of the store. *)
Lemma primary_write_run (env : Env) (fullId : string) (meta : object)
    (g : option string) (w : World) :
  run env (primary_write fullId meta g) w =
  let put1 := Called (DbPut fullId (VText "") (file_opts meta)) in
  let stored := store_put (store w) fullId (VText "") (file_opts meta) in
  match db_fails env (length (log w)) with
  | Some e => ({| store := store w; log := log w ++ [put1] |}, inl (Some (database_error e)))
  | None =>
      match g with
      | None => ({| store := stored; log := log w ++ [put1] |}, inl None)
      | Some g =>
          let put2 := Called (DbPut (batch_index_key g fullId) (VText fullId)
                                (index_opts meta)) in
          match db_fails env (S (length (log w))) with
          | Some e =>
              ({| store := stored; log := log w ++ [put1; put2] |},
               inl (Some (database_error e)))
          | None =>
              ({| store := store_put stored (batch_index_key g fullId) (VText fullId)
                             (index_opts meta);
                  log := log w ++ [put1; put2] |}, inl None)
          end
      end
  end.
Proof.
  unfold primary_write. rewrite run_try_catch, run_bind, run_call.
  unfold exec at 1, db_call.
  destruct (db_fails env (length (log w))) as [e|] eqn:H1.
  { cbn [run]. norm_world. reflexivity. }
  destruct g as [g|].
  - rewrite run_bind, run_call. unfold exec, db_call. norm_world.
    rewrite length_app. cbn [length]. rewrite Nat.add_1_r.
    destruct (db_fails env (S (length (log w)))) as [e|] eqn:H2.
    + cbn [run]. reflexivity.
    + cbn [run]. reflexivity.
  - cbn [run]. norm_world. reflexivity.
Qed.

(** The index update and the reply for a single file, whatever the
    collaborators answer. *)
Lemma index_and_reply_single (env : Env) (msg : Message) (chatId : string)
    (channel : Channel) (uploadDir fullId : string) (meta : object) (w : World) :
  group_of (media_group_id msg) = None ->
  run env (index_and_reply msg chatId channel uploadDir fullId meta) w =
  ({| store := store w;
      log := log w ++ [Called (EndUpload uploadDir fullId meta);
                       Called (SendMessage (new_TelegramAPI channel) chatId
                                 (single_text fullId meta))] |},
   inl (success_result fullId meta (media_group_id msg))).
Proof.
  intros Hg. unfold index_and_reply. rewrite Hg.
  rewrite run_bind, run_try_catch, run_call. cbn [exec].
  assert (Hend : forall o : result unit,
            (let (w', r) := (record_call (EndUpload uploadDir fullId meta) w, o) in
             match r with
             | inl a => (w', inl a)
             | inr e => run env (Ret tt) w'
             end) = (record_call (EndUpload uploadDir fullId meta) w, inl tt)).
  { intros [[]|e]; reflexivity. }
  rewrite Hend. clear Hend.
  rewrite run_bind. unfold single_reply.
  rewrite run_try_catch, run_bind, run_call. cbn [exec].
  destruct (api_reply env _) as [resp|e]; cbn [run]; norm_world; reflexivity.
Qed.

(** ** Rejected writes in a list of calls *)

Lemma failed_plain_put_app (env : Env) (base : nat) (d1 d2 : list Call) k s o e :
  failed_plain_put env base (d1 ++ d2) k s o e ->
  failed_plain_put env base d1 k s o e \/
  failed_plain_put env (base + length d1) d2 k s o e.
Proof.
  intros (i & c & Hi & Hput & Hfail).
  apply lookup_app_Some in Hi as [Hi|[Hlen Hi]].
  - left. by exists i, c.
  - right. exists (i - length d1)%nat, c. repeat split; try done.
    by replace (base + length d1 + (i - length d1))%nat with (base + i)%nat by lia.
Qed.

Lemma failed_plain_put_cons (env : Env) (base : nat) (c : Call) (d : list Call) k s o e :
  failed_plain_put env base (c :: d) k s o e ->
  (put_of c = Some (k, VText s, o) /\ db_fails env base = Some e) \/
  failed_plain_put env (S base) d k s o e.
Proof.
  intros ([|i] & c' & Hi & Hput & Hfail); simpl in Hi.
  - simplify_eq. left. by rewrite Nat.add_0_r in Hfail.
  - right. exists i, c'. repeat split; try done.
    by replace (S base + i)%nat with (base + S i)%nat by lia.
Qed.

Lemma failed_plain_put_nil (env : Env) (base : nat) k s o e :
  ~ failed_plain_put env base [] k s o e.
Proof. intros (i & c & Hi & _). by destruct i. Qed.

Lemma failed_plain_put_none (env : Env) (base : nat) (d : list Call) k s o e :
  Forall no_plain_put d -> ~ failed_plain_put env base d k s o e.
Proof.
  intros Hall (i & c & Hi & Hput & _).
  apply (proj1 (Forall_lookup _ _) Hall i c Hi k s o Hput).
Qed.

Lemma quiet_no_put (c : Call) : quiet c = true -> put_of c = None.
Proof.
  unfold quiet. intros H. apply negb_true_iff in H.
  do 3 (apply orb_false_iff in H as [H _]).
  apply orb_false_iff in H as [H _].
  destruct c as [X op]. by destruct op.
Qed.

Lemma quiet_no_plain_put (d : list Call) :
  Forall (fun c => quiet c = true) d -> Forall no_plain_put d.
Proof.
  intros H. eapply Forall_impl; [exact H|].
  intros c Hq k s o. by rewrite (quiet_no_put c Hq).
Qed.

Lemma omap_put_quiet (d : list Call) :
  Forall (fun c => quiet c = true) d -> omap put_of d = [].
Proof.
  induction 1 as [|c d Hc _ IH]; [done|].
  cbn [omap list_omap]. simpl. by rewrite (quiet_no_put c Hc).
Qed.

Lemma count_quiet (f : Call -> bool) (d : list Call) :
  (forall c, quiet c = true -> f c = false) ->
  Forall (fun c => quiet c = true) d -> count f d = 0%nat.
Proof.
  intros Hf. induction 1 as [|c d Hc _ IH]; [done|].
  unfold count in *. simpl. by rewrite (Hf c Hc).
Qed.

Lemma quiet_not (c : Call) :
  quiet c = true ->
  is_put c = false /\ is_delete c = false /\ is_send c = false /\
  is_edit c = false /\ is_waitUntil c = false.
Proof.
  unfold quiet, is_store_write. intros H. apply negb_true_iff in H.
  repeat (apply orb_false_iff in H as [H ?]). done.
Qed.

Lemma quiet_counts (d : list Call) :
  Forall (fun c => quiet c = true) d ->
  count is_send d = 0%nat /\ count is_edit d = 0%nat /\
  count is_waitUntil d = 0%nat /\ count is_delete d = 0%nat /\
  count is_put d = 0%nat.
Proof.
  intros Hq. repeat split; apply count_quiet; try done;
    intros c Hc; apply quiet_not in Hc; tauto.
Qed.

(** C4, as the handler behaves. If the store rejects a write of the primary
    write step (the StoredFile put, or the batch-index put of a grouped
    file), the processing of the event returns the [database_error] result
    with the message of the store, and it issues no notification send, no
    edit, no delete, no BatchState write and no finalize task. When the
    rejected write is the StoredFile put, it is the only write attempted and
    the store is left as it was; when it is the batch-index put, the
    StoredFile put before it has succeeded and its entry stays in the
    store. *)
Theorem rejected_primary_write (env : Env) (msg : Message) (chatId : string)
    (file : FileInfo) (w w' : World) (out : result object)
    (k s : string) (o : PutOpts) (e : string) :
  run env (store_file msg chatId file) w = (w', out) ->
  failed_plain_put env (length (log w)) (calls_since w w') k s o e ->
  out = inl (database_error e) /\
  count is_send (calls_since w w') = 0%nat /\
  count is_edit (calls_since w w') = 0%nat /\
  count is_waitUntil (calls_since w w') = 0%nat /\
  count is_delete (calls_since w w') = 0%nat /\
  match po_expirationTtl o with
  | None =>
      omap put_of (calls_since w w') = [(k, VText s, o)] /\
      store w' = store w
  | Some _ =>
      exists fullId meta g,
        group_of (media_group_id msg) = Some g /\
        k = batch_index_key g fullId /\
        omap put_of (calls_since w w') = [(fullId, VText "", file_opts meta); (k, VText s, o)] /\
        store w' = store_put (store w) fullId (VText "") (file_opts meta)
  end.
Proof.
  intros Hrun Hfail. unfold store_file in Hrun. rewrite run_bind in Hrun.
  destruct (run env (prepare chatId file) w) as [w1 out1] eqn:Hprep.
  destruct (all_ops_trace env _ _ (prepare_quiet chatId file) _ _ _ Hprep)
    as (d1 & Hd1 & Hquiet).
  pose proof (quiet_store env _ (prepare_quiet chatId file) _ _ _ Hprep) as Hstore.
  destruct (quiet_counts d1 Hquiet) as (Hsend & Hedit & Hwait & Hdel & _).
  assert (Hnone : forall base, ~ failed_plain_put env base d1 k s o e)
    by (intros base; by apply failed_plain_put_none, quiet_no_plain_put).
  destruct out1 as [[r|[[[config channel] uploadDir] fullId]]|e1].
  - cbn [run] in Hrun. simplify_eq.
    rewrite (calls_since_extends _ _ _ Hd1) in Hfail. by apply Hnone in Hfail.
  - unfold write_and_reply in Hrun. rewrite run_bind, run_call in Hrun.
    cbn [exec] in Hrun. rewrite run_bind, primary_write_run in Hrun.
    set (meta := build_metadata channel config file chatId fullId
                   (clock env (length (log w1))) (media_group_id msg)) in *.
    norm_world_in Hrun.
    assert (Hlen : length (log w1 ++ [Called DateNow]) = S (length (log w1)))
      by (rewrite length_app; simpl; lia).
    rewrite Hlen in Hrun.
    assert (Hbase : (length (log w) + length d1)%nat = length (log w1))
      by (by rewrite Hd1, length_app).
    case_db Hrun.
    + (* the StoredFile put is rejected *)
      cbn [run] in Hrun. norm_world_in Hrun. simplify_eq.
      assert (Hext : extends w
                {| store := store w1;
                   log := log w1 ++ [Called DateNow;
                                     Called (DbPut fullId (VText "") (file_opts meta))] |}
                (d1 ++ [Called DateNow; Called (DbPut fullId (VText "") (file_opts meta))])).
      { unfold extends. cbn [log]. rewrite Hd1. by rewrite <- app_assoc. }
      rewrite (calls_since_extends _ _ _ Hext) in *.
      apply failed_plain_put_app in Hfail as [Hfail|Hfail]; [by apply Hnone in Hfail|].
      rewrite Hbase in Hfail.
      apply failed_plain_put_cons in Hfail as [[Hput _]|Hfail]; [cbn in Hput; discriminate Hput|].
      apply failed_plain_put_cons in Hfail as [[Hput Hrej]|Hfail];
        [|by apply failed_plain_put_nil in Hfail].
      cbn in Hput. simplify_eq. split; [done|].
      rewrite !count_app, omap_app, (omap_put_quiet d1 Hquiet).
      rewrite Hsend, Hedit, Hwait, Hdel.
      cbn [file_opts po_expirationTtl]. repeat split; done.
    + destruct (group_of (media_group_id msg)) as [g|] eqn:Hg.
      * case_db Hrun.
        -- (* the batch-index put is rejected *)
           cbn [run] in Hrun. norm_world_in Hrun. simplify_eq.
           assert (Hext : extends w
                {| store := store_put (store w1) fullId (VText "") (file_opts meta);
                   log := log w1 ++ [Called DateNow;
                                     Called (DbPut fullId (VText "") (file_opts meta));
                                     Called (DbPut (batch_index_key g fullId) (VText fullId)
                                               (index_opts meta))] |}
                (d1 ++ [Called DateNow;
                        Called (DbPut fullId (VText "") (file_opts meta));
                        Called (DbPut (batch_index_key g fullId) (VText fullId)
                                  (index_opts meta))])).
           { unfold extends. cbn [log]. rewrite Hd1. by rewrite <- app_assoc. }
           rewrite (calls_since_extends _ _ _ Hext) in *.
           apply failed_plain_put_app in Hfail as [Hfail|Hfail]; [by apply Hnone in Hfail|].
           rewrite Hbase in Hfail.
           apply failed_plain_put_cons in Hfail as [[Hput _]|Hfail]; [cbn in Hput; discriminate Hput|].
           apply failed_plain_put_cons in Hfail as [[_ Hrej]|Hfail]; [congruence|].
           apply failed_plain_put_cons in Hfail as [[Hput Hrej]|Hfail];
             [|by apply failed_plain_put_nil in Hfail].
           cbn in Hput. simplify_eq. split; [done|].
           rewrite !count_app, omap_app, (omap_put_quiet d1 Hquiet).
           rewrite Hsend, Hedit, Hwait, Hdel.
           cbn [index_opts po_expirationTtl]. repeat split; try done.
           eexists _, _, _. rewrite Hstore. repeat split; reflexivity.
        -- (* both writes are accepted: the rest issues no such write *)
           exfalso. norm_world_in Hrun.
           destruct (all_ops_trace env _ _
                       (index_and_reply_no_plain_put msg chatId channel uploadDir fullId meta)
                       _ _ _ Hrun) as (d3 & Hd3 & Hno).
           assert (Hext : extends w w'
                     (d1 ++ [Called DateNow;
                             Called (DbPut fullId (VText "") (file_opts meta));
                             Called (DbPut (batch_index_key g fullId) (VText fullId)
                                       (index_opts meta))] ++ d3)).
           { unfold extends in *. cbn [log] in Hd3. rewrite Hd3, Hd1.
             by rewrite <- !app_assoc. }
           rewrite (calls_since_extends _ _ _ Hext) in Hfail.
           apply failed_plain_put_app in Hfail as [Hfail|Hfail]; [by apply Hnone in Hfail|].
           rewrite Hbase in Hfail. cbn [app] in Hfail.
           apply failed_plain_put_cons in Hfail as [[Hput _]|Hfail]; [cbn in Hput; discriminate Hput|].
           apply failed_plain_put_cons in Hfail as [[_ Hrej]|Hfail]; [congruence|].
           apply failed_plain_put_cons in Hfail as [[_ Hrej]|Hfail]; [congruence|].
           by apply failed_plain_put_none in Hfail.
      * exfalso. norm_world_in Hrun.
        destruct (all_ops_trace env _ _
                    (index_and_reply_no_plain_put msg chatId channel uploadDir fullId meta)
                    _ _ _ Hrun) as (d3 & Hd3 & Hno).
        assert (Hext : extends w w'
                  (d1 ++ [Called DateNow;
                          Called (DbPut fullId (VText "") (file_opts meta))] ++ d3)).
        { unfold extends in *. cbn [log] in Hd3. rewrite Hd3, Hd1.
          by rewrite <- !app_assoc. }
        rewrite (calls_since_extends _ _ _ Hext) in Hfail.
        apply failed_plain_put_app in Hfail as [Hfail|Hfail]; [by apply Hnone in Hfail|].
        rewrite Hbase in Hfail. cbn [app] in Hfail.
        apply failed_plain_put_cons in Hfail as [[Hput _]|Hfail]; [cbn in Hput; discriminate Hput|].
        apply failed_plain_put_cons in Hfail as [[_ Hrej]|Hfail]; [congruence|].
        by apply failed_plain_put_none in Hfail.
  - cbn [run] in Hrun. simplify_eq.
    rewrite (calls_since_extends _ _ _ Hd1) in Hfail. by apply Hnone in Hfail.
Qed.

(* ===================================================================== *)
(** * A stored file: the calls of a successful processing                 *)
(* ===================================================================== *)

(** The steps before the write when they reach the allocation: the calls
    they issue. *)
Lemma prepare_ready (env : Env) (chatId : string) (file : FileInfo) (w w1 : World)
    (config : WebhookConfig) (channel : Channel) (uploadDir fullId : string) :
  run env (prepare chatId file) w = (w1, inl (inr (config, channel, uploadDir, fullId))) ->
  store w1 = store w /\
  extends w w1
    ([Called (DbGet webhook_key); Called (DbList "")] ++
     reads (store_list (store w) "") ++
     [Called (DbGet (dir_key chatId)); Called (DbGet upload_key);
      Called (BuildUniqueFileId uploadDir (fileName file) "image/jpeg")]).
Proof.
  intros Hrun.
  split; [exact (quiet_store env _ (prepare_quiet chatId file) _ _ _ Hrun)|].
  unfold prepare in Hrun.
  rewrite run_bind, run_call in Hrun. unfold exec at 1, db_call in Hrun.
  case_db Hrun; [discriminate|]. norm_world_in Hrun.
  destruct (negb (truthy_value _)); [discriminate|].
  rewrite run_bind in Hrun.
  destruct (run env (JSON_parse_webhook _) _) as [w0 [cfg|e]] eqn:Hparse; [|discriminate].
  assert (w0 = {| store := store w; log := log w ++ [Called (DbGet webhook_key)] |}) as ->.
  { unfold JSON_parse_webhook in Hparse. repeat case_match; simpl in Hparse; by simplify_eq. }
  clear Hparse.
  destruct (negb (enabled cfg) || negb (truthy_str (targetChannel cfg)))%bool; [discriminate|].
  rewrite run_bind, run_call in Hrun. unfold exec at 1, db_call in Hrun.
  case_db Hrun; [discriminate|]. norm_world_in Hrun.
  rewrite run_bind in Hrun.
  destruct (run env (dedup_scan _ _) _) as [w2 [[key|]|e]] eqn:Hscan; try discriminate.
  apply dedup_scan_run in Hscan as (Hstore2 & ks & Hlog2 & -> & _).
  cbn [store log] in Hstore2, Hlog2.
  rewrite run_bind, run_call in Hrun. unfold exec at 1, db_call in Hrun.
  case_db Hrun; [discriminate|]. norm_world_in Hrun.
  rewrite run_bind in Hrun.
  destruct (run env (text_or _ _) _) as [w3 [dir|e]] eqn:Htext; [|discriminate].
  assert (w3 = {| store := store w2; log := log w2 ++ [Called (DbGet (dir_key chatId))] |}) as ->.
  { unfold text_or in Htext. repeat case_match; simpl in Htext; by simplify_eq. }
  clear Htext.
  rewrite run_bind in Hrun. unfold getTelegramChannel in Hrun.
  rewrite run_bind, run_call in Hrun. unfold exec at 1, db_call in Hrun.
  case_db Hrun; [discriminate|]. norm_world_in Hrun.
  destruct (negb (truthy_value _)); [discriminate|].
  rewrite run_bind in Hrun.
  destruct (run env (JSON_parse_upload _) _) as [w4 [ucfg|e]] eqn:Hparse; [|discriminate].
  assert (w4 = {| store := store w2;
                  log := log w2 ++ [Called (DbGet (dir_key chatId));
                                    Called (DbGet upload_key)] |}) as ->.
  { unfold JSON_parse_upload in Hparse. repeat case_match; simpl in Hparse; by simplify_eq. }
  clear Hparse. cbn [run] in Hrun.
  destruct (find _ _) as [ch|]; [|discriminate].
  rewrite run_bind, run_call in Hrun. cbn [exec] in Hrun. norm_world_in Hrun.
  destruct (allocate env _ _ _ _ _) as [id|e]; [|discriminate].
  cbn [run] in Hrun. simplify_eq.
  unfold extends. cbn [log]. rewrite Hlog2. by rewrite <- !app_assoc.
Qed.

Lemma omap_get_reads (keys : list string) : omap get_key (reads keys) = [].
Proof. by apply omap_reads. Qed.

(** The BatchState key of a group is none of the keys a single file reads. *)
Lemma batch_key_not_read (g chatId : string) :
  batch_key g ∉ [webhook_key; dir_key chatId; upload_key].
Proof.
  intros H. repeat (apply elem_of_cons in H as [H|H]; [cbv in H; discriminate H|]).
  by apply elem_of_nil in H.
Qed.

(** Every early return of the steps before the write is a failure. *)
Lemma prepare_early_failure (chatId : string) (file : FileInfo) :
  all_rets (fun p => forall r, p = inl r -> get_field r "success" = JBool false)
    (prepare chatId file).
Proof.
  unfold prepare.
  repeat first
    [ lazymatch goal with
      | |- all_rets _ (getTelegramChannel _) => all_rets_skip
      | |- all_rets _ (JSON_parse_webhook _) => all_rets_skip
      | |- all_rets _ (text_or _ _) => all_rets_skip
      | |- all_rets _ (dedup_scan _ _) => all_rets_skip
      end
    | all_rets_step ]; intros; simplify_eq; reflexivity.
Qed.

(** C8, as the handler behaves. For a file event without a (non-empty)
    media-group identifier that is stored successfully, the calls are, in
    this order: the read of the
    webhook configuration, the listing of the whole store and one
    [getWithMetadata] for every key listed (the deduplication scan, which
    every file event runs), the reads of the chat's upload directory and of
    the upload configuration, the allocation, the clock, the StoredFile put,
    [endUpload] and one [sendMessage] with the text of the single reply.
    So one [sendMessage] is attempted; the only store write is the
    StoredFile put (no batch-index entry, no BatchState); the [db.get] calls
    read no BatchState key; nothing is edited, deleted or scheduled. The
    scan is the one place where a BatchState can be touched: it reads the
    metadata of every stored key. *)
Theorem single_file_bypasses_coalescer (env : Env) (msg : Message) (chatId : string)
    (file : FileInfo) (w w' : World) (r : object) :
  run env (store_file msg chatId file) w = (w', inl r) ->
  get_field r "success" = JBool true ->
  group_of (media_group_id msg) = None ->
  exists fullId meta uploadDir channel,
    r = success_result fullId meta (media_group_id msg) /\
    calls_since w w' =
      [Called (DbGet webhook_key); Called (DbList "")] ++
      reads (store_list (store w) "") ++
      [Called (DbGet (dir_key chatId)); Called (DbGet upload_key);
       Called (BuildUniqueFileId uploadDir (fileName file) "image/jpeg");
       Called DateNow; Called (DbPut fullId (VText "") (file_opts meta));
       Called (EndUpload uploadDir fullId meta);
       Called (SendMessage (new_TelegramAPI channel) chatId
                 (single_text fullId meta))] /\
    omap send_of (calls_since w w') = [(chatId, single_text fullId meta)] /\
    omap put_of (calls_since w w') = [(fullId, VText "", file_opts meta)] /\
    omap get_key (calls_since w w') = [webhook_key; dir_key chatId; upload_key] /\
    (forall g, batch_key g ∉ omap get_key (calls_since w w')) /\
    omap read_key (calls_since w w') = store_list (store w) "" /\
    omap wait_of (calls_since w w') = [] /\
    count is_edit (calls_since w w') = 0%nat /\
    count is_delete (calls_since w w') = 0%nat /\
    store w' = store_put (store w) fullId (VText "") (file_opts meta).
Proof.
  intros Hrun Hsuccess Hgroup. unfold store_file in Hrun. rewrite run_bind in Hrun.
  destruct (run env (prepare chatId file) w)
    as [w1 [[r1|[[[config channel] uploadDir] fullId]]|e1]] eqn:Hprep;
    [| |discriminate].
  { (* an early return is a failure *)
    cbn [run] in Hrun. simplify_eq.
    pose proof (all_rets_run env _ _ (prepare_early_failure chatId file) _ _ _ Hprep r eq_refl).
    congruence. }
  destruct (prepare_ready env chatId file w w1 config channel uploadDir fullId Hprep)
    as [Hstore Hext1].
  unfold write_and_reply in Hrun. rewrite run_bind, run_call in Hrun.
  cbn [exec] in Hrun. rewrite run_bind, primary_write_run in Hrun.
  set (meta := build_metadata channel config file chatId fullId
                 (clock env (length (log w1))) (media_group_id msg)) in *.
  rewrite Hgroup in Hrun. norm_world_in Hrun.
  case_db Hrun.
  { cbn [run] in Hrun. by simplify_eq. }
  rewrite (index_and_reply_single env msg chatId channel uploadDir fullId meta _ Hgroup)
    in Hrun.
  norm_world_in Hrun. simplify_eq.
  exists fullId, meta, uploadDir, channel.
  assert (Hext : extends w
            {| store := store_put (store w1) fullId (VText "") (file_opts meta);
               log := log w1 ++
                      [Called DateNow; Called (DbPut fullId (VText "") (file_opts meta));
                       Called (EndUpload uploadDir fullId meta);
                       Called (SendMessage (new_TelegramAPI channel) chatId
                                 (single_text fullId meta))] |}
            (([Called (DbGet webhook_key); Called (DbList "")] ++
              reads (store_list (store w) "") ++
              [Called (DbGet (dir_key chatId)); Called (DbGet upload_key);
               Called (BuildUniqueFileId uploadDir (fileName file) "image/jpeg")]) ++
             [Called DateNow; Called (DbPut fullId (VText "") (file_opts meta));
              Called (EndUpload uploadDir fullId meta);
              Called (SendMessage (new_TelegramAPI channel) chatId
                        (single_text fullId meta))])).
  { unfold extends in *. cbn [log]. rewrite Hext1. symmetry. apply app_assoc. }
  rewrite (calls_since_extends _ _ _ Hext).
  rewrite !omap_app, !count_app, omap_read_key_reads, !omap_reads, !count_reads by done.
  cbn [store]. rewrite Hstore.
  split; [done|].
  split; [repeat first [rewrite <- app_assoc | progress cbn [app]]; reflexivity|].
  split; [done|]. split; [done|]. split; [done|].
  split; [intros g; apply batch_key_not_read|].
  split; [cbn; by rewrite !app_nil_r|]. done.
Qed.

(* ===================================================================== *)
(** * The BatchState after an arrival                                     *)
(* ===================================================================== *)

Lemma batch_key_inj (g1 g2 : string) : batch_key g1 = batch_key g2 -> g1 = g2.
Proof. unfold batch_key. intros H. by apply (inj (String.app "telegram_batch_")) in H. Qed.

Lemma batch_index_key_not_batch_key (g fullId g' : string) :
  batch_index_key g fullId <> batch_key g'.
Proof. intros H. cbv in H. discriminate H. Qed.

(** The reply for a grouped file when it completes: the BatchState it
    writes, and what it keeps of the one it read. *)
Lemma batch_reply_done (env : Env) (api : TelegramAPI) (chatId fullId g : string)
    (w w' : World) :
  run env (batch_reply api chatId fullId g) w = (w', inl tt) ->
  exists b',
    store w' = store_put (store w) (batch_key g) (VBatch b')
                 {| po_metadata := None; po_expirationTtl := Some 60%N |} /\
    omap put_of (calls_since w w') =
      [(batch_key g, VBatch b', {| po_metadata := None; po_expirationTtl := Some 60%N |})] /\
    omap wait_of (calls_since w w') =
      [{| t_chatId := chatId; t_mediaGroupId := g; t_api := api |}] /\
    omap get_key (calls_since w w') = [batch_key g] /\
    (forall b, store_get (store w) (batch_key g) = Some (VBatch b) ->
       (truthy_messageId (messageId b) = true ->
        messageId b' = messageId b /\ count is_send (calls_since w w') = 0%nat) /\
       (truthy_messageId (messageId b) = false ->
        count is_send (calls_since w w') = 1%nat) /\
       (truthy_opt_str (firstFileId b) = true -> firstFileId b' = firstFileId b) /\
       (truthy_opt_str (firstFileId b) = false -> firstFileId b' = Some fullId)) /\
    (truthy_value (store_get (store w) (batch_key g)) = false ->
     firstFileId b' = Some fullId /\ count is_send (calls_since w w') = 1%nat).
Proof.
  intros Hrun. unfold batch_reply in Hrun.
  rewrite run_bind, run_call in Hrun. unfold exec at 1, db_call in Hrun.
  case_db Hrun; [discriminate|]. norm_world_in Hrun.
  rewrite run_bind in Hrun.
  set (bk := batch_key g) in *.
  set (w1 := {| store := store w; log := log w ++ [Called (DbGet bk)] |}) in *.
  (* the BatchState as read, or the fresh one *)
  destruct (run env (if truthy_value (store_get (store w) bk) then _ else _) w1)
    as [w1' [prior|e]] eqn:Hprior; [|discriminate].
  assert (Hread : w1' = w1 /\
            (forall b, store_get (store w) bk = Some (VBatch b) -> prior = b) /\
            (truthy_value (store_get (store w) bk) = false ->
             prior = {| messageId := None; firstFileId := None |})).
  { destruct (store_get (store w) bk) as [[s| | |b]|];
      cbn [truthy_value JSON_parse_batch] in *.
    - destruct (truthy_str s); cbn [run] in Hprior; simplify_eq.
      repeat split; intros; by simplify_eq.
    - cbn [run] in Hprior. simplify_eq.
    - cbn [run] in Hprior. simplify_eq.
    - cbn [run] in Hprior. simplify_eq. repeat split; intros; by simplify_eq.
    - cbn [run] in Hprior. simplify_eq. repeat split; intros; by simplify_eq. }
  destruct Hread as (-> & Hpresent & Habsent). clear Hprior.
  set (first := if negb (truthy_opt_str (firstFileId prior))
                then {| messageId := messageId prior; firstFileId := Some fullId |}
                else prior) in *.
  rewrite run_bind in Hrun.
  destruct (run env (if negb (truthy_messageId (messageId first)) then _ else _) w1)
    as [w2 [b'|e]] eqn:Hsend; [|discriminate].
  assert (Hsent : firstFileId b' = firstFileId first /\
            ((truthy_messageId (messageId first) = true /\ w2 = w1 /\ b' = first) \/
             (truthy_messageId (messageId first) = false /\
              w2 = {| store := store w;
                      log := log w ++ [Called (DbGet bk);
                                       Called (SendMessage api chatId
                                                 "📥 正在接收批量图片...")] |}))).
  { destruct (truthy_messageId (messageId first)); cbn [negb] in Hsend.
    - cbn [run] in Hsend. simplify_eq. split; [done|]. left. done.
    - rewrite run_try_catch, run_bind, run_call in Hsend. cbn [exec] in Hsend.
      unfold w1 in Hsend. norm_world_in Hsend.
      destruct (api_reply env _) as [resp|e]; cbn [run] in Hsend.
      + destruct (ok resp); cbn [run] in Hsend; simplify_eq; (split; [done|]); right; done.
      + simplify_eq. split; [done|]. right. done. }
  destruct Hsent as [Hfirst Hsent]. clear Hsend.
  rewrite run_bind, run_call in Hrun. unfold exec at 1, db_call in Hrun.
  case_db Hrun; [discriminate|].
  rewrite run_call in Hrun. cbn [exec] in Hrun. norm_world_in Hrun.
  exists b'.
  assert (Hfirst_of : forall b, prior = b ->
            (truthy_opt_str (firstFileId b) = true -> firstFileId b' = firstFileId b) /\
            (truthy_opt_str (firstFileId b) = false -> firstFileId b' = Some fullId)).
  { intros b <-. rewrite Hfirst. unfold first.
    destruct (truthy_opt_str (firstFileId prior)); cbn [negb]; split; intros; done. }
  assert (Hmid : messageId first = messageId prior).
  { unfold first. by destruct (negb _). }
  destruct Hsent as [(Hset & -> & ->)|(Hunset & ->)]; simplify_eq.
  - unfold w1. cbn [store log]. norm_world. rewrite !calls_since_mk.
    split; [done|]. split; [done|]. split; [done|]. split; [done|].
    rewrite Hmid in Hset. split.
    + intros b Hb. specialize (Hpresent b Hb). subst b.
      destruct (Hfirst_of prior eq_refl) as [H1 H2].
      split; [intros _; split; [exact Hmid|reflexivity]|].
      split; [intros Hf; congruence|]. split; assumption.
    + intros Habs. specialize (Habsent Habs). subst prior. discriminate Hset.
  - cbn [store log]. norm_world. rewrite !calls_since_mk.
    split; [done|]. split; [done|]. split; [done|]. split; [done|].
    rewrite Hmid in Hunset. split.
    + intros b Hb. specialize (Hpresent b Hb). subst b.
      destruct (Hfirst_of prior eq_refl) as [H1 H2].
      split; [intros Hf; congruence|].
      split; [intros _; reflexivity|]. split; assumption.
    + intros Habs. specialize (Habsent Habs). subst prior.
      destruct (Hfirst_of _ eq_refl) as [_ H2]. split; [by apply H2|reflexivity].
Qed.

Lemma calls_since_trans (w w1 w2 : World) (d1 d2 : list Call) :
  extends w w1 d1 -> extends w1 w2 d2 -> calls_since w w2 = d1 ++ calls_since w1 w2.
Proof.
  intros H1 H2. rewrite (calls_since_extends _ _ _ H2).
  apply calls_since_extends. by eapply extends_trans.
Qed.

(** C7, as the handler behaves. Take a file event of the media group [g]
    that is processed without another invocation in between and stored
    successfully (the allocated storage key not being the BatchState key
    itself). Afterwards the store holds one BatchState under the key of the
    group, written by this arrival with [expirationTtl] 60, and a finalize
    task has been scheduled. If the arrival found a BatchState whose
    notification handle was set, the handle is the same afterwards and the
    arrival sent no notification; if it found one whose [firstFileId] was
    set, that field is the same afterwards. If it found no BatchState (none
    yet, or deleted by a finalize task, or expired), it started a new one:
    it attempted one notification, and the [firstFileId] is its own storage
    key. Distinct groups have distinct BatchState keys. *)
Theorem batch_state_after_arrival (env : Env) (msg : Message) (chatId : string)
    (file : FileInfo) (w w' : World) (r : object) (g : string) :
  run env (store_file msg chatId file) w = (w', inl r) ->
  get_field r "success" = JBool true ->
  group_of (media_group_id msg) = Some g ->
  get_field r "fileId" <> JStr (batch_key g) ->
  exists b',
    store w' !! batch_key g =
      Some {| value := VBatch b'; metadata := None; expirationTtl := Some 60%N |} /\
    last (omap put_of (calls_since w w')) =
      Some (batch_key g, VBatch b', {| po_metadata := None; po_expirationTtl := Some 60%N |}) /\
    (exists api, omap wait_of (calls_since w w') =
                 [{| t_chatId := chatId; t_mediaGroupId := g; t_api := api |}]) /\
    (forall b, store_get (store w) (batch_key g) = Some (VBatch b) ->
       (truthy_messageId (messageId b) = true ->
        messageId b' = messageId b /\ count is_send (calls_since w w') = 0%nat) /\
       (truthy_opt_str (firstFileId b) = true -> firstFileId b' = firstFileId b)) /\
    (truthy_value (store_get (store w) (batch_key g)) = false ->
     JStr <$> firstFileId b' = Some (get_field r "fileId") /\
     count is_send (calls_since w w') = 1%nat) /\
    (forall g', batch_key g' = batch_key g -> g' = g).
Proof.
  intros Hrun Hsuccess Hgroup Hkey. unfold store_file in Hrun. rewrite run_bind in Hrun.
  destruct (run env (prepare chatId file) w)
    as [w1 [[r1|[[[config channel] uploadDir] fullId]]|e1]] eqn:Hprep;
    [| |discriminate].
  { cbn [run] in Hrun. simplify_eq.
    pose proof (all_rets_run env _ _ (prepare_early_failure chatId file) _ _ _ Hprep r eq_refl).
    congruence. }
  destruct (all_ops_trace env _ _ (prepare_quiet chatId file) _ _ _ Hprep)
    as (d1 & Hd1 & Hquiet).
  pose proof (quiet_store env _ (prepare_quiet chatId file) _ _ _ Hprep) as Hstore.
  destruct (quiet_counts d1 Hquiet) as (Hsend1 & _).
  unfold write_and_reply in Hrun. rewrite run_bind, run_call in Hrun.
  cbn [exec] in Hrun. rewrite run_bind, primary_write_run in Hrun.
  set (meta := build_metadata channel config file chatId fullId
                 (clock env (length (log w1))) (media_group_id msg)) in *.
  rewrite Hgroup in Hrun. norm_world_in Hrun.
  case_db Hrun; [cbn [run] in Hrun; by simplify_eq|].
  case_db Hrun; [cbn [run] in Hrun; by simplify_eq|].
  norm_world_in Hrun.
  unfold index_and_reply in Hrun. rewrite Hgroup in Hrun.
  rewrite run_bind, run_try_catch, run_call in Hrun. cbn [exec] in Hrun.
  norm_world_in Hrun.
  set (stored := store_put (store_put (store w1) fullId (VText "") (file_opts meta))
                   (batch_index_key g fullId) (VText fullId) (index_opts meta)) in *.
  set (before := [Called DateNow; Called (DbPut fullId (VText "") (file_opts meta));
                  Called (DbPut (batch_index_key g fullId) (VText fullId) (index_opts meta));
                  Called (EndUpload uploadDir fullId meta)]) in *.
  set (w4 := {| store := stored; log := log w1 ++ before |}) in *.
  assert (Hend : forall o : result unit,
            (let (w', r) := (w4, o) in
             match r with
             | inl a => (w', inl a)
             | inr e => run env (Ret tt) w'
             end) = (w4, inl tt)).
  { intros [[]|e]; reflexivity. }
  rewrite Hend in Hrun. clear Hend.
  rewrite run_bind in Hrun.
  destruct (run env (batch_reply _ _ _ _) w4) as [w5 [[]|e]] eqn:Hreply; [|discriminate].
  cbn [run] in Hrun. simplify_eq.
  destruct (run_extends env (batch_reply (new_TelegramAPI channel) chatId fullId g) w4)
    as [d5 Hd5]. rewrite Hreply in Hd5. cbn [fst] in Hd5.
  apply batch_reply_done in Hreply as (b' & Hput & Hputs & Hwait & _ & Hprior & Hfresh).
  assert (Hext : extends w w4 (d1 ++ before)).
  { unfold extends in *. unfold w4. cbn [log]. rewrite Hd1. by rewrite <- app_assoc. }
  rewrite (calls_since_trans _ _ _ _ _ Hext Hd5).
  assert (Hfull : fullId <> batch_key g).
  { intros ->. apply Hkey. reflexivity. }
  assert (Hsame : store_get stored (batch_key g) = store_get (store w) (batch_key g)).
  { unfold stored, store_get, store_put.
    rewrite lookup_insert_ne by apply batch_index_key_not_batch_key.
    rewrite lookup_insert_ne by done. by rewrite Hstore. }
  exists b'. split.
  { rewrite Hput. unfold store_put. by rewrite lookup_insert_eq. }
  split.
  { rewrite !omap_app, Hputs, (omap_put_quiet d1 Hquiet). reflexivity. }
  split.
  { exists (new_TelegramAPI channel).
    assert (Hw1 : omap wait_of d1 = []).
    { clear -Hquiet. induction Hquiet as [|c d Hc _ IH]; [done|].
      cbn [omap list_omap]. simpl. destruct c as [X op].
      apply quiet_not in Hc as (_ & _ & _ & _ & Hc). destruct op; try done. }
    rewrite !omap_app, Hwait, Hw1. reflexivity. }
  split; [|split; [|intros g'; apply batch_key_inj]].
  - intros b Hb. change (store w4) with stored in Hprior. rewrite Hsame in Hprior.
    destruct (Hprior b Hb) as (Hset & _ & Hfirst & _).
    split; [|exact Hfirst].
    intros Ht. destruct (Hset Ht) as [Hmid Hnone]. split; [exact Hmid|].
    rewrite !count_app, Hsend1, Hnone. reflexivity.
  - intros Habs. change (store w4) with stored in Hfresh. rewrite Hsame in Hfresh.
    destruct (Hfresh Habs) as [Hfirst Hone]. split; [by rewrite Hfirst|].
    rewrite !count_app, Hsend1, Hone. reflexivity.
Qed.

(* ===================================================================== *)
(** * The processing of a file on the sample deployment                   *)
(* ===================================================================== *)

Lemma duplicate_is_detected_before_allocation_witness :
  store (fst (run Sample.env (store_file (Sample.photo_message None) "42" Sample.photo_file)
                Sample.one_arrival)) = store Sample.one_arrival /\
  count is_allocate
    (calls_since Sample.one_arrival
       (fst (run Sample.env (store_file (Sample.photo_message None) "42" Sample.photo_file)
               Sample.one_arrival))) = 0%nat.
Proof.
  destruct (duplicate_is_detected_before_allocation Sample.env
              (Sample.photo_message None) "42" Sample.photo_file Sample.one_arrival
              (fst (run Sample.env (store_file (Sample.photo_message None) "42"
                                      Sample.photo_file) Sample.one_arrival))
              (snd (run Sample.env (store_file (Sample.photo_message None) "42"
                                      Sample.photo_file) Sample.one_arrival))
              Sample.webhook "photo_2024-01-02_1.jpg")
    as (Hstore & Halloc & _).
  - vm_compute. reflexivity.
  - reflexivity.
  - reflexivity.
  - vm_compute. reflexivity.
  - vm_compute. reflexivity.
  - split; [exact Hstore|exact Halloc].
Defined.

(** Without the conditions on the configuration the property fails. The
    photo [f1] is stored and its entry records the origin; with the webhook
    switched off the same photo is answered [webhook_disabled], not
    [already_saved], after the read of the configuration and without a
    scan. With the webhook on, the answer is [already_saved] and carries a
    third field, [existingFileId]. *)
Lemma duplicate_under_closed_webhook :
  records_origin (store Cases.switched_off) "photo_2024-01-02_1.jpg" "f1" = true /\
  run Sample.env (handleTelegramMessage (Sample.photo_update "f1" 1048576 None))
    Cases.switched_off =
  ({| store := store Cases.switched_off;
      log := [Called DateISO; Called DateNow; Called (DbGet webhook_key)] |},
   inl (failure "webhook_disabled")) /\
  snd (run Sample.env (handleTelegramMessage (Sample.photo_update "f1" 1048576 None))
         Sample.one_arrival) =
  inl [("success", JBool false); ("reason", JStr "already_saved");
       ("existingFileId", JStr "photo_2024-01-02_1.jpg")].
Proof.
  split; [vm_compute; reflexivity|]. split; vm_compute; reflexivity.
Qed.

(** The batch-index put of a grouped photo is rejected: the result is
    [database_error], and the StoredFile written just before is in the
    store, which did not hold it before the event. *)
Lemma stored_file_survives_rejected_index_put :
  snd (run (Sample.env_db_fails_at 11)
         (handleTelegramMessage (Sample.photo_update "f1" 1048576 (Some "g1")))
         Sample.world) = inl (database_error "KV put failed") /\
  store_get (store Sample.world) "photo_2024-01-02_1.jpg" = None /\
  store_get
    (store (fst (run (Sample.env_db_fails_at 11)
                   (handleTelegramMessage (Sample.photo_update "f1" 1048576 (Some "g1")))
                   Sample.world)))
    "photo_2024-01-02_1.jpg" = Some (VText "") /\
  records_origin
    (store (fst (run (Sample.env_db_fails_at 11)
                   (handleTelegramMessage (Sample.photo_update "f1" 1048576 (Some "g1")))
                   Sample.world)))
    "photo_2024-01-02_1.jpg" "f1" = true.
Proof. vm_compute. repeat split; reflexivity. Qed.

Lemma rejected_primary_write_witness :
  snd (run (Sample.env_db_fails_at 9)
         (store_file (Sample.photo_message (Some "g1")) "42" Sample.photo_file)
         Sample.world) = inl (database_error "KV put failed").
Proof.
  assert (Hrun : run (Sample.env_db_fails_at 9)
                   (store_file (Sample.photo_message (Some "g1")) "42" Sample.photo_file)
                   Sample.world =
                 (fst (run (Sample.env_db_fails_at 9)
                         (store_file (Sample.photo_message (Some "g1")) "42"
                            Sample.photo_file) Sample.world),
                  snd (run (Sample.env_db_fails_at 9)
                         (store_file (Sample.photo_message (Some "g1")) "42"
                            Sample.photo_file) Sample.world)))
    by (vm_compute; reflexivity).
  assert (Hfail : failed_plain_put (Sample.env_db_fails_at 9) (length (log Sample.world))
                    (calls_since Sample.world
                       (fst (run (Sample.env_db_fails_at 9)
                               (store_file (Sample.photo_message (Some "g1")) "42"
                                  Sample.photo_file) Sample.world)))
                    (batch_index_key "g1" "photo_2024-01-02_1.jpg")
                    "photo_2024-01-02_1.jpg"
                    {| po_metadata := Some [("size", JStr "1.00")];
                       po_expirationTtl := Some 3600%N |}
                    "KV put failed").
  { exists 9%nat,
      (Called (DbPut (batch_index_key "g1" "photo_2024-01-02_1.jpg")
                 (VText "photo_2024-01-02_1.jpg")
                 {| po_metadata := Some [("size", JStr "1.00")];
                    po_expirationTtl := Some 3600%N |})).
    vm_compute. repeat split; reflexivity. }
  exact (proj1 (rejected_primary_write _ _ _ _ _ _ _ _ _ _ _ Hrun Hfail)).
Defined.

Lemma single_file_bypasses_coalescer_witness :
  exists fullId meta,
    omap send_of
      (calls_since Sample.world
         (fst (run Sample.env (store_file (Sample.photo_message None) "42" Sample.photo_file)
                 Sample.world))) = [("42", single_text fullId meta)] /\
    omap wait_of
      (calls_since Sample.world
         (fst (run Sample.env (store_file (Sample.photo_message None) "42" Sample.photo_file)
                 Sample.world))) = [].
Proof.
  assert (Hrun : exists r,
            run Sample.env (store_file (Sample.photo_message None) "42" Sample.photo_file)
              Sample.world =
            (fst (run Sample.env (store_file (Sample.photo_message None) "42"
                                    Sample.photo_file) Sample.world), inl r) /\
            get_field r "success" = JBool true).
  { eexists. split; [vm_compute; reflexivity|reflexivity]. }
  destruct Hrun as (r & Hrun & Hsuccess).
  destruct (single_file_bypasses_coalescer Sample.env (Sample.photo_message None) "42"
              Sample.photo_file Sample.world _ r Hrun Hsuccess eq_refl)
    as (fullId & meta & uploadDir & channel & _ & _ & Hsend & _ & _ & _ & _ & Hwait & _).
  exists fullId, meta. split; [exact Hsend|exact Hwait].
Defined.

(** The specification has no BatchState read during such an event. The
    deduplication scan reads the metadata of every stored key: while the
    BatchState of the group [g1] is in the store, a single photo that is
    stored successfully makes the handler call [getWithMetadata] on the
    BatchState key, and the call returns the BatchState. *)
Lemma single_file_scan_reads_batch_state :
  exists b r,
    fd_value (store_getWithMetadata (store Sample.first_arrival) (batch_key "g1")) =
      Some (VBatch b) /\
    media_group_id <$> message (Sample.photo_update "f3" 2048 None) = Some None /\
    snd (run Sample.env (handleTelegramMessage (Sample.photo_update "f3" 2048 None))
           Sample.first_arrival) = inl r /\
    get_field r "success" = JBool true /\
    batch_key "g1" ∈
      omap read_key
        (calls_since Sample.first_arrival
           (fst (run Sample.env (handleTelegramMessage (Sample.photo_update "f3" 2048 None))
                   Sample.first_arrival))).
Proof.
  eexists _, _. split; [vm_compute; reflexivity|]. split; [reflexivity|].
  split; [vm_compute; reflexivity|]. split; [reflexivity|].
  vm_compute. repeat first [apply list_elem_of_here | apply list_elem_of_further].
Qed.

Lemma batch_state_after_arrival_witness :
  exists b',
    store (fst (run Sample.env
                  (store_file (Sample.photo_message (Some "g1")) "42" Sample.second_file)
                  Sample.first_arrival)) !! batch_key "g1" =
      Some {| value := VBatch b'; metadata := None; expirationTtl := Some 60%N |} /\
    messageId b' = Some 14 /\
    firstFileId b' = Some "photo_2024-01-02_1.jpg".
Proof.
  assert (Hrun : exists r,
            run Sample.env
              (store_file (Sample.photo_message (Some "g1")) "42" Sample.second_file)
              Sample.first_arrival =
            (fst (run Sample.env
                    (store_file (Sample.photo_message (Some "g1")) "42" Sample.second_file)
                    Sample.first_arrival), inl r) /\
            get_field r "success" = JBool true /\
            get_field r "fileId" <> JStr (batch_key "g1")).
  { eexists. split; [vm_compute; reflexivity|]. split; [reflexivity|discriminate]. }
  destruct Hrun as (r & Hrun & Hsuccess & Hkey).
  destruct (batch_state_after_arrival Sample.env (Sample.photo_message (Some "g1")) "42"
              Sample.second_file Sample.first_arrival _ r "g1" Hrun Hsuccess eq_refl Hkey)
    as (b' & Hentry & _ & _ & Hprior & _).
  exists b'. split; [exact Hentry|].
  destruct (Hprior {| messageId := Some 14;
                      firstFileId := Some "photo_2024-01-02_1.jpg" |})
    as [Hmid Hfirst].
  - vm_compute. reflexivity.
  - split; [apply Hmid; reflexivity|apply Hfirst; reflexivity].
Defined.

(* ===================================================================== *)
(** * The metadata record                                                 *)
(* ===================================================================== *)

(** The fields of the metadata record written for a file. [FileType] is
    the constant ["image/jpeg"], whatever type was extracted. *)
Lemma build_metadata_fields (channel : Channel) (config : WebhookConfig)
    (file : FileInfo) (chatId fullId : string) (now : N) (group : option string) :
  let meta := build_metadata channel config file chatId fullId now group in
  get_field meta "TgFileId" = JStr (fileId file) /\
  get_field meta "TgChatId" = JStr chatId /\
  get_field meta "FileName" = JStr (fileName file) /\
  get_field meta "FileSize" = JStr (FileSize_of (fileSize file)) /\
  get_field meta "Directory" = JStr (actualDirectory_of fullId) /\
  get_field meta "MediaGroupId" =
    match group_of group with Some g => JStr g | None => JNull end /\
  get_field meta "FileType" = JStr "image/jpeg".
Proof.
  unfold build_metadata. destruct (truthy_opt_str (ch_proxyUrl channel));
    repeat split; reflexivity.
Qed.

(** C5 at a PNG document. The handler extracts the declared type
    ["image/png"] from the document, and the metadata record it writes
    under the allocated key says ["image/jpeg"]. *)
Theorem declared_type_is_not_recorded :
  snd (run Sample.env (extract_file Sample.png_message) Sample.world) =
    inl (Some {| fileId := "d1"; fileSize := Some 3000000%N;
                 fileName := "cat.png"; fileType := "image/png" |}) /\
  get_field
    (default [] (fd_metadata
       (store_getWithMetadata
          (store (fst (run Sample.env (handleTelegramMessage Sample.png_update)
                         Sample.world)))
          "cat.png")))
    "FileType" = JStr "image/jpeg" /\
  get_field
    (default [] (fd_metadata
       (store_getWithMetadata
          (store (fst (run Sample.env (handleTelegramMessage Sample.png_update)
                         Sample.world)))
          "cat.png")))
    "TgFileId" = JStr "d1".
Proof. vm_compute. repeat split; reflexivity. Qed.

Example actualDirectory_nested : actualDirectory_of "photos/2024/cat.png" = "photos/2024/".
Proof. reflexivity. Qed.

Example actualDirectory_root : actualDirectory_of "cat.png" = "".
Proof. reflexivity. Qed.

(** Two arrivals of one media group overlap: both read the BatchState
    before either writes it, so both find no handle and both send. The first
    writes handle 30 and its own key as [firstFileId]; the second then
    overwrites both. *)
Lemma handle_overwritten_when_arrivals_overlap :
  store_get
    (store (fst (sched Sample.env (Sample.both_read_first ++ [0; 0; 0]%nat)
                   Sample.together Sample.world)))
    (batch_key "g1") =
    Some (VBatch {| messageId := Some 30; firstFileId := Some "photo_2024-01-02_1.jpg" |}) /\
  store_get
    (store (fst (sched Sample.env (Sample.both_read_first ++ [0; 0; 0; 1; 1; 1]%nat)
                   Sample.together Sample.world)))
    (batch_key "g1") =
    Some (VBatch {| messageId := Some 33; firstFileId := Some "photo_2024-01-02_15.jpg" |}) /\
  count is_send
    (calls_since Sample.world
       (fst (sched Sample.env (Sample.both_read_first ++ [0; 0; 0; 1; 1; 1]%nat)
               Sample.together Sample.world))) = 2%nat /\
  Forall (fun p => exists r, p = Ret r /\ get_field r "success" = JBool true)
    (snd (sched Sample.env (Sample.both_read_first ++ [0; 0; 0; 1; 1; 1]%nat)
            Sample.together Sample.world)).
Proof.
  vm_compute. repeat split.
  repeat constructor; eexists; (split; [reflexivity|reflexivity]).
Qed.

(** A handle lives as long as its record. After a finalize task has
    deleted the BatchState, the next photo of the group finds none: it sends
    a new notification and starts a new record, with a new handle and its
    own key as [firstFileId]. *)
Example handle_renewed_after_finalize :
  store_get (store Sample.two_arrivals) (batch_key "g1") =
    Some (VBatch {| messageId := Some 14; firstFileId := Some "photo_2024-01-02_1.jpg" |}) /\
  store_get
    (store (invoke_all Sample.env [Finalizes (Sample.task "g1")] Sample.two_arrivals))
    (batch_key "g1") = None /\
  store_get
    (store (invoke_all Sample.env
              [Finalizes (Sample.task "g1");
               Handles (Sample.photo_update "f3" 4096 (Some "g1"))]
              Sample.two_arrivals))
    (batch_key "g1") =
    Some (VBatch {| messageId := Some 61; firstFileId := Some "photo_2024-01-02_44.jpg" |}).
Proof. vm_compute. repeat split; reflexivity. Qed.

(* ===================================================================== *)
(** * From the update to the file event                                   *)
(* ===================================================================== *)

(** A message without text is not a command. *)
Lemma handle_command_no_text (msg : Message) (chatId : string) :
  text msg = None -> handle_command msg chatId = Ret None.
Proof. intros H. unfold handle_command. by rewrite H. Qed.

(** For a message without text, the handler extracts the file and goes on
    with [store_file]: what is proved of [store_file] holds of the handler
    from the world the extraction leaves, which differs from the initial one
    by the reads of the clock. *)
Lemma handleTelegramMessage_file (env : Env) (update : Update) (msg : Message) (w : World) :
  message update = Some msg ->
  text msg = None ->
  run env (handleTelegramMessage update) w =
  match run env (extract_file msg) w with
  | (w1, inl (Some file)) => run env (store_file msg (pretty (chat_id msg)) file) w1
  | (w1, inl None) => (w1, inl (failure "not_image"))
  | (w1, inr e) => (w1, inr e)
  end.
Proof.
  intros Hmsg Htext. unfold handleTelegramMessage. rewrite Hmsg.
  rewrite handle_command_no_text by done. cbn [bind].
  rewrite run_bind. destruct (run env (extract_file msg) w) as [w1 [[file|]|e]]; reflexivity.
Qed.

(** The directory set by [/dir] is the folder of the allocated key, and the
    [Directory] field is recomputed from that key. *)
Example directory_follows_command :
  snd (run Sample.env (handleTelegramMessage (Sample.text_update "/DIR  photos/2024 "))
         Sample.world) = inl [("success", JBool true); ("reason", JStr "command_handled")] /\
  exists meta,
    snd (run Sample.env (handleTelegramMessage (Sample.photo_update "f1" 1048576 None))
           (Sample.after Sample.env [Sample.text_update "/DIR  photos/2024 "] Sample.world)) =
      inl (success_result "photos/2024/photo_2024-01-02_5.jpg" meta None) /\
    get_field meta "Directory" = JStr "photos/2024/".
Proof. split; [vm_compute; reflexivity|]. eexists. split; vm_compute; reflexivity. Qed.

(* ===================================================================== *)
(** * Updates the handler ignores                                         *)
(* ===================================================================== *)

Lemma handle_command_not_dir (msg : Message) (chatId : string) :
  is_dir_command msg = false -> handle_command msg chatId = Ret None.
Proof.
  unfold is_dir_command, handle_command. destruct (text msg) as [txt|]; [|done].
  destruct (truthy_str txt && startsWith txt "/")%bool; [|done].
  cbn [andb]. by intros ->.
Qed.

Lemma extract_file_none (msg : Message) :
  carries_image msg = false -> extract_file msg = Ret None.
Proof.
  unfold carries_image, extract_file. destruct (photo msg); [done|].
  destruct (document msg) as [doc|]; [|done].
  destruct (doc_mime_type doc) as [mime|]; [|done]. by intros ->.
Qed.

(** X1. An update without a message, or whose message is neither a [/dir]
    command nor carries a photo or an image document, is answered with
    [no_message] or [not_image] without a single call: the store is not
    read, nothing is sent, and the history of calls is as it was. *)
Theorem ignored_update_issues_no_call (env : Env) (update : Update) (w : World) :
  (forall msg, message update = Some msg ->
               is_dir_command msg = false /\ carries_image msg = false) ->
  run env (handleTelegramMessage update) w =
  (w, inl (failure (match message update with
                    | Some _ => "not_image"
                    | None => "no_message"
                    end))).
Proof.
  intros H. unfold handleTelegramMessage. destruct (message update) as [msg|]; [|done].
  destruct (H msg eq_refl) as [Hcmd Himg].
  by rewrite (handle_command_not_dir _ _ Hcmd), (extract_file_none _ Himg).
Qed.

Lemma ignored_update_issues_no_call_witness :
  run Sample.env (handleTelegramMessage (Sample.text_update "hello")) Sample.world =
  (Sample.world, inl (failure "not_image")).
Proof.
  apply (ignored_update_issues_no_call Sample.env (Sample.text_update "hello") Sample.world).
  intros msg Hmsg. vm_compute in Hmsg. inversion Hmsg. subst msg.
  split; vm_compute; reflexivity.
Defined.

(* ===================================================================== *)
(** * The webhook gate and the failures without effect                    *)
(* ===================================================================== *)

(** What a program of quiet calls does to the world. *)
Lemma quiet_run (env : Env) {A : Type} (p : Prog A) (w w' : World) (out : result A) :
  all_ops (fun c => quiet c = true) p ->
  run env p w = (w', out) ->
  store w' = store w /\ exists d, extends w w' d /\ Forall (fun c => quiet c = true) d.
Proof.
  intros Hp Hrun. split; [by eapply quiet_store|]. by eapply all_ops_trace.
Qed.

Lemma JSON_parse_webhook_run (env : Env) (v : option Value) (w w' : World)
    (out : result WebhookConfig) :
  run env (JSON_parse_webhook v) w = (w', out) ->
  w' = w /\ forall c, out = inl c -> v = Some (VWebhook c).
Proof.
  unfold JSON_parse_webhook. repeat case_match; cbn [run]; intros; simplify_eq;
    (split; [done|]); intros; by simplify_eq.
Qed.

(** The steps before the write under a closed webhook. *)
Lemma prepare_closed (env : Env) (chatId : string) (file : FileInfo) (w w' : World)
    (out : result (object + Prepared)) :
  webhook_open (store w) = false ->
  run env (prepare chatId file) w = (w', out) ->
  w' = {| store := store w; log := log w ++ [Called (DbGet webhook_key)] |} /\
  (forall p, out = inl p ->
     p = inl (failure (if truthy_value (store_get (store w) webhook_key)
                       then "webhook_disabled" else "webhook_not_configured"))) /\
  (db_fails env (length (log w)) = None ->
   (store_get (store w) webhook_key = None \/
    exists c, store_get (store w) webhook_key = Some (VWebhook c)) ->
   exists r, out = inl (inl r)).
Proof.
  intros Hclosed Hrun. unfold prepare in Hrun.
  rewrite run_bind, run_call in Hrun. unfold exec at 1, db_call in Hrun.
  case_db Hrun.
  { simplify_eq. norm_world. by repeat split. }
  norm_world_in Hrun. unfold webhook_open in Hclosed.
  destruct (store_get (store w) webhook_key) as [[s|c|u|b]|] eqn:Hget;
    cbn [truthy_value] in Hrun |- *; try discriminate Hclosed.
  - destruct (truthy_str s); cbn in Hrun; simplify_eq;
      (repeat split; [by intros; simplify_eq|]);
      intros _ [?|[? ?]]; simplify_eq.
  - cbn [negb JSON_parse_webhook run] in Hrun. rewrite run_bind in Hrun.
    cbn [run] in Hrun.
    destruct (enabled c && truthy_str (targetChannel c))%bool eqn:Hopen;
      [discriminate Hclosed|].
    apply andb_false_iff in Hopen.
    assert ((negb (enabled c) || negb (truthy_str (targetChannel c)))%bool = true) as Hneg.
    { destruct Hopen as [->| ->]; [done|]. apply orb_true_r. }
    rewrite Hneg in Hrun. cbn [run] in Hrun. simplify_eq.
    repeat split; [by intros; simplify_eq|eauto].
  - cbn in Hrun. simplify_eq.
    repeat split; [by intros; simplify_eq|]. intros _ [?|[? ?]]; simplify_eq.
  - cbn in Hrun. simplify_eq.
    repeat split; [by intros; simplify_eq|]. intros _ [?|[? ?]]; simplify_eq.
  - cbn in Hrun. simplify_eq.
    repeat split; [by intros; simplify_eq|eauto].
Qed.

(** X2. While no webhook configuration is stored, or the stored one is
    disabled or names no target channel, a file event stops at the read of
    the configuration, whatever the collaborators answer: that read is the
    only call, so nothing is listed, allocated, written or sent, and the
    store is as it was. A result, if there is one, is
    [webhook_not_configured] for a missing (or empty) configuration and
    [webhook_disabled] otherwise; and there is one when the read succeeds
    and finds nothing or a configuration document. *)
Theorem closed_webhook_stops_at_configuration (env : Env) (msg : Message)
    (chatId : string) (file : FileInfo) (w w' : World) (out : result object) :
  webhook_open (store w) = false ->
  run env (store_file msg chatId file) w = (w', out) ->
  calls_since w w' = [Called (DbGet webhook_key)] /\
  store w' = store w /\
  (forall r, out = inl r ->
     r = failure (if truthy_value (store_get (store w) webhook_key)
                  then "webhook_disabled" else "webhook_not_configured")) /\
  (db_fails env (length (log w)) = None ->
   (store_get (store w) webhook_key = None \/
    exists c, store_get (store w) webhook_key = Some (VWebhook c)) ->
   exists r, out = inl r).
Proof.
  intros Hclosed Hrun. unfold store_file in Hrun. rewrite run_bind in Hrun.
  destruct (run env (prepare chatId file) w) as [w1 [p|e]] eqn:Hprep;
    destruct (prepare_closed env chatId file w w1 _ Hclosed Hprep) as (-> & Hres & Hsome).
  - rewrite (Hres p eq_refl) in Hrun. cbn [run] in Hrun. simplify_eq.
    rewrite calls_since_mk. repeat split; [by intros; simplify_eq|eauto].
  - simplify_eq. rewrite calls_since_mk. repeat split; [by intros; simplify_eq|].
    intros Hdb Hdoc. by destruct (Hsome Hdb Hdoc).
Qed.

Lemma closed_webhook_stops_at_configuration_witness :
  let res := run Sample.env
               (store_file (Sample.photo_message None) "42" Sample.photo_file)
               Cases.disabled_world in
  calls_since Cases.disabled_world (fst res) = [Called (DbGet webhook_key)] /\
  store (fst res) = Cases.disabled /\
  snd res = inl (failure "webhook_disabled").
Proof.
  intros res.
  destruct (closed_webhook_stops_at_configuration Sample.env (Sample.photo_message None)
              "42" Sample.photo_file Cases.disabled_world (fst res) (snd res))
    as (Hcalls & Hstore & _ & _).
  - vm_compute. reflexivity.
  - apply surjective_pairing.
  - split; [exact Hcalls|]. split; [exact Hstore|]. vm_compute. reflexivity.
Defined.

Lemma primary_write_error (fullId : string) (meta : object) (g : option string) :
  all_rets (fun o => forall r, o = Some r -> exists e, r = database_error e)
    (primary_write fullId meta g).
Proof. unfold primary_write. repeat all_rets_step; intros; simplify_eq; eauto. Qed.

(** Once the storage key is allocated, the handler returns a success or
    [database_error]. *)
Lemma write_and_reply_outcomes msg chatId file config channel uploadDir fullId :
  all_rets (fun r => get_field r "success" = JBool true \/
                     get_field r "reason" = JStr "database_error")
    (write_and_reply msg chatId file config channel uploadDir fullId).
Proof.
  unfold write_and_reply.
  apply all_rets_bind, all_rets_call. intros now.
  apply all_rets_bind.
  eapply all_rets_mono; [|apply primary_write_error].
  intros [r|] Hr; cbv beta iota.
  - constructor. right. by destruct (Hr r eq_refl) as [e ->].
  - unfold index_and_reply.
    apply all_rets_bind. all_rets_skip.
    apply all_rets_bind. all_rets_skip.
    constructor. by left.
Qed.

(** A [/dir] command never falls through to the file handling. *)
Lemma handle_command_dir_results (msg : Message) (chatId : string) :
  is_dir_command msg = true ->
  all_rets (fun o => o <> None) (handle_command msg chatId).
Proof.
  unfold is_dir_command, handle_command. destruct (text msg) as [txt|]; [|done].
  destruct (truthy_str txt && startsWith txt "/")%bool; [|done].
  cbn [andb]. intros ->.
  repeat first
    [ all_rets_step
    | lazymatch goal with
      | |- all_rets _ (getTelegramChannel _) => all_rets_skip
      | |- all_rets _ (JSON_parse_webhook _) => all_rets_skip
      | |- all_rets _ (text_or _ _) => all_rets_skip
      end ]; done.
Qed.

(** The two failures of the command branch come before its write and its
    reply. *)
Lemma handle_command_failure_quiet (env : Env) (msg : Message) (chatId : string)
    (w w' : World) (r : object) :
  run env (handle_command msg chatId) w = (w', inl (Some r)) ->
  get_field r "success" = JBool false ->
  store w' = store w /\ exists d, extends w w' d /\ Forall (fun c => quiet c = true) d.
Proof.
  intros Hrun Hfail. unfold handle_command in Hrun.
  destruct (text msg) as [txt|]; [|discriminate].
  destruct (truthy_str txt && startsWith txt "/")%bool; [|discriminate].
  cbv zeta in Hrun.
  destruct (String.eqb _ "/dir"); [|discriminate].
  rewrite run_bind, run_call in Hrun. unfold exec at 1, db_call in Hrun.
  case_db Hrun; [discriminate|]. norm_world_in Hrun.
  destruct (negb (truthy_value _)).
  { cbn [run] in Hrun. simplify_eq. split; [done|].
    exists [Called (DbGet webhook_key)]. split; [done|]. by repeat constructor. }
  rewrite run_bind in Hrun.
  destruct (run env (JSON_parse_webhook _) _) as [w0 [cfg|e]] eqn:Hparse; [|discriminate].
  apply JSON_parse_webhook_run in Hparse as [-> _].
  rewrite run_bind in Hrun.
  destruct (run env (getTelegramChannel _) _) as [w2 [[ch|]|e]] eqn:Hch; [| |discriminate].
  - rewrite run_bind in Hrun.
    match type of Hrun with
    | context [run env ?p w2] => destruct (run env p w2) as [w3 [[]|e]]
    end; cbn [run] in Hrun; by simplify_eq.
  - cbn [run] in Hrun. simplify_eq.
    apply (quiet_run env _ _ _ _ (getTelegramChannel_quiet _)) in Hch
      as (Hstore & d & Hext & Hd).
    split; [exact Hstore|]. exists ([Called (DbGet webhook_key)] ++ d). split.
    + eapply extends_trans; [|exact Hext]. done.
    + by constructor.
Qed.

Lemma extract_file_quiet (msg : Message) :
  all_ops (fun c => quiet c = true) (extract_file msg).
Proof. unfold extract_file. repeat all_ops_step; done. Qed.

(** X3. Whatever the collaborators answer, a result of the handler that
    reports a failure other than [database_error] has come without any
    effect: the store is as it was before the update, and every call that
    was issued only read (the store, the clock) or allocated, so nothing
    was written, deleted, sent, edited or scheduled. *)
Theorem failure_leaves_no_trace (env : Env) (update : Update) (w w' : World) (r : object) :
  run env (handleTelegramMessage update) w = (w', inl r) ->
  get_field r "success" = JBool false ->
  get_field r "reason" <> JStr "database_error" ->
  store w' = store w /\ Forall (fun c => quiet c = true) (calls_since w w').
Proof.
  intros Hrun Hfail Hreason.
  cut (store w' = store w /\
       exists d, extends w w' d /\ Forall (fun c => quiet c = true) d).
  { intros (Hs & d & Hd & Hq). split; [exact Hs|].
    by rewrite (calls_since_extends _ _ _ Hd). }
  unfold handleTelegramMessage in Hrun.
  destruct (message update) as [msg|].
  2:{ cbn [run] in Hrun. simplify_eq. split; [done|]. exists []. split;
        [apply extends_refl|constructor]. }
  cbv zeta in Hrun. rewrite run_bind in Hrun.
  destruct (run env (handle_command msg _) w) as [w1 [[r1|]|e]] eqn:Hcmd; [| |discriminate].
  { cbn [run] in Hrun. simplify_eq. by eapply handle_command_failure_quiet. }
  assert (w1 = w) as ->.
  { destruct (is_dir_command msg) eqn:Hdir.
    - by pose proof (all_rets_run env _ _ (handle_command_dir_results msg _ Hdir) _ _ _ Hcmd).
    - rewrite (handle_command_not_dir _ _ Hdir) in Hcmd. cbn [run] in Hcmd. by simplify_eq. }
  clear Hcmd. rewrite run_bind in Hrun.
  destruct (run env (extract_file msg) w) as [w2 [[file|]|e]] eqn:Hfile; [| |discriminate].
  2:{ cbn [run] in Hrun. simplify_eq. by eapply quiet_run, Hfile; apply extract_file_quiet. }
  apply (quiet_run env _ _ _ _ (extract_file_quiet msg)) in Hfile as (Hs2 & d2 & Hd2 & Hq2).
  unfold store_file in Hrun. rewrite run_bind in Hrun.
  destruct (run env (prepare _ file) w2)
    as [w3 [[r3|[[[config channel] uploadDir] fullId]]|e]] eqn:Hprep; [| |discriminate].
  - cbn [run] in Hrun. simplify_eq.
    apply (quiet_run env _ _ _ _ (prepare_quiet _ file)) in Hprep as (Hs3 & d3 & Hd3 & Hq3).
    split; [congruence|]. exists (d2 ++ d3). split; [by eapply extends_trans|].
    by apply Forall_app.
  - pose proof (all_rets_run env _ _
        (write_and_reply_outcomes msg _ file config channel uploadDir fullId) _ _ _ Hrun)
      as [Hok|Herr]; congruence.
Qed.

Lemma failure_leaves_no_trace_witness :
  let res := run Sample.env (handleTelegramMessage (Sample.photo_update "f1" 1048576 None))
               Sample.one_arrival in
  store (fst res) = store Sample.one_arrival /\
  Forall (fun c => quiet c = true) (calls_since Sample.one_arrival (fst res)).
Proof.
  intros res.
  assert (Hout : snd res = inl [("success", JBool false); ("reason", JStr "already_saved");
                                ("existingFileId", JStr "photo_2024-01-02_1.jpg")])
    by (vm_compute; reflexivity).
  apply (failure_leaves_no_trace Sample.env (Sample.photo_update "f1" 1048576 None)
           Sample.one_arrival (fst res)
           [("success", JBool false); ("reason", JStr "already_saved");
            ("existingFileId", JStr "photo_2024-01-02_1.jpg")]).
  - transitivity (fst res, snd res); [apply surjective_pairing|].
    f_equal; try exact Hout.
  - reflexivity.
  - discriminate.
Defined.

(* ===================================================================== *)
(** * The channel lookup                                                  *)
(* ===================================================================== *)

(** [getTelegramChannel] is one read of the upload configuration. *)
Lemma getTelegramChannel_run (env : Env) (channelName : string) (w w' : World)
    (out : result (option Channel)) :
  run env (getTelegramChannel channelName) w = (w', out) ->
  w' = {| store := store w; log := log w ++ [Called (DbGet upload_key)] |} /\
  (forall o, out = inl o -> o = channel_in (store w) channelName).
Proof.
  unfold getTelegramChannel, channel_in. intros Hrun.
  rewrite run_bind, run_call in Hrun. unfold exec at 1, db_call in Hrun.
  case_db Hrun; [by simplify_eq|]. norm_world_in Hrun.
  destruct (store_get (store w) upload_key) as [[s|c|u|b]|];
    cbn [truthy_value] in Hrun; try destruct (truthy_str s);
    cbn in Hrun |- *; simplify_eq; (split; [done|]); intros; by simplify_eq.
Qed.

(** When the read succeeds and finds nothing or an upload configuration,
    the lookup returns. *)
Lemma getTelegramChannel_found (env : Env) (channelName : string) (w : World)
    (channel : Channel) :
  db_fails env (length (log w)) = None ->
  channel_in (store w) channelName = Some channel ->
  run env (getTelegramChannel channelName) w =
  ({| store := store w; log := log w ++ [Called (DbGet upload_key)] |}, inl (Some channel)).
Proof.
  unfold getTelegramChannel, channel_in. intros Hdb Hch.
  rewrite run_bind, run_call. unfold exec at 1, db_call. rewrite Hdb. norm_world.
  destruct (store_get (store w) upload_key) as [[s|c|u|b]|]; try discriminate Hch.
  cbn. by rewrite Hch.
Qed.

Lemma find_first {A : Type} (f : A -> bool) (l : list A) (x : A) :
  List.find f l = Some x ->
  f x = true /\
  exists before after, l = before ++ x :: after /\ forall y, y ∈ before -> f y = false.
Proof.
  induction l as [|a l IH]; [discriminate|]. cbn [List.find].
  destruct (f a) eqn:Ha.
  - intros [= ->]. split; [done|]. exists [], l. split; [done|].
    intros y Hy. by apply elem_of_nil in Hy.
  - intros Hfind. destruct (IH Hfind) as (Hx & before & after & -> & Hbefore).
    split; [done|]. exists (a :: before), after. split; [done|].
    intros y Hy. apply elem_of_cons in Hy as [->|Hy]; auto.
Qed.

(** X4. The channel [getTelegramChannel] returns is the first entry of
    [telegram.channels] in the stored upload configuration whose name is
    the requested one: it has that name, and no entry before it has. The
    lookup is a single read and leaves the store as it was. *)
Theorem getTelegramChannel_returns_first_match (env : Env) (channelName : string)
    (w w' : World) (channel : Channel) :
  run env (getTelegramChannel channelName) w = (w', inl (Some channel)) ->
  ch_name channel = channelName /\
  calls_since w w' = [Called (DbGet upload_key)] /\
  store w' = store w /\
  exists u before after,
    store_get (store w) upload_key = Some (VUpload u) /\
    telegram_channels u = Some (before ++ channel :: after) /\
    forall c, c ∈ before -> ch_name c <> channelName.
Proof.
  intros Hrun. apply getTelegramChannel_run in Hrun as [-> Hout].
  specialize (Hout _ eq_refl). symmetry in Hout. unfold channel_in in Hout.
  destruct (store_get (store w) upload_key) as [[s|c|u|b]|] eqn:Hget; try discriminate.
  apply find_first in Hout as (Hname & before & after & Hl & Hbefore).
  apply String.eqb_eq in Hname.
  split; [exact Hname|]. rewrite calls_since_mk. split; [done|]. split; [done|].
  exists u, before, after. split; [done|]. split.
  - destruct (telegram_channels u) as [l|]; simpl in Hl; [by subst|].
    by destruct before.
  - intros c Hc Heq. specialize (Hbefore c Hc). apply String.eqb_neq in Hbefore. done.
Qed.

Lemma getTelegramChannel_returns_first_match_witness :
  exists w' channel,
    run Sample.env (getTelegramChannel "main") Cases.twins_world = (w', inl (Some channel)) /\
    ch_botToken channel = "T1" /\
    ch_name channel = "main" /\
    calls_since Cases.twins_world w' = [Called (DbGet upload_key)].
Proof.
  assert (Hrun : exists w' channel,
             run Sample.env (getTelegramChannel "main") Cases.twins_world =
               (w', inl (Some channel)) /\ ch_botToken channel = "T1").
  { eexists _, _. split; vm_compute; reflexivity. }
  destruct Hrun as (w' & channel & Hrun & Htoken).
  exists w', channel. split; [exact Hrun|]. split; [exact Htoken|].
  destruct (getTelegramChannel_returns_first_match Sample.env "main"
              Cases.twins_world w' channel Hrun) as (Hname & Hcalls & _).
  split; [exact Hname|exact Hcalls].
Defined.

(* ===================================================================== *)
(** * The [/dir] command                                                  *)
(* ===================================================================== *)

Lemma dir_command_unfold (msg : Message) :
  is_dir_command msg = true ->
  exists txt, text msg = Some txt /\
    (truthy_str txt && startsWith txt "/")%bool = true /\
    String.eqb (toLowerCase (hd "" (split_ws (trim txt)))) "/dir" = true /\
    command_parts msg = split_ws (trim txt).
Proof.
  unfold is_dir_command, command_parts. destruct (text msg) as [txt|]; [|discriminate].
  intros H. apply andb_true_iff in H as [H1 H2]. by exists txt.
Qed.

(** X5. The [/dir] command with a directory name. Let a configuration be
    stored (enabled or not: the command branch does not test [enabled]),
    let its target channel be found, and let the store calls succeed. Then
    the handler reads the two configurations, writes the name (the words
    after the command joined by single spaces) under the key of the chat
    and sends the confirmation; these are its only calls. The reply is not
    guarded: when [sendMessage] throws the handler throws, and the
    directory has been written nonetheless. Afterwards the upload directory
    of the chat is the name. *)
Theorem dir_command_sets_directory (env : Env) (update : Update) (msg : Message)
    (w : World) (config : WebhookConfig) (channel : Channel) :
  message update = Some msg ->
  is_dir_command msg = true ->
  (2 <= length (command_parts msg))%nat ->
  store_get (store w) webhook_key = Some (VWebhook config) ->
  channel_in (store w) (targetChannel config) = Some channel ->
  (forall n, db_fails env n = None) ->
  let chatId := pretty (chat_id msg) in
  let dirName := trim (join " " (tl (command_parts msg))) in
  let stored := store_put (store w) (dir_key chatId) (VText dirName) no_opts in
  run env (handleTelegramMessage update) w =
  ({| store := stored;
      log := log w ++
             [Called (DbGet webhook_key); Called (DbGet upload_key);
              Called (DbPut (dir_key chatId) (VText dirName) no_opts);
              Called (SendMessage (new_TelegramAPI channel) chatId
                        ("✅ 上传目录已设置为: " +:+ dirName))] |},
   match api_reply env (length (log w) + 3) with
   | inl _ => inl [("success", JBool true); ("reason", JStr "command_handled")]
   | inr e => inr e
   end) /\
  upload_dir stored chatId = dirName.
Proof.
  intros Hmsg Hdir Hlen Hcfg Hch Hdb chatId dirName stored.
  split.
  2:{ unfold upload_dir, stored, store_get, store_put. by rewrite lookup_insert_eq. }
  destruct (dir_command_unfold msg Hdir) as (txt & Htxt & Hslash & Hcmd & Hparts).
  unfold handleTelegramMessage. rewrite Hmsg. cbv zeta. fold chatId.
  unfold handle_command. rewrite Htxt, Hslash. cbv zeta. rewrite Hcmd, <- Hparts.
  apply Nat.ltb_ge in Hlen. rewrite Hlen.
  rewrite !run_bind, run_call. unfold exec at 1, db_call. rewrite Hdb. norm_world.
  rewrite Hcfg. cbn [truthy_value negb JSON_parse_webhook bind].
  rewrite !run_bind.
  rewrite (getTelegramChannel_found env _ _ channel) by done.
  cbn [store log]. norm_world.
  rewrite !run_bind, run_call. unfold exec at 1, db_call. rewrite Hdb. norm_world.
  rewrite run_bind, run_call. cbn [exec]. norm_world.
  rewrite length_app. cbn [length]. fold dirName. fold stored.
  destruct (api_reply env _) as [resp|e]; reflexivity.
Qed.

Lemma dir_command_sets_directory_witness :
  exists w' out,
    run Sample.env (handleTelegramMessage {| message := Some Cases.dir_set |})
      Cases.disabled_world = (w', out) /\
    upload_dir (store w') "42" = "photos/2024" /\
    out = inl [("success", JBool true); ("reason", JStr "command_handled")].
Proof.
  destruct (dir_command_sets_directory Sample.env {| message := Some Cases.dir_set |}
              Cases.dir_set Cases.disabled_world
              {| enabled := false; secretToken := "secret"; targetChannel := "main" |}
              Sample.channel) as [Hrun Hdir].
  - reflexivity.
  - vm_compute. reflexivity.
  - vm_compute. lia.
  - vm_compute. reflexivity.
  - vm_compute. reflexivity.
  - intros n. reflexivity.
  - eexists _, _. split; [exact Hrun|]. split; vm_compute; reflexivity.
Defined.

(** The words of a command are separated by the white space of Unicode:
    the handler writes the name with a single space between its words, and
    a command followed by white space only is the query. *)
Example dir_command_unicode_space :
  is_dir_command Cases.dir_set_wide = true /\
  command_parts Cases.dir_set_wide = ["/dir"; "a"; "b"] /\
  upload_dir
    (store (fst (run Sample.env (handleTelegramMessage {| message := Some Cases.dir_set_wide |})
                   Sample.world))) "42" = "a b" /\
  is_dir_command Cases.dir_query_wide = true /\
  command_parts Cases.dir_query_wide = ["/dir"] /\
  count is_put
    (log (fst (run Sample.env (handleTelegramMessage {| message := Some Cases.dir_query_wide |})
                 Sample.world))) = 0%nat.
Proof. vm_compute. repeat split; reflexivity. Qed.

(** X6. The [/dir] command without a name. Under the same conditions, and
    with nothing or a plain string stored for the chat, the handler reads
    the two configurations and the directory of the chat and sends it, or
    ["/"] when none is set; it writes nothing. *)
Theorem dir_command_reports_directory (env : Env) (update : Update) (msg : Message)
    (w : World) (config : WebhookConfig) (channel : Channel) :
  message update = Some msg ->
  is_dir_command msg = true ->
  (length (command_parts msg) < 2)%nat ->
  store_get (store w) webhook_key = Some (VWebhook config) ->
  channel_in (store w) (targetChannel config) = Some channel ->
  (store_get (store w) (dir_key (pretty (chat_id msg))) = None \/
   exists d, store_get (store w) (dir_key (pretty (chat_id msg))) = Some (VText d)) ->
  (forall n, db_fails env n = None) ->
  let chatId := pretty (chat_id msg) in
  let currentDir := str_or (upload_dir (store w) chatId) "/" in
  run env (handleTelegramMessage update) w =
  ({| store := store w;
      log := log w ++
             [Called (DbGet webhook_key); Called (DbGet upload_key);
              Called (DbGet (dir_key chatId));
              Called (SendMessage (new_TelegramAPI channel) chatId
                        ("📁 当前上传目录: " +:+ currentDir +:+ nl +:+ nl +:+
                         "使用方法: /dir 目录名"))] |},
   match api_reply env (length (log w) + 3) with
   | inl _ => inl [("success", JBool true); ("reason", JStr "command_handled")]
   | inr e => inr e
   end).
Proof.
  intros Hmsg Hdir Hlen Hcfg Hch Hplain Hdb chatId currentDir.
  destruct (dir_command_unfold msg Hdir) as (txt & Htxt & Hslash & Hcmd & Hparts).
  unfold handleTelegramMessage. rewrite Hmsg. cbv zeta. fold chatId.
  unfold handle_command. rewrite Htxt, Hslash. cbv zeta. rewrite Hcmd, <- Hparts.
  apply Nat.ltb_lt in Hlen. rewrite Hlen.
  rewrite !run_bind, run_call. unfold exec at 1, db_call. rewrite Hdb. norm_world.
  rewrite Hcfg. cbn [truthy_value negb JSON_parse_webhook bind].
  rewrite !run_bind.
  rewrite (getTelegramChannel_found env _ _ channel) by done.
  cbn [store log]. norm_world.
  rewrite !run_bind, run_call. unfold exec at 1, db_call. rewrite Hdb. norm_world.
  assert (Htext : text_or (store_get (store w) (dir_key chatId)) "/" = Ret currentDir).
  { unfold currentDir, upload_dir, text_or, str_or. fold chatId in Hplain.
    destruct Hplain as [->|[d ->]]; [done|]. cbn [truthy_value].
    by destruct (truthy_str d). }
  rewrite Htext. cbn [bind].
  rewrite run_bind, run_call. cbn [exec]. norm_world.
  rewrite length_app. cbn [length].
  destruct (api_reply env _) as [resp|e]; reflexivity.
Qed.

Lemma dir_command_reports_directory_witness :
  exists w' out,
    run Sample.env (handleTelegramMessage {| message := Some Cases.dir_query |})
      Sample.world = (w', out) /\
    store w' = Sample.configured /\
    omap send_of (log w') =
      [("42", "📁 当前上传目录: /" +:+ nl +:+ nl +:+ "使用方法: /dir 目录名")].
Proof.
  pose proof (dir_command_reports_directory Sample.env {| message := Some Cases.dir_query |}
                Cases.dir_query Sample.world Sample.webhook Sample.channel) as Hrun.
  eexists _, _. split.
  - apply Hrun.
    + reflexivity.
    + vm_compute. reflexivity.
    + vm_compute. lia.
    + vm_compute. reflexivity.
    + vm_compute. reflexivity.
    + left. vm_compute. reflexivity.
    + intros n. reflexivity.
  - split; vm_compute; reflexivity.
Defined.

(** A program whose only store writes are puts under [k] leaves the other
    keys as they were. *)
Lemma writes_only_under (env : Env) {A : Type} (p : Prog A) (k : string) :
  all_ops (fun c => is_store_write c = false \/ put_key c = Some k) p ->
  forall w w' out, run env p w = (w', out) ->
  forall k', k' <> k -> store w' !! k' = store w !! k'.
Proof.
  induction 1 as [a|e|X op f Hop _ IH]; intros w w' out Hrun k' Hk'; simpl in Hrun.
  - by simplify_eq.
  - by simplify_eq.
  - destruct (exec env op w) as [w1 r] eqn:E.
    rewrite (IH r w1 w' out Hrun k' Hk'). destruct Hop as [Hop|Hop].
    + by rewrite (exec_store env _ _ _ _ E Hop).
    + destruct op; try discriminate Hop. cbn in Hop. simplify_eq.
      unfold exec, db_call in E. destruct (db_fails env _); simplify_eq; [done|].
      cbn [store with_store]. unfold store_put. by rewrite lookup_insert_ne.
Qed.

Lemma quiet_no_write (c : Call) : quiet c = true -> is_store_write c = false.
Proof.
  unfold quiet. intros H. apply negb_true_iff in H.
  by do 3 (apply orb_false_iff in H as [H _]).
Qed.

Lemma handle_command_writes (msg : Message) (chatId : string) :
  all_ops (fun c => is_store_write c = false \/ put_key c = Some (dir_key chatId))
    (handle_command msg chatId).
Proof.
  unfold handle_command, JSON_parse_webhook, text_or.
  repeat first
    [ lazymatch goal with
      | |- all_ops _ (getTelegramChannel _) =>
          eapply all_ops_mono; [|apply getTelegramChannel_quiet];
          intros c Hc; left; by apply quiet_no_write
      end
    | all_ops_step ]; auto.
Qed.

Lemma dir_key_inj (a b : Z) : dir_key (pretty a) = dir_key (pretty b) -> a = b.
Proof.
  unfold dir_key. intros H.
  apply (inj (String.app "telegram_upload_dir_")) in H. by apply (inj pretty) in H.
Qed.

(** X7. A [/dir] command concerns its own chat only: whatever the
    collaborators answer, and whether it returns or throws, every key of
    the store other than the directory key of the chat it came from is as
    it was; in particular the upload directory of every other chat is
    unchanged, the keys of distinct chats being distinct. *)
Theorem dir_command_touches_one_chat (env : Env) (update : Update) (msg : Message)
    (w w' : World) (out : result object) :
  message update = Some msg ->
  is_dir_command msg = true ->
  run env (handleTelegramMessage update) w = (w', out) ->
  (forall k, k <> dir_key (pretty (chat_id msg)) -> store w' !! k = store w !! k) /\
  (forall other : Z, other <> chat_id msg ->
     upload_dir (store w') (pretty other) = upload_dir (store w) (pretty other)).
Proof.
  intros Hmsg Hdir Hrun.
  assert (Hkeys : forall k, k <> dir_key (pretty (chat_id msg)) ->
                            store w' !! k = store w !! k).
  { unfold handleTelegramMessage in Hrun. rewrite Hmsg in Hrun. cbv zeta in Hrun.
    rewrite run_bind in Hrun.
    destruct (run env (handle_command msg _) w) as [w1 [[r1|]|e]] eqn:Hcmd.
    - cbn [run] in Hrun. simplify_eq.
      exact (writes_only_under env _ _ (handle_command_writes msg _) _ _ _ Hcmd).
    - by pose proof (all_rets_run env _ _ (handle_command_dir_results msg _ Hdir) _ _ _ Hcmd).
    - simplify_eq.
      exact (writes_only_under env _ _ (handle_command_writes msg _) _ _ _ Hcmd). }
  split; [exact Hkeys|]. intros other Hother.
  unfold upload_dir, store_get. rewrite Hkeys; [done|].
  intros Heq. by apply dir_key_inj in Heq.
Qed.

Lemma dir_command_touches_one_chat_witness :
  let res := run Sample.env (handleTelegramMessage {| message := Some Cases.dir_set |})
               Sample.world in
  (forall k, k <> dir_key "42" -> store (fst res) !! k = Sample.configured !! k) /\
  (forall other : Z, other <> 42 ->
     upload_dir (store (fst res)) (pretty other) = upload_dir Sample.configured (pretty other)).
Proof.
  intros res.
  apply (dir_command_touches_one_chat Sample.env {| message := Some Cases.dir_set |}
           Cases.dir_set Sample.world (fst res) (snd res)).
  - reflexivity.
  - vm_compute. reflexivity.
  - apply surjective_pairing.
Defined.

(* ===================================================================== *)
(** * What a stored file records of the configuration                     *)
(* ===================================================================== *)

(** The steps before the write, when they get to the allocation: what they
    hand on is read from the store as it was. *)
Lemma prepare_ready_context (env : Env) (chatId : string) (file : FileInfo) (w w1 : World)
    (config : WebhookConfig) (channel : Channel) (uploadDir fullId : string) :
  run env (prepare chatId file) w = (w1, inl (inr (config, channel, uploadDir, fullId))) ->
  store_get (store w) webhook_key = Some (VWebhook config) /\
  webhook_open (store w) = true /\
  channel_in (store w) (targetChannel config) = Some channel /\
  uploadDir = upload_dir (store w) chatId /\
  allocate env (length (log w) + length (store_list (store w) "") + 4) (store w)
    uploadDir (fileName file) "image/jpeg" = inl fullId.
Proof.
  intros Hrun. unfold prepare in Hrun.
  rewrite run_bind, run_call in Hrun. unfold exec at 1, db_call in Hrun.
  case_db Hrun; [discriminate|]. norm_world_in Hrun.
  destruct (negb (truthy_value _)); [discriminate|].
  rewrite run_bind in Hrun.
  destruct (run env (JSON_parse_webhook _) _) as [w0 [cfg|e]] eqn:Hparse; [|discriminate].
  apply JSON_parse_webhook_run in Hparse as [-> Hcfg]. specialize (Hcfg _ eq_refl).
  destruct (negb (enabled cfg) || negb (truthy_str (targetChannel cfg)))%bool eqn:Hopen;
    [discriminate|].
  rewrite run_bind, run_call in Hrun. unfold exec at 1, db_call in Hrun.
  case_db Hrun; [discriminate|]. norm_world_in Hrun.
  rewrite run_bind in Hrun.
  destruct (run env (dedup_scan _ _) _) as [w2 [[key|]|e]] eqn:Hscan; try discriminate.
  apply dedup_scan_run in Hscan as (Hstore2 & ks & Hlog2 & -> & _).
  cbn [store log] in Hstore2, Hlog2.
  rewrite run_bind, run_call in Hrun. unfold exec at 1, db_call in Hrun.
  case_db Hrun; [discriminate|]. norm_world_in Hrun.
  rewrite run_bind in Hrun.
  destruct (run env (text_or _ _) _) as [w3 [dir|e]] eqn:Htext; [|discriminate].
  assert (w3 = {| store := store w2; log := log w2 ++ [Called (DbGet (dir_key chatId))] |} /\
          dir = upload_dir (store w) chatId) as [-> ->].
  { unfold text_or, upload_dir in *. rewrite Hstore2 in Htext |- *.
    destruct (store_get (store w) (dir_key chatId)) as [[s|c|u|b]|];
      cbn [truthy_value] in Htext; try destruct (truthy_str s) eqn:Hs;
      simpl in Htext; simplify_eq; try done.
    split; [done|]. by destruct s. }
  rewrite Hstore2 in Hrun.
  clear Htext.
  rewrite run_bind in Hrun.
  destruct (run env (getTelegramChannel _) _) as [w4 [[ch|]|e]] eqn:Hch; try discriminate.
  apply getTelegramChannel_run in Hch as [-> Hch]. specialize (Hch _ eq_refl).
  cbn [store log] in Hch, Hrun.
  rewrite run_bind, run_call in Hrun. cbn [exec] in Hrun. norm_world_in Hrun.
  destruct (allocate env _ _ _ _ _) as [id|e] eqn:Halloc; [|discriminate].
  cbn [run] in Hrun. simplify_eq.
  apply orb_false_iff in Hopen as [Hen Htarget].
  apply negb_false_iff in Hen, Htarget.
  split; [exact Hcfg|]. split.
  { unfold webhook_open. by rewrite Hcfg, Hen, Htarget. }
  split; [done|]. split; [done|].
  rewrite <- Halloc. f_equal.
  rewrite Hlog2, !length_app. unfold reads. rewrite length_map. cbn [length]. lia.
Qed.

(** Once the storage key is allocated, a success carries that key and the
    metadata record built for it. *)
Lemma write_and_reply_success msg chatId file config channel uploadDir fullId :
  all_rets (fun r => get_field r "success" = JBool true ->
                     exists now,
                       r = success_result fullId
                             (build_metadata channel config file chatId fullId now
                                (media_group_id msg))
                             (media_group_id msg))
    (write_and_reply msg chatId file config channel uploadDir fullId).
Proof.
  unfold write_and_reply.
  apply all_rets_bind, all_rets_call. intros now.
  apply all_rets_bind.
  eapply all_rets_mono; [|apply primary_write_error].
  intros [r|] Hr; cbv beta iota.
  - constructor. intros Hok. by destruct (Hr r eq_refl) as [e ->].
  - unfold index_and_reply.
    apply all_rets_bind. all_rets_skip.
    apply all_rets_bind. all_rets_skip.
    constructor. intros _. by exists now.
Qed.

Lemma build_metadata_channel (channel : Channel) (config : WebhookConfig)
    (file : FileInfo) (chatId fullId : string) (now : N) (group : option string) :
  let meta := build_metadata channel config file chatId fullId now group in
  get_field meta "ChannelName" = JStr (str_or (ch_name channel) (targetChannel config)) /\
  get_field meta "TgBotToken" = JStr (ch_botToken channel).
Proof.
  unfold build_metadata. destruct (truthy_opt_str (ch_proxyUrl channel));
    split; reflexivity.
Qed.

Lemma channel_in_name (s : Store) (channelName : string) (channel : Channel) :
  channel_in s channelName = Some channel -> ch_name channel = channelName.
Proof.
  unfold channel_in. destruct (store_get s upload_key) as [[| |u|]|]; try discriminate.
  intros H. apply find_first in H as [H _]. by apply String.eqb_eq in H.
Qed.

(** X8. A stored file is filed under the upload directory of its chat and
    records the configured channel. For every success of the processing of
    a file event: the webhook was open; the storage key in the result is
    what the allocator returned when asked for the upload directory the
    store held for the chat (the empty folder when none was set) and the
    name of the file; and the metadata in the result names the target
    channel of the stored configuration as [ChannelName] (the fallback of
    line 145 never applies), carries the bot token of the first channel of
    that name and the chat and origin file identifiers of the event, and has
    as [Directory] the part of the storage key up to its last slash. *)
Theorem stored_file_records_configuration (env : Env) (msg : Message) (chatId : string)
    (file : FileInfo) (w w' : World) (r : object) :
  run env (store_file msg chatId file) w = (w', inl r) ->
  get_field r "success" = JBool true ->
  exists config channel fullId meta,
    store_get (store w) webhook_key = Some (VWebhook config) /\
    webhook_open (store w) = true /\
    channel_in (store w) (targetChannel config) = Some channel /\
    allocate env (length (log w) + length (store_list (store w) "") + 4) (store w)
      (upload_dir (store w) chatId) (fileName file) "image/jpeg" = inl fullId /\
    get_field r "fileId" = JStr fullId /\
    get_field r "metadata" = JObj meta /\
    get_field meta "ChannelName" = JStr (targetChannel config) /\
    get_field meta "TgBotToken" = JStr (ch_botToken channel) /\
    get_field meta "TgChatId" = JStr chatId /\
    get_field meta "TgFileId" = JStr (fileId file) /\
    get_field meta "Directory" = JStr (actualDirectory_of fullId).
Proof.
  intros Hrun Hsuccess. unfold store_file in Hrun. rewrite run_bind in Hrun.
  destruct (run env (prepare chatId file) w)
    as [w1 [[r1|[[[config channel] uploadDir] fullId]]|e1]] eqn:Hprep;
    [| |discriminate].
  { cbn [run] in Hrun. simplify_eq.
    pose proof (all_rets_run env _ _ (prepare_early_failure chatId file) _ _ _ Hprep r eq_refl).
    congruence. }
  apply prepare_ready_context in Hprep as (Hcfg & Hopen & Hch & -> & Halloc).
  destruct (all_rets_run env _ _
              (write_and_reply_success msg chatId file config channel _ fullId)
              _ _ _ Hrun Hsuccess) as [now ->].
  destruct (build_metadata_fields channel config file chatId fullId now (media_group_id msg))
    as (Hfid & Hchat & _ & _ & Hdir & _).
  destruct (build_metadata_channel channel config file chatId fullId now (media_group_id msg))
    as (Hname & Htoken).
  eexists config, channel, fullId, _.
  repeat split; try eassumption; try reflexivity.
  rewrite Hname, (channel_in_name _ _ _ Hch). unfold str_or.
  by destruct (truthy_str (targetChannel config)).
Qed.

Lemma stored_file_records_configuration_witness :
  exists w' meta,
    run Sample.env (store_file (Sample.photo_message None) "42" Sample.photo_file)
      (Sample.after Sample.env [{| message := Some Cases.dir_set |}] Sample.world) =
      (w', inl (success_result "photos/2024/photo_2024-01-02_1.jpg" meta None)) /\
    get_field meta "Directory" = JStr "photos/2024/" /\
    get_field meta "ChannelName" = JStr "main".
Proof.
  assert (Hrun : exists w' meta,
    run Sample.env (store_file (Sample.photo_message None) "42" Sample.photo_file)
      (Sample.after Sample.env [{| message := Some Cases.dir_set |}] Sample.world) =
      (w', inl (success_result "photos/2024/photo_2024-01-02_1.jpg" meta None)) /\
    get_field meta "Directory" = JStr "photos/2024/").
  { eexists _, _. split; vm_compute; reflexivity. }
  destruct Hrun as (w' & meta & Hrun & Hdir).
  exists w', meta. split; [exact Hrun|]. split; [exact Hdir|].
  destruct (stored_file_records_configuration _ _ _ _ _ _ _ Hrun eq_refl)
    as (config & channel & fullId & meta' & Hcfg & _ & _ & _ & _ & Hmeta & Hname & _).
  clear Hrun Hdir. vm_compute in Hcfg. injection Hcfg as <-.
  cbn in Hmeta. injection Hmeta as <-. exact Hname.
Defined.

(* ===================================================================== *)
(** * The directory of a storage key                                      *)
(* ===================================================================== *)

Lemma lastIndexOf_from_app (c : ascii) (s1 s2 : string) (i acc : Z) :
  lastIndexOf_from c (s1 +:+ s2) i acc =
  lastIndexOf_from c s2 (i + Z.of_nat (String.length s1)) (lastIndexOf_from c s1 i acc).
Proof.
  revert i acc. induction s1 as [|a s1 IH]; intros i acc; simpl.
  - f_equal. lia.
  - rewrite IH. f_equal. lia.
Qed.

(** From position [i] on, the result is the accumulator or a position. *)
Lemma lastIndexOf_from_range (c : ascii) (s : string) (i acc : Z) :
  lastIndexOf_from c s i acc = acc \/ i <= lastIndexOf_from c s i acc.
Proof.
  revert i acc. induction s as [|a s IH]; intros i acc; cbn [lastIndexOf_from]; [by left|].
  destruct (Ascii.eqb a c).
  - right. destruct (IH (i + 1) i) as [->|H]; lia.
  - destruct (IH (i + 1) acc) as [->|H]; [by left|right; lia].
Qed.

(** Whether the character occurs does not depend on where the search
    starts. *)
Lemma lastIndexOf_from_absent (c : ascii) (s : string) (i acc j acc' : Z) :
  acc < i -> lastIndexOf_from c s i acc = acc -> lastIndexOf_from c s j acc' = acc'.
Proof.
  revert i acc j acc'. induction s as [|a s IH]; intros i acc j acc' Hlt H;
    cbn [lastIndexOf_from] in *; [done|].
  destruct (Ascii.eqb a c).
  - destruct (lastIndexOf_from_range c s (i + 1) i) as [Heq|Hle]; lia.
  - apply (IH (i + 1) acc); [lia|done].
Qed.

Lemma substring0_app (s1 s2 : string) :
  substring0 (s1 +:+ s2) (Z.of_nat (String.length s1)) = s1.
Proof.
  unfold substring0. rewrite Nat2Z.id.
  induction s1 as [|a s1 IH]; simpl.
  - by destruct s2.
  - congruence.
Qed.

Lemma length_append (s1 s2 : string) :
  String.length (s1 +:+ s2) = (String.length s1 + String.length s2)%nat.
Proof. induction s1 as [|a s1 IH]; simpl; [reflexivity|congruence]. Qed.

Lemma append_assoc (s1 s2 s3 : string) : (s1 +:+ s2) +:+ s3 = s1 +:+ (s2 +:+ s3).
Proof.
  induction s1 as [|a s1 IH]; [reflexivity|].
  change (String a ((s1 +:+ s2) +:+ s3) = String a (s1 +:+ s2 +:+ s3)). by rewrite IH.
Qed.

Lemma actualDirectory_of_slash (d base : string) :
  lastIndexOf base "/" = -1 ->
  actualDirectory_of (d +:+ "/" +:+ base) = d +:+ "/".
Proof.
  intros Hbase. unfold actualDirectory_of, lastIndexOf in *.
  rewrite !lastIndexOf_from_app. cbn [lastIndexOf_from String.length].
  rewrite Ascii.eqb_refl.
  rewrite (lastIndexOf_from_absent "/" base 0 (-1)) by (done || lia).
  destruct (Z.eqb_spec (0 + Z.of_nat (String.length d)) (-1)) as [Heq|_]; [lia|].
  replace (0 + Z.of_nat (String.length d) + 1)
    with (Z.of_nat (String.length (d +:+ "/"))) by (rewrite length_append; cbn; lia).
  rewrite <- append_assoc. apply substring0_app.
Qed.

(** Every string is free of slashes or splits at its last slash. *)
Lemma split_last_slash (s : string) :
  lastIndexOf s "/" = -1 \/
  exists d base, s = d +:+ "/" +:+ base /\ lastIndexOf base "/" = -1.
Proof.
  induction s as [|a s IH]; [by left|].
  destruct IH as [Hfree|(d & base & -> & Hbase)].
  - destruct (Ascii.eqb a "/") eqn:Ha.
    + apply Ascii.eqb_eq in Ha as ->. right. by exists "", s.
    + left. unfold lastIndexOf in *. cbn [lastIndexOf_from]. rewrite Ha.
      by apply (lastIndexOf_from_absent "/" s 0 (-1)).
  - right. by exists (String a d), base.
Qed.

(** X9. The directory recorded for a storage key (lines 139-140) is the
    key up to and including its last slash: a key without a slash has the
    empty directory, and a key [d/base] whose [base] has no slash has the
    directory [d/]; every key is of one of these two forms. So the key is
    its directory followed by a slash-free name whatever the allocator
    returns. *)
Theorem actualDirectory_splits_at_last_slash (fullId : string) :
  (lastIndexOf fullId "/" = -1 /\ actualDirectory_of fullId = "") \/
  (exists d base,
     fullId = d +:+ "/" +:+ base /\ lastIndexOf base "/" = -1 /\
     actualDirectory_of fullId = d +:+ "/" /\
     fullId = actualDirectory_of fullId +:+ base).
Proof.
  destruct (split_last_slash fullId) as [Hfree|(d & base & -> & Hbase)].
  - left. split; [done|]. unfold actualDirectory_of. by rewrite Hfree.
  - right. exists d, base. rewrite (actualDirectory_of_slash d base Hbase).
    split; [done|]. split; [done|]. split; [done|]. by rewrite append_assoc.
Qed.

(* ===================================================================== *)
(** * The recorded size                                                   *)
(* ===================================================================== *)

Lemma digit_of_char (d : N) : (d < 10)%N -> digit_of (pretty_N_char d) = Some (Z.of_N d).
Proof.
  intros H.
  assert (d = 0 \/ d = 1 \/ d = 2 \/ d = 3 \/ d = 4 \/ d = 5 \/ d = 6 \/ d = 7 \/
          d = 8 \/ d = 9)%N as Hd by lia.
  repeat destruct Hd as [->|Hd]; try subst d; reflexivity.
Qed.

Lemma pretty_N_go_app (x : N) (s r : string) :
  pretty_N_go x s +:+ r = pretty_N_go x (s +:+ r).
Proof.
  revert s. induction (N.lt_wf_0 x) as [x _ IH]; intros s.
  destruct (N.eq_dec x 0%N) as [->|Hx]; [by rewrite !pretty_N_go_0|].
  rewrite (pretty_N_go_step x s), (pretty_N_go_step x (s +:+ r)) by lia.
  rewrite IH by (apply N.div_lt; lia). reflexivity.
Qed.

(** Reading back the digits [pretty] has written. *)
Lemma read_digits_go (x : N) (s : string) (acc : Z) (cnt : nat) :
  exists k, read_digits (pretty_N_go x s) acc cnt =
              read_digits s (acc * 10 ^ Z.of_nat k + Z.of_N x) (cnt + k) /\
            ((0 < x)%N -> (0 < k)%nat).
Proof.
  revert s acc cnt. induction (N.lt_wf_0 x) as [x _ IH]; intros s acc cnt.
  destruct (N.eq_dec x 0%N) as [->|Hx].
  { exists 0%nat. rewrite pretty_N_go_0. split; [|lia]. f_equal; [f_equal; lia|lia]. }
  rewrite pretty_N_go_step by lia.
  destruct (IH (x `div` 10)%N ltac:(apply N.div_lt; lia)
              (String (pretty_N_char (x `mod` 10)) s) acc cnt) as (k & Hk & _).
  exists (S k). split; [|lia]. rewrite Hk. cbn [read_digits].
  rewrite digit_of_char by (apply N.mod_lt; lia).
  f_equal; [|lia].
  rewrite N2Z.inj_div, N2Z.inj_mod, Nat2Z.inj_succ, Z.pow_succ_r by lia.
  pose proof (Z.div_mod (Z.of_N x) 10 ltac:(lia)). lia.
Qed.

Lemma pretty_N_go_head (x : N) (s : string) :
  (0 < x)%N -> exists d s', (d < 10)%N /\ pretty_N_go x s = String (pretty_N_char d) s'.
Proof.
  revert s. induction (N.lt_wf_0 x) as [x _ IH]; intros s Hx.
  rewrite pretty_N_go_step by lia.
  destruct (N.eq_dec (x `div` 10)%N 0%N) as [->|Hdiv].
  - rewrite pretty_N_go_0. eexists _, _. split; [|done]. apply N.mod_lt. lia.
  - apply IH; [apply N.div_lt; lia|by apply N.neq_0_lt_0].
Qed.

(** The decimal representation of a non-negative integer starts with a
    digit. *)
Lemma pretty_Z_head (z : Z) :
  0 <= z -> exists d s', (d < 10)%N /\ pretty z = String (pretty_N_char d) s'.
Proof.
  destruct z as [|p|p]; intros Hz; [by exists 0%N, ""| |lia].
  unfold pretty, pretty_Z, pretty, pretty_positive, pretty, pretty_N.
  rewrite decide_False by lia. apply pretty_N_go_head. lia.
Qed.

Lemma read_digits_pretty (z : Z) (rest : string) :
  0 <= z ->
  exists k, (0 < k)%nat /\ read_digits (pretty z +:+ rest) 0 0 = read_digits rest z k.
Proof.
  destruct z as [|p|p]; intros Hz; [exists 1%nat; split; [lia|reflexivity]| |lia].
  unfold pretty, pretty_Z, pretty, pretty_positive, pretty, pretty_N.
  rewrite decide_False by lia. rewrite pretty_N_go_app.
  destruct (read_digits_go (N.pos p) ("" +:+ rest) 0 0) as (k & Hk & Hpos).
  exists k. split; [apply Hpos; lia|]. rewrite Hk. reflexivity.
Qed.

Lemma digit_char (d : Z) : digit d = String (pretty_N_char (Z.to_N (d mod 10))) "".
Proof.
  unfold digit. pose proof (Z.mod_pos_bound d 10 ltac:(lia)) as H.
  remember (d mod 10) as r eqn:Hr. clear Hr.
  assert (r = 0 \/ r = 1 \/ r = 2 \/ r = 3 \/ r = 4 \/ r = 5 \/ r = 6 \/ r = 7 \/
          r = 8 \/ r = 9) as Hd by lia.
  repeat destruct Hd as [->|Hd]; try subst r; reflexivity.
Qed.

Lemma pretty_N_char_plain (d : N) (s : string) :
  trimStart (String (pretty_N_char d) s) = String (pretty_N_char d) s /\
  pretty_N_char d <> "-"%char /\ pretty_N_char d <> "+"%char.
Proof. unfold pretty_N_char. repeat case_match; done. Qed.

(** [parseFloat] reads what [toFixed(2)] prints. *)
Lemma parseFloat_toFixed2 (m : Z) (e : nat) :
  0 <= m -> parseFloat (JStr (toFixed2 (Dec m e))) = Dec (hundredths m e) 2.
Proof.
  intros Hm. unfold parseFloat, toFixed2. cbn [toString].
  assert (0 <= hundredths m e) as Hn.
  { unfold hundredths, pow10. apply Z.div_pos; [|lia].
    pose proof (Z.pow_pos_nonneg 10 (Z.of_nat e)). lia. }
  set (n := hundredths m e) in *.
  destruct (Z.ltb_spec m 0) as [?|_]; [lia|].
  change (("" +:+ pretty (n / 100) +:+ "." +:+ digit (n / 10) +:+ digit n))
    with (pretty (n / 100) +:+ "." +:+ digit (n / 10) +:+ digit n).
  assert (0 <= n / 100) as Hip by (apply Z.div_pos; lia).
  unfold parseFloat_str.
  destruct (pretty_Z_head (n / 100) Hip) as (d & s' & Hd & Hhead).
  destruct (read_digits_pretty (n / 100) ("." +:+ digit (n / 10) +:+ digit n) Hip)
    as (k & Hk & Hread).
  revert Hread. rewrite Hhead.
  change (String (pretty_N_char d) s' +:+ "." +:+ digit (n / 10) +:+ digit n)
    with (String (pretty_N_char d) (s' +:+ "." +:+ digit (n / 10) +:+ digit n)).
  destruct (pretty_N_char_plain d (s' +:+ "." +:+ digit (n / 10) +:+ digit n))
    as (-> & Hminus & Hplus).
  intros Hread.
  assert (match String (pretty_N_char d) (s' +:+ "." +:+ digit (n / 10) +:+ digit n) with
          | String "-" r => (true, r)
          | String "+" r => (false, r)
          | _ => (false, String (pretty_N_char d)
                           (s' +:+ "." +:+ digit (n / 10) +:+ digit n))
          end = (false, String (pretty_N_char d)
                          (s' +:+ "." +:+ digit (n / 10) +:+ digit n))) as ->.
  { unfold pretty_N_char. by repeat case_match. }
  rewrite Hread. rewrite !digit_char.
  change ("." +:+ String (pretty_N_char (Z.to_N ((n / 10) mod 10))) "" +:+
          String (pretty_N_char (Z.to_N (n mod 10))) "")
    with (String "." (String (pretty_N_char (Z.to_N ((n / 10) mod 10)))
                        (String (pretty_N_char (Z.to_N (n mod 10))) ""))).
  cbn [read_digits digit_of Ascii.is_nat].
  pose proof (Z.mod_pos_bound (n / 10) 10 ltac:(lia)).
  pose proof (Z.mod_pos_bound n 10 ltac:(lia)).
  change (match Ascii.is_nat "." with Some d0 => Some (Z.of_nat d0) | None => None end)
    with (digit_of ".").
  change (digit_of ".") with (@None Z). cbv iota.
  fold (digit_of (pretty_N_char (Z.to_N ((n / 10) mod 10)))).
  fold (digit_of (pretty_N_char (Z.to_N (n mod 10)))).
  rewrite !digit_of_char by lia. cbv iota beta.
  assert (Nat.eqb k 0 = false) as -> by (apply Nat.eqb_neq; lia).
  cbn [andb read_exponent]. cbv iota beta.
  rewrite !Z2N.id by lia.
  pose proof (Z.div_mod n 10 ltac:(lia)).
  pose proof (Z.div_mod (n / 10) 10 ltac:(lia)).
  rewrite Z.div_div in * by lia. change (10 * 10) with 100 in *.
  unfold scale_exp. change (0 <? 0) with false. cbv iota.
  change (10 ^ 0) with 1. f_equal. lia.
Qed.

Lemma hundredths_of_size (size : N) :
  hundredths (Z.of_N size * 9765625 * 9765625) (0 + 10 + 10) =
  (200 * Z.of_N size + 1048576) / 2097152.
Proof.
  unfold hundredths.
  change (pow10 (0 + 10 + 10)) with (95367431640625 * 1048576).
  rewrite Z.abs_eq by lia.
  replace (Z.of_N size * 9765625 * 9765625 * 200 + 95367431640625 * 1048576)
    with (95367431640625 * (200 * Z.of_N size + 1048576)) by lia.
  replace (2 * (95367431640625 * 1048576)) with (95367431640625 * 2097152) by lia.
  apply Z.div_mul_cancel_l; lia.
Qed.

Lemma hundredths_two (n : Z) : 0 <= n -> hundredths n 2 = n.
Proof.
  intros Hn. unfold hundredths. change (pow10 2) with 100. rewrite Z.abs_eq by lia.
  replace (n * 200 + 100) with (100 + n * (2 * 100)) by lia.
  rewrite Z.div_add by lia. change (100 / (2 * 100)) with 0. lia.
Qed.

Lemma index_entry_size (s : Store) (key : string) (v : Value) (meta : object) :
  entry_size (store_put s key v (index_opts meta)) key =
  parseFloat (or_else (get_field meta "FileSize") (JNum 0)).
Proof.
  unfold entry_size, store_getWithMetadata, store_put.
  rewrite lookup_insert_eq. reflexivity.
Qed.

(** X10. The size recorded for a file of [size] bytes is the number [n] of
    hundredths of a mebibyte nearest to it, halves rounded up: the recorded
    string is [n/100] printed with two decimals, [parseFloat] reads exactly
    that number back from it, and the entry the handler writes to the batch
    index for the file contributes exactly [n/100] to the total of the
    finalize task. *)
Theorem recorded_size_round_trip (size : N) :
  let n := (200 * Z.of_N size + 1048576) / 2097152 in
  2097152 * n <= 200 * Z.of_N size + 1048576 < 2097152 * (n + 1) /\
  FileSize_of (Some size) = toFixed2 (Dec n 2) /\
  parseFloat (JStr (FileSize_of (Some size))) = Dec n 2 /\
  forall (s : Store) (key : string) (v : Value) (channel : Channel)
         (config : WebhookConfig) (fid name type chatId fullId : string) (now : N)
         (group : option string),
    entry_size
      (store_put s key v
         (index_opts
            (build_metadata channel config
               {| fileId := fid; fileSize := Some size; fileName := name;
                  fileType := type |}
               chatId fullId now group)))
      key = Dec n 2.
Proof.
  intros n.
  assert (Hn : 0 <= n) by (apply Z.div_pos; lia).
  assert (Hparse : parseFloat (JStr (FileSize_of (Some size))) = Dec n 2).
  { unfold FileSize_of. cbn [num_of_size num_div_1024].
    rewrite parseFloat_toFixed2 by lia. by rewrite hundredths_of_size. }
  split.
  { pose proof (Z.div_mod (200 * Z.of_N size + 1048576) 2097152 ltac:(lia)).
    pose proof (Z.mod_pos_bound (200 * Z.of_N size + 1048576) 2097152 ltac:(lia)).
    fold n in H. lia. }
  split.
  { unfold FileSize_of. cbn [num_of_size num_div_1024]. unfold toFixed2.
    rewrite hundredths_of_size, hundredths_two by done. fold n.
    destruct (Z.ltb_spec (Z.of_N size * 9765625 * 9765625) 0) as [?|_]; [lia|].
    by destruct (Z.ltb_spec n 0) as [?|_]; [lia|]. }
  split; [exact Hparse|].
  intros. rewrite index_entry_size.
  destruct (build_metadata_fields channel config
              {| fileId := fid; fileSize := Some size; fileName := name;
                 fileType := type |} chatId fullId now group)
    as (_ & _ & _ & -> & _).
  cbn [fileSize]. unfold or_else.
  assert (truthy (JStr (FileSize_of (Some size))) = true) as ->; [|exact Hparse].
  cbn [truthy]. apply negb_true_iff, String.eqb_neq. intros Hempty.
  rewrite Hempty in Hparse. discriminate Hparse.
Qed.

Lemma num_add_NaN_r (x : num) : num_add x NaN = NaN.
Proof. by destruct x. Qed.

Lemma total_size_NaN (s : Store) (keys : list string) :
  total_size s keys NaN = NaN.
Proof. unfold total_size. induction keys as [|k keys IH]; [done|exact IH]. Qed.

(** X11. A size that is not a number poisons the total of a batch. A file
    whose Telegram record has no [file_size] is recorded with the size
    ["NaN"], its batch-index entry contributes [NaN], and the total over any
    listing that contains an entry contributing [NaN] is [NaN], which the
    final message prints as ["NaN"]. *)
Theorem undefined_size_poisons_total (s : Store) (keys : list string) (key : string)
    (start : num) :
  key ∈ keys ->
  entry_size s key = NaN ->
  total_size s keys start = NaN /\
  toFixed2 (total_size s keys start) = "NaN" /\
  FileSize_of None = "NaN" /\
  forall (s0 : Store) (k : string) (v : Value) (channel : Channel)
         (config : WebhookConfig) (fid name type chatId fullId : string) (now : N)
         (group : option string),
    entry_size
      (store_put s0 k v
         (index_opts
            (build_metadata channel config
               {| fileId := fid; fileSize := None; fileName := name; fileType := type |}
               chatId fullId now group)))
      k = NaN.
Proof.
  intros Hin Hnan.
  assert (Htotal : total_size s keys start = NaN).
  { revert start. induction keys as [|k keys IH]; intros start.
    { by apply elem_of_nil in Hin. }
    unfold total_size. cbn [fold_left].
    apply elem_of_cons in Hin as [<-|Hin].
    - rewrite Hnan, num_add_NaN_r. apply total_size_NaN.
    - apply IH, Hin. }
  split; [exact Htotal|]. split; [by rewrite Htotal|]. split; [reflexivity|].
  intros. rewrite index_entry_size.
  destruct (build_metadata_fields channel config
              {| fileId := fid; fileSize := None; fileName := name; fileType := type |}
              chatId fullId now group)
    as (_ & _ & _ & -> & _).
  reflexivity.
Qed.

Lemma undefined_size_poisons_total_witness :
  total_size (store Cases.unsized_world) ["batch_index_g1_photo_2024-01-02_1.jpg"]
    (num_of_Z 0) = NaN.
Proof.
  apply (undefined_size_poisons_total (store Cases.unsized_world)
           ["batch_index_g1_photo_2024-01-02_1.jpg"]
           "batch_index_g1_photo_2024-01-02_1.jpg" (num_of_Z 0)).
  - apply list_elem_of_here.
  - vm_compute. reflexivity.
Defined.

(* ===================================================================== *)
(** * The webhook endpoint                                                *)
(* ===================================================================== *)

(** The endpoint up to its checks: what it answers when it does not get to
    the update, whatever handler it is given. *)
Lemma onRequest_rejected (env : Env) (handler : Update -> Prog object)
    (request : Webhook.Request) (w : World) :
  accepts (store w) request = false ->
  exists resp,
    run env (Webhook.onRequest handler request) w =
      (if String.eqb (Webhook.req_method request) "POST"
       then {| store := store w; log := log w ++ [Called (DbGet webhook_key)] |}
       else w,
       inl resp) /\
    (http_status resp = 405 /\ String.eqb (Webhook.req_method request) "POST" = false \/
     String.eqb (Webhook.req_method request) "POST" = true /\
     (http_status resp = 400 \/ http_status resp = 403 \/ http_status resp = 401 \/
      resp = Webhook.internal_error)).
Proof.
  unfold accepts, Webhook.onRequest. intros Hrej.
  destruct (String.eqb (Webhook.req_method request) "POST"); cbn [negb andb] in *.
  2:{ eexists. split; [reflexivity|]. by left. }
  rewrite run_try_catch, run_bind, run_call. unfold exec at 1, db_call.
  destruct (db_fails env (length (log w))) as [e|].
  { norm_world. cbn [run]. eexists. split; [reflexivity|].
    right. split; [done|]. by repeat right. }
  norm_world.
  destruct (store_get (store w) webhook_key) as [[s|c|u|b]|];
    cbn [truthy_value] in *; try destruct (truthy_str s);
    cbn [negb JSON_parse_webhook bind run];
    try (eexists; split; [reflexivity|]; right; split; [done|];
         first [by left | by repeat right]).
  destruct (enabled c); cbn [negb andb] in *.
  2:{ eexists. split; [reflexivity|]. right. split; [done|]. right. by left. }
  rewrite Hrej. cbn [negb run]. eexists. split; [reflexivity|].
  right. split; [done|]. right. right. by left.
Qed.

(** Membership in a list given by its elements. *)
Ltac in_list := repeat first [apply list_elem_of_here | apply list_elem_of_further].

(** X12. The endpoint always answers, and never with a server error.
    Whatever the request, the handler and the collaborators do, [onRequest]
    returns a response (it never throws), and its status is 405, 400, 403,
    401 or 200; it is 405 exactly for the methods other than POST. *)
Theorem onRequest_always_responds (env : Env) (handler : Update -> Prog object)
    (request : Webhook.Request) (w : World) :
  exists w' resp,
    run env (Webhook.onRequest handler request) w = (w', inl resp) /\
    http_status resp ∈ [405; 400; 403; 401; 200] /\
    (http_status resp = 405 <-> Webhook.req_method request <> "POST").
Proof.
  destruct (accepts (store w) request) eqn:Hacc.
  - unfold accepts in Hacc. apply andb_true_iff in Hacc as [Hpost Hcfg].
    unfold Webhook.onRequest. rewrite Hpost. cbn [negb].
    rewrite run_try_catch.
    match goal with
    | |- context [run env ?p w] => destruct (run env p w) as [w1 [resp|e]] eqn:Hrun
    end.
    + exists w1, resp. split; [done|].
      assert (Hstatus : http_status resp ∈ [400; 403; 401; 200]).
      { match type of Hrun with
        | run _ ?p _ = _ =>
            assert (Hall : all_rets (fun r => http_status r ∈ [400; 403; 401; 200]) p)
        end.
        { unfold JSON_parse_webhook.
          repeat first [all_rets_step | all_rets_skip];
            cbn [http_status Webhook.text_response Webhook.processed Webhook.skipped
                 JSON_stringify]; in_list. }
        exact (all_rets_run env _ _ Hall _ _ _ Hrun). }
      apply String.eqb_eq in Hpost. split; [by apply list_elem_of_further|].
      split; [|done]. intros H405. rewrite H405 in Hstatus.
      repeat (apply elem_of_cons in Hstatus as [Hstatus|Hstatus]; [discriminate|]).
      by apply elem_of_nil in Hstatus.
    + cbn [run]. exists w1, Webhook.internal_error. split; [done|].
      apply String.eqb_eq in Hpost. split; [in_list|].
      split; [discriminate|done].
  - destruct (onRequest_rejected env handler request w Hacc) as (resp & Hrun & Hst).
    eexists _, resp. split; [exact Hrun|].
    destruct Hst as [[H405 Hpost]|[Hpost Hst]].
    + rewrite H405. split; [in_list|]. split; [|done].
      intros _ Heq. apply String.eqb_eq in Heq. congruence.
    + apply String.eqb_eq in Hpost.
      destruct Hst as [H|[H|[H| ->]]]; try rewrite H;
        (split; [in_list|]); (split; [discriminate|done]).
Qed.

(** The handler plays no part in the answer to a request that fails a
    check. *)
Lemma onRequest_rejected_any (env : Env) (handler other : Update -> Prog object)
    (request : Webhook.Request) (w : World) :
  accepts (store w) request = false ->
  run env (Webhook.onRequest handler request) w =
  run env (Webhook.onRequest other request) w.
Proof.
  unfold accepts, Webhook.onRequest. intros Hrej.
  destruct (String.eqb (Webhook.req_method request) "POST"); cbn [negb andb] in *;
    [|reflexivity].
  rewrite !run_try_catch, !run_bind, !run_call. unfold exec, db_call.
  destruct (db_fails env (length (log w))) as [e|]; [reflexivity|]. norm_world.
  destruct (store_get (store w) webhook_key) as [[s|c|u|b]|];
    cbn [truthy_value] in *; try destruct (truthy_str s);
    cbn [negb JSON_parse_webhook bind run]; try reflexivity.
  destruct (enabled c); cbn [negb andb] in *; [|reflexivity].
  rewrite Hrej. reflexivity.
Qed.

(** X13. A request that fails one of the checks never reaches the handler.
    When the method is not POST, or no enabled configuration is stored, or
    the secret header is missing, empty or different from the configured
    secret, the endpoint answers without running the handler: its outcome
    is the same whatever handler it is given, its only call is the read of
    the configuration (none at all for another method), the store is as it
    was, and the answer is a 405, 400, 403 or 401, or the [Internal error]
    acknowledgement when that read or the parsing of what it returns
    fails. *)
Theorem rejected_request_never_reaches_handler (env : Env)
    (handler : Update -> Prog object) (request : Webhook.Request) (w w' : World)
    (out : result HttpResponse) :
  accepts (store w) request = false ->
  run env (Webhook.onRequest handler request) w = (w', out) ->
  store w' = store w /\
  calls_since w w' = (if String.eqb (Webhook.req_method request) "POST"
                      then [Called (DbGet webhook_key)] else []) /\
  (forall other, run env (Webhook.onRequest other request) w = (w', out)) /\
  exists resp, out = inl resp /\
    (http_status resp ∈ [405; 400; 403; 401] \/ resp = Webhook.internal_error).
Proof.
  intros Hrej Hrun.
  destruct (onRequest_rejected env handler request w Hrej) as (resp & Hrun' & Hst).
  pose proof Hrun' as Hrun2. rewrite Hrun in Hrun2. injection Hrun2 as -> ->.
  split; [by destruct (String.eqb _ _)|]. split.
  { destruct (String.eqb _ _); [apply calls_since_mk|].
    apply calls_since_extends, extends_refl. }
  split.
  { intros other. rewrite <- (onRequest_rejected_any env handler other) by done.
    exact Hrun. }
  exists resp. split; [done|].
  destruct Hst as [[-> _]|[_ [->|[->|[->| ->]]]]]; first [solve [left; in_list] | by right].
Qed.

Lemma rejected_request_never_reaches_handler_witness :
  let res := run Sample.env
               (Webhook.onRequest handleTelegramMessage (Cases.request "POST" (Some "guess")))
               Sample.world in
  store (fst res) = Sample.configured /\
  calls_since Sample.world (fst res) = [Called (DbGet webhook_key)] /\
  snd res = inl (Webhook.text_response 401 "Unauthorized").
Proof.
  intros res.
  destruct (rejected_request_never_reaches_handler Sample.env handleTelegramMessage
              (Cases.request "POST" (Some "guess")) Sample.world (fst res) (snd res))
    as (Hstore & Hcalls & _).
  - vm_compute. reflexivity.
  - apply surjective_pairing.
  - split; [exact Hstore|]. split; [exact Hcalls|]. vm_compute. reflexivity.
Defined.

(** X14. A request that passes the checks is always acknowledged with
    status 200. When the read of the configuration succeeds, the endpoint
    hands the update to the handler in the world that read leaves, and
    answers with [{ ok, fileId }] to a success, with
    [{ ok, skipped, reason }] to a failure and with
    [{ ok, error: 'Internal error' }] when the handler throws or the body of
    the request is not JSON; the world is the one the handler leaves. So
    Telegram is never asked to deliver the update again. *)
Theorem accepted_request_is_acknowledged (env : Env) (handler : Update -> Prog object)
    (request : Webhook.Request) (w : World) :
  accepts (store w) request = true ->
  db_fails env (length (log w)) = None ->
  let w1 := {| store := store w; log := log w ++ [Called (DbGet webhook_key)] |} in
  run env (Webhook.onRequest handler request) w =
  match Webhook.req_json request with
  | inl update =>
      (fst (run env (handler update) w1), inl (answer (snd (run env (handler update) w1))))
  | inr _ => (w1, inl Webhook.internal_error)
  end /\
  forall out, http_status (answer out) = 200.
Proof.
  intros Hacc Hdb w1. split.
  2:{ intros [r|e]; cbn [answer]; [|done]. by destruct (truthy _). }
  unfold accepts in Hacc. apply andb_true_iff in Hacc as [Hpost Hcfg].
  unfold Webhook.onRequest. rewrite Hpost. cbn [negb].
  rewrite run_try_catch, run_bind, run_call. unfold exec at 1, db_call.
  rewrite Hdb. norm_world. fold w1.
  destruct (store_get (store w) webhook_key) as [[s|c|u|b]|]; try discriminate Hcfg.
  apply andb_true_iff in Hcfg as [Hen Hauth].
  cbn [truthy_value negb JSON_parse_webhook bind]. rewrite Hen, Hauth. cbn [negb].
  destruct (Webhook.req_json request) as [update|e]; [|reflexivity].
  cbn [bind]. rewrite run_bind.
  destruct (run env (handler update) w1) as [w2 [r|e]]; cbn [fst snd answer]; [|done].
  by destruct (truthy (get_field r "success")).
Qed.

Lemma accepted_request_is_acknowledged_witness :
  exists w',
    run Sample.env
      (Webhook.onRequest handleTelegramMessage (Cases.request "POST" (Some "secret")))
      Sample.world =
    (w', inl {| http_status := 200;
                http_body := BJson [("ok", JBool true);
                                    ("fileId", JStr "photo_2024-01-02_2.jpg")] |}).
Proof.
  destruct (accepted_request_is_acknowledged Sample.env handleTelegramMessage
              (Cases.request "POST" (Some "secret")) Sample.world) as [Hrun _].
  - vm_compute. reflexivity.
  - reflexivity.
  - eexists. rewrite Hrun. vm_compute. reflexivity.
Defined.

(* ===================================================================== *)
(** * The handler without deduplication and media groups                 *)
(* ===================================================================== *)

(** X15. What the handler of telegramMessageHandler.js does for a file it
    stores. Every success consists of exactly seven calls: the reads of the
    webhook and upload configurations, the allocation of the storage key in
    the empty folder, the reading of the clock, the put of the StoredFile,
    the index update and one reply. So the store is never listed nor
    searched for the origin file identifier (a file sent again is stored
    again), no upload directory is read, [Directory] is empty, and neither a
    failing index update nor a failing reply changes the result. *)
Theorem legacy_success_calls (env : Env) (chatId : string) (file : FileInfo)
    (w w' : World) (r : object) :
  run env (Legacy.store_file chatId file) w = (w', inl r) ->
  get_field r "success" = JBool true ->
  exists config channel fullId meta,
    store_get (store w) webhook_key = Some (VWebhook config) /\
    channel_in (store w) (targetChannel config) = Some channel /\
    meta = Legacy.build_metadata channel config file chatId
             (clock env (length (log w) + 3)) /\
    r = [("success", JBool true); ("fileId", JStr fullId); ("metadata", JObj meta)] /\
    calls_since w w' =
      [Called (DbGet webhook_key); Called (DbGet upload_key);
       Called (BuildUniqueFileId "" (fileName file) "image/jpeg");
       Called DateNow;
       Called (DbPut fullId (VText "") (file_opts meta));
       Called (EndUpload "" fullId meta);
       Called (SendMessage (new_TelegramAPI channel) chatId (single_text fullId meta))] /\
    store w' = store_put (store w) fullId (VText "") (file_opts meta) /\
    get_field meta "Directory" = JStr "".
Proof.
  intros Hrun Hsuccess. unfold Legacy.store_file in Hrun.
  rewrite run_bind, run_call in Hrun. unfold exec at 1, db_call in Hrun.
  case_db Hrun; [discriminate|]. norm_world_in Hrun.
  destruct (negb (truthy_value _)).
  { cbn [run] in Hrun. by simplify_eq. }
  rewrite run_bind in Hrun.
  destruct (run env (JSON_parse_webhook _) _) as [w0 [config|e]] eqn:Hparse; [|discriminate].
  apply JSON_parse_webhook_run in Hparse as [-> Hcfg]. specialize (Hcfg _ eq_refl).
  destruct (negb (enabled config) || negb (truthy_str (targetChannel config)))%bool.
  { cbn [run] in Hrun. by simplify_eq. }
  rewrite run_bind in Hrun.
  destruct (run env (getTelegramChannel _) _) as [w2 [[channel|]|e]] eqn:Hch;
    [| |discriminate].
  2:{ cbn [run] in Hrun. by simplify_eq. }
  apply getTelegramChannel_run in Hch as [-> Hch]. specialize (Hch _ eq_refl).
  cbn [store log] in Hch, Hrun. norm_world_in Hrun.
  rewrite run_bind, run_call in Hrun. cbn [exec] in Hrun. norm_world_in Hrun.
  destruct (allocate env _ _ _ _ _) as [fullId|e]; [|discriminate].
  rewrite run_bind, run_call in Hrun. cbn [exec] in Hrun. norm_world_in Hrun.
  rewrite length_app in Hrun. cbn [length] in Hrun.
  set (meta := Legacy.build_metadata channel config file chatId _) in Hrun.
  rewrite run_bind, run_try_catch, run_bind, run_call in Hrun.
  unfold exec at 1, db_call in Hrun. case_db Hrun.
  { cbn [run] in Hrun. by simplify_eq. }
  norm_world_in Hrun. cbn [run] in Hrun.
  rewrite run_bind, run_try_catch, run_call in Hrun. cbn [exec] in Hrun.
  norm_world_in Hrun.
  exists config, channel, fullId, meta.
  split; [exact Hcfg|]. split; [done|]. split; [reflexivity|].
  destruct (endUpload_fails env _); cbn [run] in Hrun;
    rewrite run_bind, run_try_catch, run_bind, run_call in Hrun;
    cbn [exec] in Hrun; norm_world_in Hrun;
    destruct (api_reply env _) as [resp|e]; cbn [run] in Hrun; simplify_eq;
    rewrite calls_since_mk; repeat split; try reflexivity.
  all: unfold meta, Legacy.build_metadata;
    by destruct (truthy_opt_str (ch_proxyUrl channel)).
Qed.

Lemma legacy_success_calls_witness :
  exists w' r,
    run Sample.env (Legacy.store_file "42" Cases.repeated_file) Cases.legacy_once =
      (w', inl r) /\
    records_origin (store Cases.legacy_once) "photo_2024-01-02_1.jpg" "f1" = true /\
    get_field r "fileId" = JStr "photo_2024-01-02_9.jpg" /\
    count is_list (calls_since Cases.legacy_once w') = 0%nat.
Proof.
  assert (Hrun : exists w' r,
    run Sample.env (Legacy.store_file "42" Cases.repeated_file) Cases.legacy_once =
      (w', inl r) /\
    get_field r "success" = JBool true /\
    get_field r "fileId" = JStr "photo_2024-01-02_9.jpg").
  { eexists _, _. split; [vm_compute; reflexivity|]. split; reflexivity. }
  destruct Hrun as (w' & r & Hrun & Hsuccess & Hid).
  exists w', r. split; [exact Hrun|]. split; [vm_compute; reflexivity|].
  split; [exact Hid|].
  destruct (legacy_success_calls Sample.env "42" Cases.repeated_file Cases.legacy_once
              w' r Hrun Hsuccess) as (config & channel & fullId & meta & _ & _ & _ & _ &
                                      Hcalls & _).
  rewrite Hcalls. reflexivity.
Defined.

Lemma legacy_store_file_failure (env : Env) (chatId : string) (file : FileInfo)
    (w w' : World) (r : object) :
  run env (Legacy.store_file chatId file) w = (w', inl r) ->
  get_field r "success" = JBool false ->
  store w' = store w /\
  exists d, extends w w' d /\ count is_send d = 0%nat /\
            (get_field r "reason" <> JStr "database_error" ->
             Forall (fun c => quiet c = true) d).
Proof.
  intros Hrun Hfail. unfold Legacy.store_file in Hrun.
  rewrite run_bind, run_call in Hrun. unfold exec at 1, db_call in Hrun.
  case_db Hrun; [discriminate|]. norm_world_in Hrun.
  destruct (negb (truthy_value _)).
  { cbn [run] in Hrun. simplify_eq. split; [done|].
    exists [Called (DbGet webhook_key)]. split; [done|]. split; [done|].
    intros _. by repeat constructor. }
  rewrite run_bind in Hrun.
  destruct (run env (JSON_parse_webhook _) _) as [w0 [config|e]] eqn:Hparse; [|discriminate].
  apply JSON_parse_webhook_run in Hparse as [-> _].
  destruct (negb (enabled config) || negb (truthy_str (targetChannel config)))%bool.
  { cbn [run] in Hrun. simplify_eq. split; [done|].
    exists [Called (DbGet webhook_key)]. split; [done|]. split; [done|].
    intros _. by repeat constructor. }
  rewrite run_bind in Hrun.
  destruct (run env (getTelegramChannel _) _) as [w2 [[channel|]|e]] eqn:Hch;
    [| |discriminate];
    apply getTelegramChannel_run in Hch as [-> _]; norm_world_in Hrun.
  2:{ cbn [run] in Hrun. simplify_eq. split; [done|].
      exists [Called (DbGet webhook_key); Called (DbGet upload_key)].
      split; [done|]. split; [done|]. intros _. by repeat constructor. }
  rewrite run_bind, run_call in Hrun. cbn [exec] in Hrun. norm_world_in Hrun.
  destruct (allocate env _ _ _ _ _) as [fullId|e]; [|discriminate].
  rewrite run_bind, run_call in Hrun. cbn [exec] in Hrun. norm_world_in Hrun.
  set (meta := Legacy.build_metadata channel config file chatId _) in Hrun.
  rewrite run_bind, run_try_catch, run_bind, run_call in Hrun.
  unfold exec at 1, db_call in Hrun. case_db Hrun.
  { cbn [run] in Hrun. norm_world_in Hrun. simplify_eq. split; [done|].
    eexists. split; [reflexivity|]. split; [reflexivity|].
    intros Hreason. by destruct Hreason. }
  exfalso. norm_world_in Hrun. cbn [run] in Hrun.
  rewrite run_bind in Hrun.
  match type of Hrun with
  | context [run env ?p ?w3] => destruct (run env p w3) as [w4 [[]|e]]; [|discriminate]
  end.
  rewrite run_bind in Hrun.
  match type of Hrun with
  | context [run env ?p ?w3] => destruct (run env p w3) as [w5 [[]|e]]; [|discriminate]
  end.
  cbn [run] in Hrun. by simplify_eq.
Qed.

(** X16. In the handler of telegramMessageHandler.js a failure changes
    nothing: whatever the collaborators answer, when the result reports a
    failure the store is as it was before the update and no message has
    been sent. This includes [database_error], its only write being the one
    that was rejected; every other failure has come after calls that only
    read or allocated. *)
Theorem legacy_failure_changes_nothing (env : Env) (update : Update) (w w' : World)
    (r : object) :
  run env (Legacy.handleTelegramMessage update) w = (w', inl r) ->
  get_field r "success" = JBool false ->
  store w' = store w /\
  count is_send (calls_since w w') = 0%nat /\
  (get_field r "reason" <> JStr "database_error" ->
   Forall (fun c => quiet c = true) (calls_since w w')).
Proof.
  intros Hrun Hfail. unfold Legacy.handleTelegramMessage in Hrun.
  destruct (message update) as [msg|].
  2:{ cbn [run] in Hrun. simplify_eq.
      rewrite (calls_since_extends _ _ _ (extends_refl _)). by repeat split. }
  cbv zeta in Hrun. rewrite run_bind in Hrun.
  destruct (run env (extract_file msg) w) as [w1 [[file|]|e]] eqn:Hfile; [| |discriminate].
  - apply (quiet_run env _ _ _ _ (extract_file_quiet msg)) in Hfile as (Hs1 & d1 & Hd1 & Hq1).
    apply legacy_store_file_failure in Hrun as (Hs2 & d2 & Hd2 & Hsend & Hq2); [|done].
    rewrite (calls_since_extends _ _ _ (extends_trans _ _ _ _ _ Hd1 Hd2)).
    split; [congruence|]. split.
    + rewrite count_app, Hsend, (proj1 (quiet_counts d1 Hq1)). reflexivity.
    + intros Hreason. apply Forall_app. split; [done|by apply Hq2].
  - cbn [run] in Hrun. simplify_eq.
    apply (quiet_run env _ _ _ _ (extract_file_quiet msg)) in Hfile as (Hs1 & d1 & Hd1 & Hq1).
    rewrite (calls_since_extends _ _ _ Hd1).
    split; [done|]. split; [|done]. apply (quiet_counts d1 Hq1).
Qed.

Lemma legacy_failure_changes_nothing_witness :
  let res := run (Sample.env_db_fails_at 6)
               (Legacy.handleTelegramMessage (Sample.photo_update "f1" 1048576 None))
               Sample.world in
  snd res = inl (database_error "KV put failed") /\
  store (fst res) = Sample.configured /\
  count is_send (calls_since Sample.world (fst res)) = 0%nat.
Proof.
  intros res.
  assert (Hout : snd res = inl (database_error "KV put failed")) by (vm_compute; reflexivity).
  split; [exact Hout|].
  destruct (legacy_failure_changes_nothing (Sample.env_db_fails_at 6)
              (Sample.photo_update "f1" 1048576 None) Sample.world (fst res)
              (database_error "KV put failed")) as (Hstore & Hsend & _).
  - transitivity (fst res, snd res); [apply surjective_pairing|].
    f_equal; try exact Hout.
  - reflexivity.
  - split; [exact Hstore|exact Hsend].
Defined.

(* ===================================================================== *)
(** * The management API: saving and reading the configuration           *)
(* ===================================================================== *)

Lemma getWebhookConfig_stored (env : Env) (w : World) (config : WebhookConfig) :
  db_fails env (length (log w)) = None ->
  store_get (store w) webhook_key = Some (VWebhook config) ->
  run env Manage.getWebhookConfig w =
  ({| store := store w; log := log w ++ [Called (DbGet webhook_key)] |},
   inl (Manage.json_response 200 (Manage.config_object config))).
Proof.
  intros Hdb Hcfg. unfold Manage.getWebhookConfig.
  rewrite run_try_catch, run_bind, run_call. unfold exec at 1, db_call.
  rewrite Hdb. norm_world. rewrite Hcfg. reflexivity.
Qed.

(** What [saveWebhookConfig] does to the world. *)
Lemma saveWebhookConfig_run (env : Env) (body : Manage.RequestBody)
    (w w' : World) (out : result HttpResponse) :
  run env (Manage.saveWebhookConfig body) w = (w', out) ->
  match db_fails env (length (log w)) with
  | Some e => out = inl (Manage.error_response e) /\ store w' = store w
  | None =>
      out = inl (Manage.json_response 200
                   [("success", JBool true);
                    ("config", JObj (Manage.config_object (Manage.config_of_body body)))]) /\
      store w' = store_put (store w) webhook_key
                   (VWebhook (Manage.config_of_body body)) no_opts
  end.
Proof.
  intros Hrun. unfold Manage.saveWebhookConfig in Hrun. cbv zeta in Hrun.
  rewrite run_try_catch, run_bind, run_call in Hrun. unfold exec at 1, db_call in Hrun.
  destruct (db_fails env (length (log w))) as [e|]; norm_world_in Hrun;
    cbn [run] in Hrun; by simplify_eq.
Qed.

(** X17. Saving the configuration is all or nothing, and what was saved is
    what is read back. [saveWebhookConfig] always answers: with status 200
    when its one write succeeded, the store then holding under the webhook
    key the configuration built from the body (a missing field taking its
    default: disabled, empty secret, empty target channel), and with status
    500 and the message of the store when the write was rejected, the store
    then being as it was. After a save that answered 200, [getWebhookConfig]
    answers 200 with exactly the saved configuration, in any world whose
    store still holds it and answers. *)
Theorem saved_configuration_is_read_back (env : Env) (body : Manage.RequestBody)
    (w w' : World) (out : result HttpResponse) :
  run env (Manage.saveWebhookConfig body) w = (w', out) ->
  let config := Manage.config_of_body body in
  calls_since w w' = [Called (DbPut webhook_key (VWebhook config) no_opts)] /\
  match db_fails env (length (log w)) with
  | Some e => out = inl (Manage.error_response e) /\ store w' = store w
  | None =>
      out = inl (Manage.json_response 200
                   [("success", JBool true);
                    ("config", JObj (Manage.config_object config))]) /\
      store w' = store_put (store w) webhook_key (VWebhook config) no_opts /\
      forall (env2 : Env) (w2 : World),
        store_get (store w2) webhook_key = store_get (store w') webhook_key ->
        db_fails env2 (length (log w2)) = None ->
        snd (run env2 Manage.getWebhookConfig w2) =
        inl (Manage.json_response 200 (Manage.config_object config))
  end.
Proof.
  intros Hrun config. unfold Manage.saveWebhookConfig in Hrun. cbv zeta in Hrun.
  fold config in Hrun.
  rewrite run_try_catch, run_bind, run_call in Hrun. unfold exec at 1, db_call in Hrun.
  destruct (db_fails env (length (log w))) as [e|].
  - norm_world_in Hrun. cbn [run] in Hrun. simplify_eq. rewrite calls_since_mk.
    by repeat split.
  - norm_world_in Hrun. cbn [run] in Hrun. simplify_eq. rewrite calls_since_mk.
    split; [done|]. split; [done|]. split; [done|].
    intros env2 w2 Hsame Hdb. cbn [store] in Hsame.
    rewrite (getWebhookConfig_stored env2 w2 config); [done|done|].
    rewrite Hsame. unfold store_get, store_put. by rewrite lookup_insert_eq.
Qed.

Lemma saved_configuration_is_read_back_witness :
  exists w',
    run Sample.env
      (Manage.saveWebhookConfig (Cases.save_body (Some true) (Some "s3") None))
      Sample.world =
    (w', inl {| http_status := 200;
                http_body := BJson [("success", JBool true);
                                    ("config", JObj [("enabled", JBool true);
                                                     ("secretToken", JStr "s3");
                                                     ("targetChannel", JStr "")])] |}) /\
    calls_since Sample.world w' =
      [Called (DbPut webhook_key
                 (VWebhook {| enabled := true; secretToken := "s3"; targetChannel := "" |})
                 no_opts)].
Proof.
  assert (Hrun : exists w',
    run Sample.env
      (Manage.saveWebhookConfig (Cases.save_body (Some true) (Some "s3") None))
      Sample.world =
    (w', inl {| http_status := 200;
                http_body := BJson [("success", JBool true);
                                    ("config", JObj [("enabled", JBool true);
                                                     ("secretToken", JStr "s3");
                                                     ("targetChannel", JStr "")])] |})).
  { eexists. vm_compute. reflexivity. }
  destruct Hrun as [w' Hrun]. exists w'. split; [exact Hrun|].
  destruct (saved_configuration_is_read_back _ _ _ _ _ Hrun) as [Hcalls _].
  exact Hcalls.
Defined.

Lemma authorized_needs_secret (header : option string) (config : WebhookConfig) :
  secretToken config = "" -> Webhook.authorized header config = false.
Proof.
  unfold Webhook.authorized. intros ->. destruct header as [h|]; [|done].
  unfold truthy_str. by destruct (String.eqb h "").
Qed.

(** X18. What a saved configuration opens. After [saveWebhookConfig] has
    answered 200, the handler's gate is open exactly when the body had
    [enabled: true] and a non-empty [targetChannel], and the webhook
    endpoint lets a request through only if the body had [enabled: true]
    and the request carries, as its secret header, the non-empty
    [secretToken] of the body: a configuration saved without a secret
    lets no request through at all. While the gate is closed, a file event is
    answered [webhook_disabled] after the read of the configuration, which
    is its only call. *)
Theorem saved_configuration_gates (env : Env) (body : Manage.RequestBody) (w w' : World)
    (resp : HttpResponse) :
  run env (Manage.saveWebhookConfig body) w = (w', inl resp) ->
  http_status resp = 200 ->
  webhook_open (store w') =
    default false (Manage.b_enabled body) && truthy_opt_str (Manage.b_targetChannel body) /\
  (forall request,
     accepts (store w') request = true ->
     Manage.b_enabled body = Some true /\
     exists h, Webhook.req_secret request = Some h /\ h <> "" /\
               Manage.b_secretToken body = Some h) /\
  (forall env2 msg chatId file w2 w3 out,
     webhook_open (store w') = false ->
     store w2 = store w' ->
     run env2 (store_file msg chatId file) w2 = (w3, out) ->
     calls_since w2 w3 = [Called (DbGet webhook_key)] /\
     store w3 = store w2 /\
     forall r, out = inl r -> r = failure "webhook_disabled").
Proof.
  intros Hrun Hstatus.
  pose proof (saveWebhookConfig_run env body w w' (inl resp) Hrun) as Hsaved.
  destruct (db_fails env (length (log w))) as [e|].
  { destruct Hsaved as [Hout _]. injection Hout as ->. discriminate Hstatus. }
  destruct Hsaved as (_ & Hstore).
  assert (Hget : store_get (store w') webhook_key =
                 Some (VWebhook (Manage.config_of_body body))).
  { rewrite Hstore. unfold store_get, store_put. by rewrite lookup_insert_eq. }
  split.
  { unfold webhook_open. rewrite Hget. cbn [Manage.config_of_body enabled targetChannel].
    by destruct (Manage.b_targetChannel body). }
  split.
  { intros request Hacc. unfold accepts in Hacc. rewrite Hget in Hacc.
    apply andb_true_iff in Hacc as [_ Hacc]. apply andb_true_iff in Hacc as [Hen Hauth].
    cbn [Manage.config_of_body enabled] in Hen.
    split; [by destruct (Manage.b_enabled body) as [[]|]|].
    unfold Webhook.authorized in Hauth.
    destruct (Webhook.req_secret request) as [h|]; [|discriminate].
    apply andb_true_iff in Hauth as [Hne Heq]. apply String.eqb_eq in Heq.
    cbn [Manage.config_of_body secretToken] in Heq.
    exists h. split; [done|].
    assert (h <> "") as Hh.
    { intros ->. discriminate Hne. }
    split; [exact Hh|]. destruct (Manage.b_secretToken body) as [s|]; cbn in Heq; congruence. }
  intros env2 msg chatId file w2 w3 out Hclosed Hsame Hrun2.
  rewrite <- Hsame in Hclosed, Hget.
  unfold store_file in Hrun2. rewrite run_bind in Hrun2.
  destruct (run env2 (prepare chatId file) w2) as [w1 [p|e]] eqn:Hprep;
    destruct (prepare_closed env2 chatId file w2 w1 _ Hclosed Hprep) as (-> & Hres & _).
  - rewrite (Hres p eq_refl), Hget in Hrun2. cbn [run truthy_value] in Hrun2. simplify_eq.
    rewrite calls_since_mk. repeat split. by intros r [= <-].
  - simplify_eq. rewrite calls_since_mk. repeat split. intros r Hr. discriminate Hr.
Qed.

Lemma saved_configuration_gates_witness :
  exists w' resp,
    run Sample.env
      (Manage.saveWebhookConfig (Cases.save_body (Some true) None (Some "main")))
      Sample.world = (w', inl resp) /\
    webhook_open (store w') = true /\
    forall request, accepts (store w') request = true -> False.
Proof.
  assert (Hrun : exists w' resp,
    run Sample.env
      (Manage.saveWebhookConfig (Cases.save_body (Some true) None (Some "main")))
      Sample.world = (w', inl resp) /\ http_status resp = 200).
  { eexists _, _. split; vm_compute; reflexivity. }
  destruct Hrun as (w' & resp & Hrun & Hstatus).
  destruct (saved_configuration_gates _ _ _ _ _ Hrun Hstatus) as (Hopen & Hacc & _).
  exists w', resp. split; [exact Hrun|]. split; [exact Hopen|].
  intros request Hreq. destruct (Hacc request Hreq) as (_ & h & _ & _ & Hsecret).
  discriminate Hsecret.
Defined.

(* ===================================================================== *)
(** * The management API: the calls to Telegram                          *)
(* ===================================================================== *)

Lemma truthy_opt_str_Some (o : option string) :
  truthy_opt_str o = true -> exists s, o = Some s /\ s <> "" /\ truthy_str s = true.
Proof.
  destruct o as [s|]; [|discriminate]. cbn. intros H. exists s. split; [done|].
  split; [|done]. intros ->. discriminate H.
Qed.

Lemma authorized_iff (header : option string) (config : WebhookConfig) :
  secretToken config <> "" ->
  Webhook.authorized header config = true <-> header = Some (secretToken config).
Proof.
  intros Hne. unfold Webhook.authorized. destruct header as [h|]; [|done]. split.
  - intros H. apply andb_true_iff in H as [_ H]. apply String.eqb_eq in H. by subst.
  - intros [= ->]. apply andb_true_iff. split; [|apply String.eqb_refl].
    unfold truthy_str. apply negb_true_iff. by apply String.eqb_neq.
Qed.

(** X19. [setWebhook] enables the webhook only when Telegram has accepted
    it. The function always answers. It answers 200 only if the body named a
    non-empty URL, secret and target channel, the channel was found with a
    bot token, Telegram answered [ok] to [setWebhook(url, secret)] and the
    write succeeded; the store then holds the enabled configuration with
    that secret and channel, so that the handler's gate is open and the
    webhook endpoint lets through exactly the POST requests whose secret
    header is that secret. Otherwise it answers 400, 404 or 500 and the
    store is as it was. *)
Theorem setWebhook_enables_only_on_ok (env : Env) (telegram : Manage.Telegram)
    (body : Manage.RequestBody) (w w' : World) (out : result HttpResponse) :
  run env (Manage.setWebhook telegram body) w = (w', out) ->
  exists resp, out = inl resp /\
    ((http_status resp = 200 /\
      exists url secret target channel result,
        Manage.b_webhookUrl body = Some url /\ url <> "" /\
        Manage.b_secretToken body = Some secret /\ secret <> "" /\
        Manage.b_targetChannel body = Some target /\ target <> "" /\
        channel_in (store w) target = Some channel /\
        ch_botToken channel <> "" /\
        telegram (new_TelegramAPI channel) (Manage.SetWebhook url secret) = inl result /\
        truthy (get_field result "ok") = true /\
        store w' = store_put (store w) webhook_key
                     (VWebhook {| enabled := true; secretToken := secret;
                                  targetChannel := target |}) no_opts /\
        webhook_open (store w') = true /\
        forall request,
          accepts (store w') request = true <->
          Webhook.req_method request = "POST" /\ Webhook.req_secret request = Some secret) \/
     (http_status resp ∈ [400; 404; 500] /\ store w' = store w)).
Proof.
  intros Hrun. unfold Manage.setWebhook in Hrun. rewrite run_try_catch in Hrun.
  destruct (negb (truthy_opt_str (Manage.b_webhookUrl body)) ||
            negb (truthy_opt_str (Manage.b_secretToken body)) ||
            negb (truthy_opt_str (Manage.b_targetChannel body)))%bool eqn:Hparams.
  { cbn [run] in Hrun. simplify_eq. eexists. split; [reflexivity|]. right.
    split; [in_list|done]. }
  apply orb_false_iff in Hparams as [Hparams Htarget].
  apply orb_false_iff in Hparams as [Hurl Hsecret].
  apply negb_false_iff, truthy_opt_str_Some in Hurl as (url & Hurl & Hurl_ne & _).
  apply negb_false_iff, truthy_opt_str_Some in Hsecret as (secret & Hsecret & Hsecret_ne & _).
  apply negb_false_iff, truthy_opt_str_Some in Htarget as (target & Htarget & Htarget_ne & Htt).
  rewrite Hurl, Hsecret, Htarget in Hrun. cbn [default] in Hrun. cbv zeta in Hrun.
  simpl (from_option _ _ _) in Hrun. unfold id in Hrun.
  rewrite run_bind in Hrun.
  destruct (run env (getTelegramChannel target) w) as [w1 [[channel|]|e]] eqn:Hch;
    apply getTelegramChannel_run in Hch as [-> Hch].
  2:{ cbn [run] in Hrun. simplify_eq. eexists. split; [reflexivity|]. right.
      split; [in_list|done]. }
  2:{ cbn [run] in Hrun. simplify_eq. eexists. split; [reflexivity|]. right.
      split; [in_list|done]. }
  specialize (Hch _ eq_refl).
  destruct (negb (truthy_str (ch_botToken channel))) eqn:Htoken.
  { cbn [run] in Hrun. simplify_eq. eexists. split; [reflexivity|]. right.
    split; [in_list|done]. }
  rewrite run_bind in Hrun.
  destruct (telegram (new_TelegramAPI channel) (Manage.SetWebhook url secret))
    as [result|e] eqn:Htg; cbn [Manage.await run] in Hrun.
  2:{ simplify_eq. eexists. split; [reflexivity|]. right. split; [in_list|done]. }
  destruct (truthy (get_field result "ok")) eqn:Hok.
  2:{ cbn [run] in Hrun. simplify_eq. eexists. split; [reflexivity|]. right.
      split; [in_list|done]. }
  rewrite run_bind, run_call in Hrun. unfold exec at 1, db_call in Hrun.
  case_db Hrun; norm_world_in Hrun; cbn [run] in Hrun; simplify_eq.
  { eexists. split; [reflexivity|]. right. split; [in_list|done]. }
  eexists. split; [reflexivity|]. left. split; [done|].
  exists url, secret, target, channel, result.
  assert (Hget : store_get
                   (store_put (store w) webhook_key
                      (VWebhook {| enabled := true; secretToken := secret;
                                   targetChannel := target |}) no_opts) webhook_key =
                 Some (VWebhook {| enabled := true; secretToken := secret;
                                   targetChannel := target |})).
  { unfold store_get, store_put. by rewrite lookup_insert_eq. }
  repeat (split; [done|]).
  split.
  { intros Hempty. apply negb_false_iff in Htoken. rewrite Hempty in Htoken.
    discriminate Htoken. }
  repeat (split; [done|]). cbn [store].
  split.
  { unfold webhook_open. rewrite Hget. cbn [enabled targetChannel andb]. exact Htt. }
  intros request. unfold accepts. rewrite Hget. cbn [enabled andb].
  rewrite andb_true_iff, String.eqb_eq.
  rewrite (authorized_iff _ {| enabled := true; secretToken := secret;
                               targetChannel := target |}) by done.
  reflexivity.
Qed.

(** A status in a list of statuses that does not contain it. *)
Ltac not_in_list H :=
  repeat (apply elem_of_cons in H as [H|H]; [discriminate H|]);
  by apply elem_of_nil in H.

Lemma setWebhook_enables_only_on_ok_witness :
  exists w' resp,
    run Sample.env (Manage.setWebhook Cases.telegram_ok Cases.set_body) Sample.world =
      (w', inl resp) /\
    http_status resp = 200 /\
    accepts (store w') (Cases.request "POST" (Some "s3")) = true.
Proof.
  assert (Hrun : exists w' resp,
    run Sample.env (Manage.setWebhook Cases.telegram_ok Cases.set_body) Sample.world =
      (w', inl resp) /\ http_status resp = 200).
  { eexists _, _. split; vm_compute; reflexivity. }
  destruct Hrun as (w' & resp & Hrun & Hstatus).
  exists w', resp. split; [exact Hrun|]. split; [exact Hstatus|].
  destruct (setWebhook_enables_only_on_ok _ _ _ _ _ _ Hrun)
    as (resp' & Hout & [(_ & url & secret & target & channel & result & _ & _ & Hsecret &
                         _ & _ & _ & _ & _ & _ & _ & _ & _ & Hacc)|[Hst _]]);
    injection Hout as <-.
  - injection Hsecret as <-. apply Hacc. split; reflexivity.
  - rewrite Hstatus in Hst. not_in_list Hst.
Defined.

(** X20. [deleteWebhook] disables the webhook and keeps the rest. The
    function always answers. It answers 200 only if a configuration was
    stored, its target channel was found, Telegram answered [ok] to
    [deleteWebhook()] and the write succeeded; the store then holds the same
    secret and target channel with [enabled] false, so that the handler's
    gate is closed and the webhook endpoint lets no request through.
    Otherwise it answers 400, 404 or 500 and the store is as it was: a
    webhook that Telegram refuses to delete stays enabled locally. *)
Theorem deleteWebhook_disables_and_keeps (env : Env) (telegram : Manage.Telegram)
    (w w' : World) (out : result HttpResponse) :
  run env (Manage.deleteWebhook telegram) w = (w', out) ->
  exists resp, out = inl resp /\
    ((http_status resp = 200 /\
      exists config channel result,
        store_get (store w) webhook_key = Some (VWebhook config) /\
        channel_in (store w) (targetChannel config) = Some channel /\
        telegram (new_TelegramAPI channel) Manage.DeleteWebhook = inl result /\
        truthy (get_field result "ok") = true /\
        store w' = store_put (store w) webhook_key
                     (VWebhook {| enabled := false; secretToken := secretToken config;
                                  targetChannel := targetChannel config |}) no_opts /\
        webhook_open (store w') = false /\
        forall request, accepts (store w') request = false) \/
     (http_status resp ∈ [400; 404; 500] /\ store w' = store w)).
Proof.
  intros Hrun. unfold Manage.deleteWebhook in Hrun.
  rewrite run_try_catch, run_bind, run_call in Hrun. unfold exec at 1, db_call in Hrun.
  case_db Hrun; norm_world_in Hrun.
  { cbn [run] in Hrun. simplify_eq. eexists. split; [reflexivity|]. right.
    split; [in_list|done]. }
  destruct (negb (truthy_value _)).
  { cbn [run] in Hrun. simplify_eq. eexists. split; [reflexivity|]. right.
    split; [in_list|done]. }
  rewrite run_bind in Hrun.
  destruct (run env (JSON_parse_webhook _) _) as [w0 [config|e]] eqn:Hparse;
    apply JSON_parse_webhook_run in Hparse as [-> Hcfg].
  2:{ cbn [run] in Hrun. simplify_eq. eexists. split; [reflexivity|]. right.
      split; [in_list|done]. }
  specialize (Hcfg _ eq_refl). cbv zeta in Hrun. rewrite run_bind in Hrun.
  destruct (run env (getTelegramChannel _) _) as [w1 [[channel|]|e]] eqn:Hch;
    apply getTelegramChannel_run in Hch as [-> Hch]; norm_world_in Hrun.
  2:{ cbn [run] in Hrun. simplify_eq. eexists. split; [reflexivity|]. right.
      split; [in_list|done]. }
  2:{ cbn [run] in Hrun. simplify_eq. eexists. split; [reflexivity|]. right.
      split; [in_list|done]. }
  specialize (Hch _ eq_refl). cbn [store] in Hch.
  rewrite run_bind in Hrun.
  destruct (telegram (new_TelegramAPI channel) Manage.DeleteWebhook)
    as [result|e] eqn:Htg; cbn [Manage.await run] in Hrun.
  2:{ simplify_eq. eexists. split; [reflexivity|]. right. split; [in_list|done]. }
  destruct (truthy (get_field result "ok")) eqn:Hok.
  2:{ cbn [run] in Hrun. simplify_eq. eexists. split; [reflexivity|]. right.
      split; [in_list|done]. }
  rewrite run_bind, run_call in Hrun. unfold exec at 1, db_call in Hrun.
  case_db Hrun; norm_world_in Hrun; cbn [run] in Hrun; simplify_eq.
  { eexists. split; [reflexivity|]. right. split; [in_list|done]. }
  eexists. split; [reflexivity|]. left. split; [done|].
  exists config, channel, result.
  repeat (split; [done|]). cbn [store].
  assert (Hget : store_get
                   (store_put (store w) webhook_key
                      (VWebhook {| enabled := false; secretToken := secretToken config;
                                   targetChannel := targetChannel config |}) no_opts)
                   webhook_key =
                 Some (VWebhook {| enabled := false; secretToken := secretToken config;
                                   targetChannel := targetChannel config |})).
  { unfold store_get, store_put. by rewrite lookup_insert_eq. }
  split.
  { unfold webhook_open. by rewrite Hget. }
  intros request. unfold accepts. rewrite Hget. cbn [enabled andb]. apply andb_false_r.
Qed.

Lemma deleteWebhook_disables_and_keeps_witness :
  exists w' resp,
    run Sample.env (Manage.deleteWebhook Cases.telegram_ok) Sample.world = (w', inl resp) /\
    http_status resp = 200 /\
    store_get (store w') webhook_key =
      Some (VWebhook {| enabled := false; secretToken := "secret";
                        targetChannel := "main" |}) /\
    accepts (store w') (Cases.request "POST" (Some "secret")) = false.
Proof.
  assert (Hrun : exists w' resp,
    run Sample.env (Manage.deleteWebhook Cases.telegram_ok) Sample.world = (w', inl resp) /\
    http_status resp = 200 /\
    store_get (store w') webhook_key =
      Some (VWebhook {| enabled := false; secretToken := "secret";
                        targetChannel := "main" |})).
  { eexists _, _. split; [vm_compute; reflexivity|]. split; vm_compute; reflexivity. }
  destruct Hrun as (w' & resp & Hrun & Hstatus & Hget).
  exists w', resp. split; [exact Hrun|]. split; [exact Hstatus|]. split; [exact Hget|].
  destruct (deleteWebhook_disables_and_keeps _ _ _ _ _ Hrun)
    as (resp' & Hout & [(_ & config & channel & result & _ & _ & _ & _ & _ & _ & Hacc)|
                        [Hst _]]);
    injection Hout as <-.
  - apply Hacc.
  - rewrite Hstatus in Hst. not_in_list Hst.
Defined.

Lemma getWebhookInfo_quiet (telegram : Manage.Telegram) :
  all_ops (fun c => quiet c = true) (Manage.getWebhookInfo telegram).
Proof.
  unfold Manage.getWebhookInfo, JSON_parse_webhook, Manage.await.
  repeat first
    [ lazymatch goal with
      | |- all_ops _ (getTelegramChannel _) => apply getTelegramChannel_quiet
      end
    | all_ops_step ]; done.
Qed.

Lemma getWebhookConfig_quiet :
  all_ops (fun c => quiet c = true) Manage.getWebhookConfig.
Proof.
  unfold Manage.getWebhookConfig, JSON_parse_webhook. repeat all_ops_step; done.
Qed.

(** A lookup of the channel that returns has read the store. *)
Lemma getTelegramChannel_answered (env : Env) (channelName : string) (w w' : World)
    (o : option Channel) :
  run env (getTelegramChannel channelName) w = (w', inl o) ->
  db_fails env (length (log w)) = None.
Proof.
  unfold getTelegramChannel. intros Hrun.
  rewrite run_bind, run_call in Hrun. unfold exec at 1, db_call in Hrun.
  case_db Hrun; [by simplify_eq|done].
Qed.

(** [getWebhookInfo] when everything it asks for is there. *)
Lemma getWebhookInfo_found (env : Env) (telegram : Manage.Telegram) (w : World)
    (config : WebhookConfig) (channel : Channel) (result : object) :
  db_fails env (length (log w)) = None ->
  db_fails env (S (length (log w))) = None ->
  store_get (store w) webhook_key = Some (VWebhook config) ->
  channel_in (store w) (targetChannel config) = Some channel ->
  telegram (new_TelegramAPI channel) Manage.GetWebhookInfo = inl result ->
  snd (run env (Manage.getWebhookInfo telegram) w) =
  inl (Manage.json_response 200
         [("success", JBool true);
          ("localConfig", JObj (Manage.config_object config));
          ("telegramInfo", JObj result)]).
Proof.
  intros Hdb1 Hdb2 Hcfg Hch Htg. unfold Manage.getWebhookInfo.
  rewrite run_try_catch, run_bind, run_call. unfold exec at 1, db_call.
  rewrite Hdb1. norm_world. rewrite Hcfg. cbn [truthy_value negb JSON_parse_webhook bind].
  cbv zeta. rewrite run_bind.
  rewrite (getTelegramChannel_found env _ _ channel).
  - rewrite run_bind, Htg. reflexivity.
  - cbn [log]. rewrite length_app. cbn [length]. by rewrite Nat.add_1_r.
  - exact Hch.
Qed.

(** X21. [getWebhookInfo] only reads, and passes on what Telegram says.
    The function always answers, with 200, 404 or 500, and leaves the store
    as it was. It answers 200 exactly when the two reads of the store
    succeeded, a configuration was stored, its target channel was found and
    the call to Telegram returned, in both directions; the body then
    carries the stored configuration and the answer of Telegram as it came,
    whether or not that answer says [ok]. *)
Theorem getWebhookInfo_reads_only (env : Env) (telegram : Manage.Telegram)
    (w w' : World) (out : result HttpResponse) :
  run env (Manage.getWebhookInfo telegram) w = (w', out) ->
  store w' = store w /\
  Forall (fun c => quiet c = true) (calls_since w w') /\
  exists resp, out = inl resp /\
    http_status resp ∈ [200; 404; 500] /\
    (http_status resp = 200 <->
     exists config channel result,
       db_fails env (length (log w)) = None /\
       db_fails env (S (length (log w))) = None /\
       store_get (store w) webhook_key = Some (VWebhook config) /\
       channel_in (store w) (targetChannel config) = Some channel /\
       telegram (new_TelegramAPI channel) Manage.GetWebhookInfo = inl result) /\
    (forall config channel result,
       http_status resp = 200 ->
       store_get (store w) webhook_key = Some (VWebhook config) ->
       channel_in (store w) (targetChannel config) = Some channel ->
       telegram (new_TelegramAPI channel) Manage.GetWebhookInfo = inl result ->
       resp = Manage.json_response 200
                [("success", JBool true);
                 ("localConfig", JObj (Manage.config_object config));
                 ("telegramInfo", JObj result)]).
Proof.
  intros Hrun.
  split; [exact (quiet_store env _ (getWebhookInfo_quiet telegram) _ _ _ Hrun)|].
  split; [exact (all_ops_run env _ _ (getWebhookInfo_quiet telegram) _ _ _ Hrun)|].
  assert (Hcases : exists resp, out = inl resp /\
            ((exists config channel result,
                db_fails env (length (log w)) = None /\
                db_fails env (S (length (log w))) = None /\
                store_get (store w) webhook_key = Some (VWebhook config) /\
                channel_in (store w) (targetChannel config) = Some channel /\
                telegram (new_TelegramAPI channel) Manage.GetWebhookInfo = inl result) \/
             http_status resp ∈ [404; 500])).
  { unfold Manage.getWebhookInfo in Hrun.
    rewrite run_try_catch, run_bind, run_call in Hrun. unfold exec at 1, db_call in Hrun.
    case_db Hrun; norm_world_in Hrun.
    { cbn [run] in Hrun. simplify_eq. eexists. split; [reflexivity|]. right. in_list. }
    destruct (negb (truthy_value _)).
    { cbn [run] in Hrun. simplify_eq. eexists. split; [reflexivity|]. right. in_list. }
    rewrite run_bind in Hrun.
    destruct (run env (JSON_parse_webhook _) _) as [w0 [config|e]] eqn:Hparse;
      apply JSON_parse_webhook_run in Hparse as [-> Hcfg].
    2:{ cbn [run] in Hrun. simplify_eq. eexists. split; [reflexivity|]. right. in_list. }
    specialize (Hcfg _ eq_refl). cbv zeta in Hrun. rewrite run_bind in Hrun.
    destruct (run env (getTelegramChannel _) _) as [w1 [[channel|]|e]] eqn:Hch;
      pose proof Hch as Hanswer;
      apply getTelegramChannel_run in Hch as [-> Hch]; norm_world_in Hrun.
    2:{ cbn [run] in Hrun. simplify_eq. eexists. split; [reflexivity|]. right. in_list. }
    2:{ cbn [run] in Hrun. simplify_eq. eexists. split; [reflexivity|]. right. in_list. }
    apply getTelegramChannel_answered in Hanswer. cbn [log] in Hanswer.
    rewrite length_app, Nat.add_1_r in Hanswer.
    specialize (Hch _ eq_refl). cbn [store] in Hch.
    rewrite run_bind in Hrun.
    destruct (telegram (new_TelegramAPI channel) Manage.GetWebhookInfo)
      as [result|e] eqn:Htg; cbn [Manage.await run] in Hrun; simplify_eq.
    2:{ eexists. split; [reflexivity|]. right. in_list. }
    eexists. split; [reflexivity|]. left. by exists config, channel, result. }
  destruct Hcases as (resp & -> & Hcases). exists resp. split; [reflexivity|].
  assert (Hfound : forall config channel result,
            db_fails env (length (log w)) = None ->
            db_fails env (S (length (log w))) = None ->
            store_get (store w) webhook_key = Some (VWebhook config) ->
            channel_in (store w) (targetChannel config) = Some channel ->
            telegram (new_TelegramAPI channel) Manage.GetWebhookInfo = inl result ->
            resp = Manage.json_response 200
                     [("success", JBool true);
                      ("localConfig", JObj (Manage.config_object config));
                      ("telegramInfo", JObj result)]).
  { intros config channel result Hdb1 Hdb2 Hcfg Hch Htg.
    pose proof (getWebhookInfo_found env telegram w config channel result
                  Hdb1 Hdb2 Hcfg Hch Htg) as Hsnd.
    rewrite Hrun in Hsnd. cbn [snd] in Hsnd. congruence. }
  assert (Hnot : http_status resp ∈ [404; 500] -> http_status resp <> 200).
  { intros Hin H200. rewrite H200 in Hin. not_in_list Hin. }
  split; [|split; [split|]].
  - destruct Hcases as [(config & channel & result & H1 & H2 & H3 & H4 & H5)|Hin].
    + rewrite (Hfound _ _ _ H1 H2 H3 H4 H5). in_list.
    + apply list_elem_of_further. exact Hin.
  - intros H200. destruct Hcases as [Hex|Hin]; [exact Hex|]. by destruct (Hnot Hin).
  - intros (config & channel & result & H1 & H2 & H3 & H4 & H5).
    by rewrite (Hfound _ _ _ H1 H2 H3 H4 H5).
  - intros config channel result H200 Hcfg Hch Htg.
    destruct Hcases as [(config' & channel' & result' & H1 & H2 & H3 & H4 & H5)|Hin];
      [|by destruct (Hnot Hin)].
    apply (Hfound _ _ _ H1 H2 Hcfg Hch Htg).
Qed.

Lemma getWebhookInfo_reads_only_witness :
  let res := run Sample.env (Manage.getWebhookInfo Cases.telegram_refuses) Sample.world in
  store (fst res) = Sample.configured /\
  exists resp, snd res = inl resp /\ http_status resp = 200.
Proof.
  intros res.
  destruct (getWebhookInfo_reads_only Sample.env Cases.telegram_refuses Sample.world
              (fst res) (snd res)) as (Hstore & _).
  - apply surjective_pairing.
  - split; [exact Hstore|]. eexists. split; vm_compute; reflexivity.
Defined.

(** A [try] whose [catch] returns never throws. *)
Lemma try_catch_responds (env : Env) {A : Type} (p : Prog A) (f : string -> A)
    (w w' : World) (out : result A) :
  run env (try_catch p (fun e => Ret (f e))) w = (w', out) -> exists a, out = inl a.
Proof.
  rewrite run_try_catch. destruct (run env p w) as [w1 [a|e]]; cbn [run];
    intros; simplify_eq; eauto.
Qed.

(** X22. The routing of the management endpoint. A GET only reads: the
    store is as it was and no call writes, sends or schedules, whatever the
    [action] parameter. A method other than GET and POST is answered 405, and
    a POST whose body is not [null] and whose action is none of [setWebhook],
    [deleteWebhook] and [saveConfig] is answered 400, both without any call.
    The endpoint throws in exactly two cases, both of a POST, whose body is
    read outside every [try]: the body is not JSON, and the error of
    [request.json()] escapes; or the body is the JSON value [null], and the
    [TypeError] of [body.action] escapes. In both it has made no call. *)
Theorem manage_onRequest_routing (env : Env) (telegram : Manage.Telegram)
    (request : Manage.Request) (w w' : World) (out : result HttpResponse) :
  run env (Manage.onRequest telegram request) w = (w', out) ->
  (forall e, out = inr e <->
             Manage.req_method request = "POST" /\
             (Manage.req_json request = inr e \/
              Manage.req_json request = inl None /\ e = Manage.null_body)) /\
  (forall e, out = inr e -> w' = w) /\
  (Manage.req_method request = "GET" ->
   store w' = store w /\ Forall (fun c => quiet c = true) (calls_since w w')) /\
  (Manage.req_method request <> "GET" -> Manage.req_method request <> "POST" ->
   w' = w /\
   out = inl {| http_status := 405; http_body := BText "Method not allowed" |}) /\
  (forall body,
     Manage.req_method request = "POST" -> Manage.req_json request = inl (Some body) ->
     Manage.b_action body ∉ [Some "setWebhook"; Some "deleteWebhook"; Some "saveConfig"] ->
     w' = w /\ out = inl (Manage.json_response 400 [("error", JStr "Invalid action")])).
Proof.
  intros Hrun. unfold Manage.onRequest in Hrun.
  destruct (String.eqb_spec (Manage.req_method request) "GET") as [Hget|Hget].
  { (* GET *)
    assert (Hquiet : store w' = store w /\
                     Forall (fun c => quiet c = true) (calls_since w w') /\
                     exists resp, out = inl resp).
    { destruct (Manage.is_action _ _).
      - split; [exact (quiet_store env _ (getWebhookInfo_quiet telegram) _ _ _ Hrun)|].
        split; [exact (all_ops_run env _ _ (getWebhookInfo_quiet telegram) _ _ _ Hrun)|].
        by eapply try_catch_responds.
      - split; [exact (quiet_store env _ getWebhookConfig_quiet _ _ _ Hrun)|].
        split; [exact (all_ops_run env _ _ getWebhookConfig_quiet _ _ _ Hrun)|].
        by eapply try_catch_responds. }
    destruct Hquiet as (Hstore & Hcalls & resp & ->).
    split.
    { intros e. split; [discriminate|]. intros [Hpost _]. congruence. }
    split; [intros e; discriminate|]. split; [done|].
    split; [done|]. intros body Hpost. congruence. }
  destruct (String.eqb_spec (Manage.req_method request) "POST") as [Hpost|Hpost].
  2:{ cbn [run] in Hrun. simplify_eq.
      split; [intros e; split; [discriminate|by intros [? _]]|].
      split; [done|]. split; [done|]. split; [done|]. done. }
  rewrite run_bind in Hrun.
  destruct (Manage.req_json request) as [[body|]|e0] eqn:Hjson;
    cbn [Manage.await run] in Hrun.
  - (* an object, or another value that is not null *)
    rewrite run_bind in Hrun. cbn [run] in Hrun.
    assert (Hresp : exists resp, out = inl resp).
    { cbv zeta in Hrun.
      destruct (Manage.is_action _ "setWebhook"); [by eapply try_catch_responds|].
      destruct (Manage.is_action _ "deleteWebhook"); [by eapply try_catch_responds|].
      destruct (Manage.is_action _ "saveConfig"); [by eapply try_catch_responds|].
      cbn [run] in Hrun. simplify_eq. eauto. }
    destruct Hresp as [resp ->].
    split.
    { intros e. split; [discriminate|]. by intros [_ [?|[? _]]]. }
    split; [intros e; discriminate|]. split; [done|]. split; [done|].
    intros body' _ [= <-] Haction. cbv zeta in Hrun.
    assert (Hno : forall name, Some name ∈ [Some "setWebhook"; Some "deleteWebhook";
                                            Some "saveConfig"] ->
                               Manage.is_action (Manage.b_action body) name = false).
    { intros name Hin. unfold Manage.is_action.
      destruct (Manage.b_action body) as [a|]; [|done].
      apply String.eqb_neq. intros ->. by apply Haction. }
    rewrite !Hno in Hrun by in_list. cbn [run] in Hrun. by simplify_eq.
  - (* null *)
    rewrite run_bind in Hrun. cbn [run] in Hrun. simplify_eq. split.
    { intros e. split; [intros [= <-]; split; [done|by right]|].
      by intros [_ [?|[_ ->]]]. }
    split; [done|]. split; [done|]. split; [done|]. intros body _ Hbody. discriminate.
  - (* not JSON *)
    simplify_eq. split.
    { intros e. split; [intros [= ->]; split; [done|by left]|].
      by intros [_ [[= ->]|[? _]]]. }
    split; [done|]. split; [done|]. split; [done|]. intros body _ Hbody. discriminate.
Qed.

Lemma manage_onRequest_routing_witness :
  run Sample.env
    (Manage.onRequest Cases.telegram_ok
       {| Manage.req_method := "POST"; Manage.req_action := None;
          Manage.req_json := inl None |})
    Sample.world =
  (Sample.world, inr Manage.null_body).
Proof.
  set (request := {| Manage.req_method := "POST"; Manage.req_action := None;
                     Manage.req_json := inl None |}).
  set (res := run Sample.env (Manage.onRequest Cases.telegram_ok request) Sample.world).
  destruct (manage_onRequest_routing Sample.env Cases.telegram_ok request Sample.world
              (fst res) (snd res)) as (Hthrow & Hworld & _).
  - apply surjective_pairing.
  - assert (H2 : snd res = inr Manage.null_body)
      by (apply Hthrow; split; [reflexivity|right; split; reflexivity]).
    assert (H1 : fst res = Sample.world) by (apply (Hworld _ H2)).
    transitivity (fst res, snd res); [apply surjective_pairing|].
    rewrite H1, H2. reflexivity.
Defined.

(* ===================================================================== *)
(** * A stored file is recognised when it arrives again                   *)
(* ===================================================================== *)

(** The store after a single file has been stored. *)
Lemma store_file_single_store (env : Env) (msg : Message) (chatId : string)
    (file : FileInfo) (w w' : World) (r : object) :
  run env (store_file msg chatId file) w = (w', inl r) ->
  get_field r "success" = JBool true ->
  group_of (media_group_id msg) = None ->
  exists config fullId meta,
    store_get (store w) webhook_key = Some (VWebhook config) /\
    webhook_open (store w) = true /\
    r = success_result fullId meta (media_group_id msg) /\
    get_field meta "TgFileId" = JStr (fileId file) /\
    store w' = store_put (store w) fullId (VText "") (file_opts meta).
Proof.
  intros Hrun Hsuccess Hgroup. unfold store_file in Hrun. rewrite run_bind in Hrun.
  destruct (run env (prepare chatId file) w)
    as [w1 [[r1|[[[config channel] uploadDir] fullId]]|e1]] eqn:Hprep;
    [| |discriminate].
  { cbn [run] in Hrun. simplify_eq.
    pose proof (all_rets_run env _ _ (prepare_early_failure chatId file) _ _ _ Hprep r eq_refl).
    congruence. }
  destruct (prepare_ready env chatId file w w1 config channel uploadDir fullId Hprep)
    as [Hstore _].
  apply prepare_ready_context in Hprep as (Hcfg & Hopen & _).
  unfold write_and_reply in Hrun. rewrite run_bind, run_call in Hrun.
  cbn [exec] in Hrun. rewrite run_bind, primary_write_run in Hrun.
  set (meta := build_metadata channel config file chatId fullId
                 (clock env (length (log w1))) (media_group_id msg)) in *.
  rewrite Hgroup in Hrun. norm_world_in Hrun.
  case_db Hrun.
  { cbn [run] in Hrun. by simplify_eq. }
  rewrite (index_and_reply_single env msg chatId channel uploadDir fullId meta _ Hgroup)
    in Hrun.
  norm_world_in Hrun. simplify_eq.
  exists config, fullId, meta. split; [exact Hcfg|]. split; [exact Hopen|].
  split; [done|]. split.
  - apply (build_metadata_fields channel config file chatId fullId).
  - cbn [store]. by rewrite Hstore.
Qed.

(** X23. A single file that has been stored is recognised when its origin
    file identifier arrives again. After a success for a file event without
    a media group (the allocated key not being the key of the webhook
    configuration), the entry written records the origin file identifier;
    and any later file event with the same origin file identifier, from any
    chat, that finds the store as the first one left it is refused: the
    store stays as it was, nothing is allocated, written or sent, and the
    result is [already_saved] naming a stored entry with that origin, or
    a failed store read is thrown. *)
Theorem stored_file_is_recognised_again (env env2 : Env) (msg msg2 : Message)
    (chatId chatId2 : string) (file file2 : FileInfo) (w w' w2 w3 : World)
    (r : object) (out : result object) :
  run env (store_file msg chatId file) w = (w', inl r) ->
  get_field r "success" = JBool true ->
  group_of (media_group_id msg) = None ->
  get_field r "fileId" <> JStr webhook_key ->
  fileId file2 = fileId file ->
  store w2 = store w' ->
  run env2 (store_file msg2 chatId2 file2) w2 = (w3, out) ->
  (exists fullId, get_field r "fileId" = JStr fullId /\
                  records_origin (store w') fullId (fileId file) = true) /\
  store w3 = store w2 /\
  Forall (fun c => quiet c = true) (calls_since w2 w3) /\
  count is_allocate (calls_since w2 w3) = 0%nat /\
  match out with
  | inl r2 =>
      exists k, r2 = [("success", JBool false); ("reason", JStr "already_saved");
                      ("existingFileId", JStr k)] /\
                records_origin (store w2) k (fileId file) = true
  | inr e => exists n, db_fails env2 n = Some e
  end.
Proof.
  intros Hrun Hsuccess Hgroup Hkey Hsame Hstore Hrun2.
  destruct (store_file_single_store env msg chatId file w w' r Hrun Hsuccess Hgroup)
    as (config & fullId & meta & Hcfg & Hopen & -> & Hfid & Hw').
  cbn [get_field success_result String.eqb Ascii.eqb Bool.eqb] in Hkey.
  change (get_field (success_result fullId meta (media_group_id msg)) "fileId")
    with (JStr fullId) in Hkey |- *.
  assert (Hne : fullId <> webhook_key) by congruence.
  assert (Hrec : records_origin (store w') fullId (fileId file) = true).
  { rewrite Hw'. unfold records_origin, store_getWithMetadata, store_put.
    rewrite lookup_insert_eq. cbn [fd_metadata metadata file_opts po_metadata opt_field].
    rewrite Hfid. cbn [strict_eq_str]. apply String.eqb_refl. }
  split; [by exists fullId|].
  assert (Hcfg2 : store_get (store w2) webhook_key = Some (VWebhook config)).
  { rewrite Hstore, Hw'. unfold store_get, store_put.
    rewrite lookup_insert_ne by done. exact Hcfg. }
  unfold webhook_open in Hopen. rewrite Hcfg in Hopen.
  apply andb_true_iff in Hopen as [Hen Htarget].
  unfold store_file in Hrun2. rewrite run_bind in Hrun2.
  destruct (run env2 (prepare chatId2 file2) w2) as [w4 p] eqn:Hprep.
  pose proof (quiet_run env2 _ _ _ _ (prepare_quiet chatId2 file2) Hprep)
    as (Hs4 & d & Hd & Hq).
  rewrite <- Hstore, <- Hsame in Hrec.
  destruct (prepare_duplicate env2 chatId2 file2 w2 w4 p config fullId
              Hcfg2 Hen Htarget Hrec Hprep) as [Halloc Hout].
  destruct p as [[r2|ready]|e]; [| |]; cbn [run] in Hrun2; simplify_eq.
  - split; [done|]. split; [by rewrite (calls_since_extends _ _ _ Hd)|].
    split; [done|]. destruct Hout as (k & -> & Hk). exists k.
    split; [done|]. by rewrite <- Hsame.
  - split; [done|]. split; [by rewrite (calls_since_extends _ _ _ Hd)|]. by split.
Qed.

Lemma stored_file_is_recognised_again_witness :
  exists w3,
    run Sample.env (store_file (Sample.photo_message None) "7" Cases.repeated_file)
      Sample.one_arrival =
    (w3, inl [("success", JBool false); ("reason", JStr "already_saved");
              ("existingFileId", JStr "photo_2024-01-02_1.jpg")]) /\
    store w3 = store Sample.one_arrival /\
    count is_allocate (calls_since Sample.one_arrival w3) = 0%nat.
Proof.
  assert (Hfirst : exists w' r,
    run Sample.env (store_file (Sample.photo_message None) "42" Sample.photo_file)
      {| store := Sample.configured;
         log := [Called DateISO; Called DateNow] |} = (w', inl r) /\
    get_field r "success" = JBool true /\
    get_field r "fileId" = JStr "photo_2024-01-02_1.jpg" /\
    store Sample.one_arrival = store w').
  { eexists _, _. split; [vm_compute; reflexivity|].
    split; [reflexivity|]. split; [reflexivity|]. vm_compute. reflexivity. }
  destruct Hfirst as (w' & r & Hrun & Hsuccess & Hid & Hstore).
  assert (Hsecond : exists w3,
    run Sample.env (store_file (Sample.photo_message None) "7" Cases.repeated_file)
      Sample.one_arrival =
    (w3, inl [("success", JBool false); ("reason", JStr "already_saved");
              ("existingFileId", JStr "photo_2024-01-02_1.jpg")])).
  { eexists. vm_compute. reflexivity. }
  destruct Hsecond as (w3 & Hrun2).
  exists w3. split; [exact Hrun2|].
  destruct (stored_file_is_recognised_again Sample.env Sample.env
              (Sample.photo_message None) (Sample.photo_message None) "42" "7"
              Sample.photo_file Cases.repeated_file _ w' Sample.one_arrival w3 r
              (inl [("success", JBool false); ("reason", JStr "already_saved");
                    ("existingFileId", JStr "photo_2024-01-02_1.jpg")])
              Hrun Hsuccess) as (_ & Hs & _ & Halloc & _).
  - reflexivity.
  - rewrite Hid. discriminate.
  - reflexivity.
  - exact Hstore.
  - exact Hrun2.
  - split; [exact Hs|exact Halloc].
Defined.

(* ===================================================================== *)
(** * The index update is best effort                                     *)
(* ===================================================================== *)

(** A program that does not call [endUpload] does not depend on it. *)
Lemma run_without_endUpload (env : Env) (fails : nat -> option string) {A : Type}
    (p : Prog A) :
  all_ops (fun c => is_endUpload c = false) p ->
  forall w, run (with_endUpload env fails) p w = run env p w.
Proof.
  induction 1 as [a|e|X op k Hop _ IH]; intros w; cbn [run]; try reflexivity.
  assert (Hexec : exec (with_endUpload env fails) op w = exec env op w).
  { destruct op; try reflexivity. discriminate Hop. }
  rewrite Hexec. destruct (exec env op w) as [w1 r]. apply IH.
Qed.

(** The guarded index update: the call is made, and the program goes on
    whatever it answers. *)
Lemma run_endUpload_guarded (env : Env) (folder fullId : string) (meta : object)
    (w : World) :
  run env (try_catch (call (EndUpload folder fullId meta)) (fun _ => Ret tt)) w =
  (record_call (EndUpload folder fullId meta) w, inl tt).
Proof.
  rewrite run_try_catch, run_call. cbn [exec].
  by destruct (endUpload_fails env _) as [e|].
Qed.

Lemma dedup_scan_no_endUpload (fid : string) (keys : list string) :
  all_ops (fun c => is_endUpload c = false) (dedup_scan fid keys).
Proof.
  induction keys as [|k keys IH]; cbn [dedup_scan]; [constructor|].
  apply all_ops_bind; [by apply all_ops_call|]. intros fd.
  destruct (strict_eq_str _ _); [constructor|exact IH].
Qed.

Lemma getTelegramChannel_no_endUpload (channelName : string) :
  all_ops (fun c => is_endUpload c = false) (getTelegramChannel channelName).
Proof. unfold getTelegramChannel, JSON_parse_upload. repeat all_ops_step; done. Qed.

Lemma prepare_no_endUpload (chatId : string) (file : FileInfo) :
  all_ops (fun c => is_endUpload c = false) (prepare chatId file).
Proof.
  unfold prepare, JSON_parse_webhook, text_or.
  repeat first
    [ lazymatch goal with
      | |- all_ops _ (getTelegramChannel _) => apply getTelegramChannel_no_endUpload
      | |- all_ops _ (dedup_scan _ _) => apply dedup_scan_no_endUpload
      end
    | all_ops_step ]; done.
Qed.

Lemma primary_write_no_endUpload (fullId : string) (meta : object) (g : option string) :
  all_ops (fun c => is_endUpload c = false) (primary_write fullId meta g).
Proof. unfold primary_write. repeat all_ops_step; done. Qed.

Lemma batch_reply_no_endUpload (api : TelegramAPI) (chatId fullId g : string) :
  all_ops (fun c => is_endUpload c = false) (batch_reply api chatId fullId g).
Proof. unfold batch_reply, JSON_parse_batch. repeat all_ops_step; done. Qed.

Lemma single_reply_no_endUpload (api : TelegramAPI) (chatId fullId : string)
    (meta : object) :
  all_ops (fun c => is_endUpload c = false) (single_reply api chatId fullId meta).
Proof. unfold single_reply. repeat all_ops_step; done. Qed.

(** Runs a prefix that does not call [endUpload] under both behaviours. *)
Ltac same_step env fails :=
  rewrite ?run_bind;
  match goal with
  | |- context [run (with_endUpload env fails) ?p ?w0] =>
      rewrite (run_without_endUpload env fails p)
        by (first [ apply getTelegramChannel_no_endUpload
                  | unfold JSON_parse_webhook; repeat all_ops_step; done ]);
      destruct (run env p w0) as [? [?|?]]; try reflexivity
  end.

Ltac case_option :=
  match goal with
  | |- context [run _ (match ?o with Some _ => _ | None => _ end) _] =>
      destruct o; try reflexivity
  end.

(** X24. The index update is best effort. Whether [endUpload] succeeds or
    throws changes nothing to what the handler does with a file event: for
    any two behaviours of [endUpload], everything else being equal, the
    processing issues the same calls, leaves the same store and ends in the
    same way (the same result or the same error). The same holds of the
    handler of telegramMessageHandler.js. *)
Theorem index_update_is_best_effort (env : Env) (fails : nat -> option string)
    (msg : Message) (chatId : string) (file : FileInfo) (w : World) :
  run (with_endUpload env fails) (store_file msg chatId file) w =
    run env (store_file msg chatId file) w /\
  run (with_endUpload env fails) (Legacy.store_file chatId file) w =
    run env (Legacy.store_file chatId file) w.
Proof.
  split.
  - unfold store_file. rewrite !run_bind.
    rewrite (run_without_endUpload env fails _ (prepare_no_endUpload chatId file)).
    destruct (run env (prepare chatId file) w)
      as [w1 [[r1|[[[config channel] uploadDir] fullId]]|e1]]; try reflexivity.
    unfold write_and_reply. rewrite !run_bind, !run_call. cbn [exec with_endUpload clock].
    rewrite !run_bind.
    rewrite (run_without_endUpload env fails _ (primary_write_no_endUpload _ _ _)).
    destruct (run env (primary_write _ _ _) _) as [w2 [[r2|]|e2]]; try reflexivity.
    unfold index_and_reply. rewrite !run_bind, !run_endUpload_guarded. rewrite !run_bind.
    destruct (group_of (media_group_id msg)) as [g|].
    + by rewrite (run_without_endUpload env fails _ (batch_reply_no_endUpload _ _ _ _)).
    + by rewrite (run_without_endUpload env fails _ (single_reply_no_endUpload _ _ _ _)).
  - unfold Legacy.store_file.
    same_step env fails. destruct (negb (truthy_value _)); [reflexivity|].
    same_step env fails.
    destruct (negb (enabled _) || negb (truthy_str (targetChannel _)))%bool; [reflexivity|].
    same_step env fails. case_option.
    same_step env fails. same_step env fails. same_step env fails. case_option.
    rewrite !run_bind, !run_endUpload_guarded.
    same_step env fails.
Qed.

(* ===================================================================== *)
(** * The reply for a single file is best effort                          *)
(* ===================================================================== *)

(** A program that does not call the notification client does not depend
    on it. *)
Lemma run_without_api (env : Env) (reply : nat -> result Response) {A : Type}
    (p : Prog A) :
  all_ops (fun c => is_api c = false) p ->
  forall w, run (with_api_reply env reply) p w = run env p w.
Proof.
  induction 1 as [a|e|X op k Hop _ IH]; intros w; cbn [run]; try reflexivity.
  assert (Hexec : exec (with_api_reply env reply) op w = exec env op w).
  { destruct op; try reflexivity; discriminate Hop. }
  rewrite Hexec. destruct (exec env op w) as [w1 r]. apply IH.
Qed.

(** The guarded reply: the message is sent, and the program goes on
    whatever the client answers. *)
Lemma run_send_guarded (env : Env) (api : TelegramAPI) (chatId text : string) (w : World) :
  run env (try_catch (call (SendMessage api chatId text) ;;; Ret tt) (fun _ => Ret tt)) w =
  (record_call (SendMessage api chatId text) w, inl tt).
Proof.
  rewrite run_try_catch, run_bind, run_call. cbn [exec].
  by destruct (api_reply env _) as [resp|e].
Qed.

Lemma dedup_scan_no_api (fid : string) (keys : list string) :
  all_ops (fun c => is_api c = false) (dedup_scan fid keys).
Proof.
  induction keys as [|k keys IH]; cbn [dedup_scan]; [constructor|].
  apply all_ops_bind; [by apply all_ops_call|]. intros fd.
  destruct (strict_eq_str _ _); [constructor|exact IH].
Qed.

Lemma getTelegramChannel_no_api (channelName : string) :
  all_ops (fun c => is_api c = false) (getTelegramChannel channelName).
Proof. unfold getTelegramChannel, JSON_parse_upload. repeat all_ops_step; done. Qed.

Lemma prepare_no_api (chatId : string) (file : FileInfo) :
  all_ops (fun c => is_api c = false) (prepare chatId file).
Proof.
  unfold prepare, JSON_parse_webhook, text_or.
  repeat first
    [ lazymatch goal with
      | |- all_ops _ (getTelegramChannel _) => apply getTelegramChannel_no_api
      | |- all_ops _ (dedup_scan _ _) => apply dedup_scan_no_api
      end
    | all_ops_step ]; done.
Qed.

(** Runs a prefix that does not call the notification client under both
    behaviours of the client. *)
Ltac same_api_step env reply :=
  rewrite ?run_bind;
  match goal with
  | |- context [run (with_api_reply env reply) ?p ?w0] =>
      rewrite (run_without_api env reply p)
        by (first [ apply getTelegramChannel_no_api
                  | apply prepare_no_api
                  | unfold JSON_parse_webhook, primary_write; repeat all_ops_step; done ]);
      destruct (run env p w0) as [? [?|?]]; try reflexivity
  end.

(** X25. The reply for a single file is best effort. In the handler of
    telegramMessageHandler.js, and in the handler with media groups for a
    file event without a media group, what [sendMessage] answers, or
    whether it throws, changes nothing: for any two behaviours of the
    notification client, everything else being equal, the processing issues
    the same calls, leaves the same store and ends in the same way. *)
Theorem single_reply_is_best_effort (env : Env) (reply : nat -> result Response)
    (msg : Message) (chatId : string) (file : FileInfo) (w : World) :
  group_of (media_group_id msg) = None ->
  run (with_api_reply env reply) (store_file msg chatId file) w =
    run env (store_file msg chatId file) w /\
  run (with_api_reply env reply) (Legacy.store_file chatId file) w =
    run env (Legacy.store_file chatId file) w.
Proof.
  intros Hgroup. split.
  - unfold store_file. same_api_step env reply.
    match goal with
    | |- context [run _ (match ?s with inl _ => _ | inr _ => _ end) _] =>
        destruct s as [r1|[[[config channel] uploadDir] fullId]]; [reflexivity|]
    end.
    unfold write_and_reply. same_api_step env reply. same_api_step env reply.
    case_option.
    unfold index_and_reply. rewrite Hgroup. unfold single_reply.
    same_api_step env reply. rewrite !run_bind, !run_send_guarded. reflexivity.
  - unfold Legacy.store_file.
    same_api_step env reply. destruct (negb (truthy_value _)); [reflexivity|].
    same_api_step env reply.
    destruct (negb (enabled _) || negb (truthy_str (targetChannel _)))%bool; [reflexivity|].
    same_api_step env reply. case_option.
    same_api_step env reply. same_api_step env reply. same_api_step env reply. case_option.
    same_api_step env reply. rewrite !run_bind, !run_send_guarded. reflexivity.
Qed.

Lemma single_reply_is_best_effort_witness :
  run (with_api_reply Sample.env (fun _ => inr "fetch failed"))
    (store_file (Sample.photo_message None) "42" Sample.photo_file) Sample.world =
  run Sample.env (store_file (Sample.photo_message None) "42" Sample.photo_file)
    Sample.world.
Proof.
  apply (single_reply_is_best_effort Sample.env (fun _ => inr "fetch failed")
           (Sample.photo_message None) "42" Sample.photo_file Sample.world).
  reflexivity.
Defined.
